(** * dxgvmbus: the VM bus message layer of the dxgkrnl paravirtual GPU driver

    A shallow embedding of the parts of [dxgvmbus.c] that build, route and
    send messages to the host, with the properties checked against it.

    Conventions.
    - C integers are [Z] with the wrap-around of their type written out
      ([u32], [u64]).
    - The driver's headers ([dxgkrnl.h], [dxgvmbus.h], [misc.h]) are not part
      of the sources: every constant, macro and [sizeof] they provide is a
      field of the record [header].
    - Calls that leave the file (allocator, transport, user copies, memory
      management, handle table) take their outcome from the record [env] and
      leave an [event] in the trace of the [world].  Inside
      [dxgvmb_send_create_allocation] two stretches that neither allocate
      nor send are taken from [env] in the same way, one event each:
      [copy_private_data] and the user copies and handle registrations of
      [create_local_allocations]; [copy_private_data] and
      [process_allocation_handles] are modelled on their own further down.
    - A kernel fault (NULL dereference, access outside a buffer) is the
      outcome [None] of the monad [M]. *)

From stdpp Require Import base numbers list option gmap.

Local Open Scope Z_scope.

(** ** Machine integers *)

Definition u32 (x : Z) : Z := x mod 2 ^ 32.
Definition u64 (x : Z) : Z := x mod 2 ^ 64.

(** [PAGE_SHIFT] / [PAGE_SIZE] of the 4 KiB page configuration. *)
Definition PAGE_SHIFT : Z := 12.
Definition PAGE_SIZE : Z := 2 ^ PAGE_SHIFT.
Definition PAGE_MASK : Z := u64 (- PAGE_SIZE).

(** ** POSIX error numbers (asm-generic/errno-base.h, errno.h) *)

Definition EPERM : Z := 1.
Definition ENOENT : Z := 2.
Definition EBADF : Z := 9.
Definition EAGAIN : Z := 11.
Definition ENOMEM : Z := 12.
Definition EACCES : Z := 13.
Definition EEXIST : Z := 17.
Definition ENODEV : Z := 19.
Definition EINVAL : Z := 22.
Definition EOVERFLOW : Z := 75.
Definition EPROTOTYPE : Z := 91.
Definition EOPNOTSUPP : Z := 95.
Definition EINPROGRESS : Z := 115.
Definition ENOTRECOVERABLE : Z := 131.

(** ** What the missing headers provide *)

Record header := {
  (* misc.h: the status macro and the NT status values *)
  NT_SUCCESS : Z -> bool;
  STATUS_OBJECT_NAME_COLLISION : Z;
  STATUS_NO_MEMORY : Z;
  STATUS_INVALID_PARAMETER : Z;
  STATUS_OBJECT_NAME_INVALID : Z;
  STATUS_OBJECT_NAME_NOT_FOUND : Z;
  STATUS_TIMEOUT : Z;
  STATUS_BUFFER_TOO_SMALL : Z;
  STATUS_DEVICE_REMOVED : Z;
  STATUS_ACCESS_DENIED : Z;
  STATUS_NOT_SUPPORTED : Z;
  STATUS_ILLEGAL_INSTRUCTION : Z;
  STATUS_INVALID_HANDLE : Z;
  STATUS_GRAPHICS_ALLOCATION_BUSY : Z;
  STATUS_OBJECT_TYPE_MISMATCH : Z;
  STATUS_NOT_IMPLEMENTED : Z;
  (* dxgkrnl.h / dxgvmbus.h: protocol constants *)
  DXGK_VMBUS_INTERFACE_VERSION : Z;
  VMBUSMESSAGEONSTACK : Z;
  DXG_MAX_VM_BUS_PACKET_SIZE : Z;
  D3DDDI_MAX_OBJECT_WAITED_ON : Z;
  (* sizeof of the wire structures *)
  sizeof_dxgvmb_ext_header : Z;
  sizeof_ntstatus : Z;
  sizeof_command_setiospaceregion : Z;
  sizeof_command_signalsyncobject : Z;
  sizeof_command_waitforsyncobjectfromgpu : Z;
  sizeof_command_createhwqueue : Z;
  sizeof_command_destroyhwqueue : Z;
  sizeof_command_getallocationsize : Z;
  sizeof_command_getallocationsize_return : Z;
  sizeof_command_createallocation : Z;
  sizeof_command_createallocation_allocinfo : Z;
  sizeof_command_createallocation_return : Z;
  sizeof_command_allocinfo_return : Z;
  sizeof_command_destroyallocation : Z
}.

(** Modelled from the spec: [struct d3dkmthandle] is declared in a header that
    is not part of the sources; a handle is an opaque 32-bit identifier, read
    and written through its single field [v]. *)
Definition sizeof_d3dkmthandle : Z := 4.
Definition sizeof_u64 : Z := 8.

(** The case labels of the switch in [ntstatus2int], in source order. *)
Definition ntstatus_case_labels (K : header) : list Z :=
  [ STATUS_OBJECT_NAME_COLLISION K; STATUS_NO_MEMORY K;
    STATUS_INVALID_PARAMETER K; STATUS_OBJECT_NAME_INVALID K;
    STATUS_OBJECT_NAME_NOT_FOUND K; STATUS_TIMEOUT K;
    STATUS_BUFFER_TOO_SMALL K; STATUS_DEVICE_REMOVED K;
    STATUS_ACCESS_DENIED K; STATUS_NOT_SUPPORTED K;
    STATUS_ILLEGAL_INSTRUCTION K; STATUS_INVALID_HANDLE K;
    STATUS_GRAPHICS_ALLOCATION_BUSY K; STATUS_OBJECT_TYPE_MISMATCH K;
    STATUS_NOT_IMPLEMENTED K ].

(** The values that the cases of that switch return, in the same order. *)
Definition ntstatus_case_codes : list Z :=
  [ - EEXIST; - ENOMEM; - EINVAL; - ENOENT; - ENOENT; - EAGAIN; - EOVERFLOW;
    - ENODEV; - EACCES; - EPERM; - EOPNOTSUPP; - EBADF; - EINPROGRESS;
    - EPROTOTYPE; - EPERM ].

(** The [int] that a 32-bit constant denotes after the cast [(int)]. *)
Definition int_of_u32 (x : Z) : Z := if x <? 2 ^ 31 then x else x - 2 ^ 32.

(** ** Status translator *)

(** [ntstatus2int]: [status] is the field [v] of [struct ntstatus]. *)
Definition ntstatus2int (K : header) (status : Z) : Z :=
  if NT_SUCCESS K status then status
  else if status =? STATUS_OBJECT_NAME_COLLISION K then - EEXIST
  else if status =? STATUS_NO_MEMORY K then - ENOMEM
  else if status =? STATUS_INVALID_PARAMETER K then - EINVAL
  else if (status =? STATUS_OBJECT_NAME_INVALID K)
          || (status =? STATUS_OBJECT_NAME_NOT_FOUND K) then - ENOENT
  else if status =? STATUS_TIMEOUT K then - EAGAIN
  else if status =? STATUS_BUFFER_TOO_SMALL K then - EOVERFLOW
  else if status =? STATUS_DEVICE_REMOVED K then - ENODEV
  else if status =? STATUS_ACCESS_DENIED K then - EACCES
  else if status =? STATUS_NOT_SUPPORTED K then - EPERM
  else if status =? STATUS_ILLEGAL_INSTRUCTION K then - EOPNOTSUPP
  else if status =? STATUS_INVALID_HANDLE K then - EBADF
  else if status =? STATUS_GRAPHICS_ALLOCATION_BUSY K then - EINPROGRESS
  else if status =? STATUS_OBJECT_TYPE_MISMATCH K then - EPROTOTYPE
  else if status =? STATUS_NOT_IMPLEMENTED K then - EPERM
  else - EINVAL.

(** ** Global state, adapters, channels *)

(** The fields of [dxgglobal] that this file reads. *)
Record dxgglobal_t := {
  vmbus_ver : Z;
  async_msg_enabled : bool;
  mmiospace_base : Z;
  mmiospace_size : Z
}.

Record dxgadapter := {
  adapter_id : Z;
  host_vgpu_luid : Z
}.

(** A channel pointer: [&dxgglobal->channel], [&adapter->channel], or
    the address that [&adapter->channel] denotes when [adapter] is NULL (the
    offset of the member, no channel of any adapter). *)
Inductive channel :=
| global_channel
| adapter_channel (a : dxgadapter)
| null_adapter_channel.

(** ** Wire structures *)

Inductive channel_type := DXGKVMB_VGPU_TO_HOST | DXGKVMB_VM_TO_HOST.

Inductive commandtype :=
| DXGK_VMBCOMMAND_SETIOSPACEREGION
| DXGK_VMBCOMMAND_SIGNALSYNCOBJECT
| DXGK_VMBCOMMAND_WAITFORSYNCOBJECTFROMGPU
| DXGK_VMBCOMMAND_CREATEHWQUEUE
| DXGK_VMBCOMMAND_DESTROYHWQUEUE
| DXGK_VMBCOMMAND_GETALLOCATIONSIZE
| DXGK_VMBCOMMAND_CREATEALLOCATION
| DXGK_VMBCOMMAND_DESTROYALLOCATION
| DXGK_VMBCOMMAND_CREATEPROCESS
| DXGK_VMBCOMMAND_DESTROYPROCESS
| DXGK_VMBCOMMAND_OPENSYNCOBJECT
| DXGK_VMBCOMMAND_CREATENTSHAREDOBJECT
| DXGK_VMBCOMMAND_DESTROYNTSHAREDOBJECT
| DXGK_VMBCOMMAND_DESTROYSYNCOBJECT
| DXGK_VMBCOMMAND_SHAREOBJECTWITHHOST
| DXGK_VMBCOMMAND_PRESENTVIRTUAL.

(** [struct dxgkvmb_command_vm_to_host] and [..._vgpu_to_host]. *)
Record command_hdr := {
  command_type : commandtype;
  process : Z;
  command_id : Z;
  hdr_channel_type : channel_type;
  async_msg : Z
}.

Record dxgvmb_ext_header := {
  command_offset : Z;
  vgpu_luid : Z
}.

(** The bytes that follow a fixed command structure. *)
Definition bytes := list Z.

(** The command structures, one constructor per command;
    the last argument of the variable-length ones is the area after the
    fixed part. *)
Inductive command :=
| command_setiospaceregion (hdr : command_hdr) (start length shared_page_gpadl : Z)
| command_signalsyncobject (hdr : command_hdr)
    (cpu_event_handle device : Z) (enqueue_cpu_event : bool)
    (fence_value object_count context_count : Z) (payload : bytes)
| command_waitforsyncobjectfromgpu (hdr : command_hdr)
    (context object_count : Z) (legacy_fence_object : bool) (payload : bytes)
| command_createhwqueue (hdr : command_hdr)
    (context flags priv_drv_data_size : Z) (priv_drv_data : bytes)
| command_destroyhwqueue (hdr : command_hdr) (hwqueue : Z)
| command_getallocationsize (hdr : command_hdr) (device alloc_count : Z)
    (priv_sizes : list Z)
| command_createallocation (hdr : command_hdr) (device alloc_count : Z)
    (private_runtime_data_size priv_drv_data_size : Z)
    (sysmem_pages_rle_sizes : list Z) (sysmem_pages_rle : list Z)
| command_destroyallocation (hdr : command_hdr) (device alloc_count : Z)
    (assume_not_in_use : bool) (allocations : list Z)
| command_createprocess (hdr : command_hdr)
    (process_pointer process_id linux_process : Z) (process_name : bytes)
| command_destroyprocess (hdr : command_hdr)
| command_opensyncobject (hdr : command_hdr)
    (device global_sync_object flags engine_affinity : Z)
| command_createntsharedobject (hdr : command_hdr) (object : Z)
| command_destroyntsharedobject (hdr : command_hdr) (shared_handle : Z)
| command_destroysyncobject (hdr : command_hdr) (sync_object : Z)
| command_shareobjectwithhost (hdr : command_hdr)
    (device_handle object_handle : Z)
| command_presentvirtual (hdr : command_hdr)
    (acquire_semaphore_nthandle release_semaphore_nthandle
       composition_memory_nthandle private_data_size : Z)
    (private_data : bytes).

(** What goes on the wire: [msg.hdr] with [msg.size]. *)
Record packet := {
  pk_size : Z;
  pk_ext : option dxgvmb_ext_header;
  pk_cmd : command
}.

(** What the host leaves in the result buffer of a synchronous send, and the
    return value of the transport. *)
Record reply := {
  rp_ret : Z;
  rp_status : Z;
  rp_hwqueue : Z;
  rp_hwqueue_progress_fence : Z;
  rp_hwqueue_progress_fence_cpuva : Z;
  rp_hwqueue_progress_fence_gpuva : Z;
  rp_alloc_count : Z;
  rp_allocation_sizes : list Z;
  rp_allocations : list Z;
  rp_hprocess : Z;
  rp_sync_object : Z;
  rp_guest_cpu_physical_address : Z;
  rp_gpu_virtual_address : Z;
  rp_shared_handle : Z;
  rp_vail_nt_handle : Z
}.

Inductive hmgrentry_type :=
| HMGRENTRY_TYPE_DXGHWQUEUE
| HMGRENTRY_TYPE_MONITOREDFENCE.

#[global] Instance hmgrentry_type_eq_dec : EqDecision hmgrentry_type.
Proof. solve_decision. Defined.

(** The fields of [struct dxghwqueue] that this file writes. *)
Record dxghwqueue := {
  hwq_handle : Z;
  progress_fence_sync_object : Z;
  progress_fence_mapped_address : Z
}.

Inductive user_field :=
| uf_queue | uf_queue_progress_fence | uf_queue_progress_fence_cpu_va
| uf_queue_progress_fence_gpu_va | uf_priv_drv_data.

(** ** The environment and the world *)

Record env := {
  kzalloc_ok : Z -> bool;
  vzalloc_ok : Z -> bool;
  dxgglobal_acquire_channel_lock_ret : Z;
  dxgvmb_send_sync_msg_reply : channel -> packet -> Z -> reply;
  dxgvmb_send_async_msg_ret : channel -> packet -> Z;
  copy_to_user_ok : user_field -> bool;
  hmgrtable_assign_handle_ret : hmgrentry_type -> Z -> Z;
  vm_mmap_ret : Z -> Z;
  find_vma_ok : Z -> bool;
  io_remap_pfn_range_ret : Z -> Z -> Z;
  current_mm : bool;
  vm_munmap_ret : Z -> Z -> Z;
  get_user_pages_fast_ret : nat -> Z -> option (list Z);
  copy_private_data_ret : Z;
  create_local_allocations_ret : Z;
  get_task_comm : bytes
}.

Inductive event :=
| EvKzalloc (size : Z)
| EvVzalloc (size : Z)
| EvKfree
| EvVfree
| EvAcquireChannelLock (ret : Z)
| EvReleaseChannelLock
| EvSendSync (ch : channel) (p : packet) (result_size : Z)
| EvSendAsync (ch : channel) (p : packet)
| EvAssignHandle (t : hmgrentry_type) (h : Z) (ret : Z)
| EvFreeHandle (t : hmgrentry_type) (h : Z)
| EvMmap (len : Z) (va : Z)
| EvMunmap (addr len : Z)
| EvCopyToUser (f : user_field)
| EvGetUserPages (i : nat) (npages : Z)
| EvCopyPrivateData
| EvCreateLocalAllocations.

Record world := {
  w_trace : list event;
  w_handles : gmap Z hmgrentry_type;
  w_maps : list (Z * Z)
}.

Definition world0 : world :=
  {| w_trace := []; w_handles := ∅; w_maps := [] |}.

(** State passing with faults. *)
Definition M (A : Type) : Type := world -> option A * world.

Definition mret {A} (a : A) : M A := fun w => (Some a, w).

Definition mbind {A B} (m : M A) (k : A -> M B) : M B :=
  fun w => match m w with
           | (Some a, w') => k a w'
           | (None, w') => (None, w')
           end.

Definition fault {A} : M A := fun w => (None, w).

Definition emit (e : event) : M unit :=
  fun w => (Some tt, {| w_trace := w_trace w ++ [e];
                        w_handles := w_handles w;
                        w_maps := w_maps w |}).

Notation "x <- m ;; k" := (mbind m (fun x => k))
  (at level 100, m at next level, right associativity).
Notation "m ;;; k" := (mbind m (fun _ => k))
  (at level 100, right associativity).

(** ** Message builder *)

Inductive hdr_storage := hdr_NULL | msg_on_stack | hdr_heap.

(** [struct dxgvmbusmsg] / [struct dxgvmbusmsgres]. *)
Record dxgvmbusmsg := {
  msg_hdr : hdr_storage;
  msg_ext : option dxgvmb_ext_header;
  msg_size : Z;
  msg_res_size : Z;
  msg_channel : option channel
}.

(** [struct dxgvmbusmsg msg = {.hdr = NULL}] *)
Definition msg_empty : dxgvmbusmsg :=
  {| msg_hdr := hdr_NULL; msg_ext := None; msg_size := 0;
     msg_res_size := 0; msg_channel := None |}.

Section MessageBuilder.
Variable K : header.
Variable E : env.
Variable dxgglobal : dxgglobal_t.

Definition use_ext_header : bool :=
  DXGK_VMBUS_INTERFACE_VERSION K <=? vmbus_ver dxgglobal.

Definition kzalloc (size : Z) : M bool :=
  emit (EvKzalloc size) ;;; mret (kzalloc_ok E size).

(** [vzalloc] returns NULL for a request of zero bytes. *)
Definition vzalloc (size : Z) : M bool :=
  emit (EvVzalloc size) ;;; mret ((0 <? size) && vzalloc_ok E size).

(** [init_message]: the return value and the message as the function
    leaves it. *)
Definition init_message (adapter : option dxgadapter) (size0 : Z)
  : M (Z * dxgvmbusmsg) :=
  let size := if use_ext_header
              then u32 (size0 + sizeof_dxgvmb_ext_header K) else size0 in
  let ext := if use_ext_header
             then Some {| command_offset := sizeof_dxgvmb_ext_header K;
                          vgpu_luid := match adapter with
                                       | Some a => host_vgpu_luid a
                                       | None => 0
                                       end |}
             else None in
  let ch := match adapter with
            | Some a => if negb (async_msg_enabled dxgglobal)
                        then adapter_channel a else global_channel
            | None => global_channel
            end in
  let built st := {| msg_hdr := st; msg_ext := ext; msg_size := size;
                     msg_res_size := 0; msg_channel := Some ch |} in
  if size <=? VMBUSMESSAGEONSTACK K then
    mret (0, built msg_on_stack)
  else
    ok <- kzalloc size ;;
    if ok then mret (0, built hdr_heap)
    else mret (- ENOMEM,
               {| msg_hdr := hdr_NULL; msg_ext := None; msg_size := size;
                  msg_res_size := 0; msg_channel := None |}).

(** [init_message_res]; [res_size0] is [msg->res_size] on entry.  The
    adapter pointer is used without a NULL test: it is dereferenced for
    [host_vgpu_luid] when the extended header is in use, and
    [&adapter->channel] is taken from it, which reads nothing, when
    asynchronous messages are off. *)
Definition init_message_res (res_size0 : Z) (adapter : option dxgadapter)
    (size0 result_size : Z) : M (Z * dxgvmbusmsg) :=
  let size := if use_ext_header
              then u32 (size0 + sizeof_dxgvmb_ext_header K) else size0 in
  let res_size := u32 (res_size0 + Z.land (u32 (result_size + 7)) (u32 (Z.lnot 7))) in
  ok <- kzalloc (u32 (size + res_size)) ;;
  if negb ok then
    mret (- ENOMEM,
          {| msg_hdr := hdr_NULL; msg_ext := None; msg_size := size;
             msg_res_size := res_size; msg_channel := None |})
  else
    ext <- (if use_ext_header then
              match adapter with
              | Some a => mret (Some {| command_offset := sizeof_dxgvmb_ext_header K;
                                        vgpu_luid := host_vgpu_luid a |})
              | None => fault
              end
            else mret None) ;;
    let ch := if async_msg_enabled dxgglobal then global_channel
              else match adapter with
                   | Some a => adapter_channel a
                   | None => null_adapter_channel
                   end in
    mret (0, {| msg_hdr := hdr_heap; msg_ext := ext; msg_size := size;
                msg_res_size := res_size; msg_channel := Some ch |}).

(** [free_message] *)
Definition free_message (msg : dxgvmbusmsg) : M unit :=
  match msg_hdr msg with
  | hdr_heap => emit EvKfree
  | _ => mret tt
  end.

End MessageBuilder.

(** ** Byte-level helpers *)

(** Little-endian image of an [n]-byte integer. *)
Fixpoint le_bytes (n : nat) (v : Z) : bytes :=
  match n with
  | O => []
  | S n' => (v mod 256) :: le_bytes n' (v / 256)
  end.

(** The memory image of an array of handles / of [u64]. *)
Definition handles_image (l : list Z) : bytes := flat_map (le_bytes 4) l.
Definition u64s_image (l : list Z) : bytes := flat_map (le_bytes 8) l.

Definition blen (b : bytes) : Z := Z.of_nat (length b).

(** [copy_from_user(dst, src, n)]: [src] is the readable extent of the user
    buffer; [None] stands for a non-zero return value. *)
Definition copy_from_user (src : bytes) (n : Z) : option bytes :=
  if n <=? blen src then Some (take (Z.to_nat n) src) else None.

(** [memcpy(dst, src, n)] from a kernel array: reading past it is a fault. *)
Definition memcpy_from (src : bytes) (n : Z) : M bytes :=
  if n <=? blen src then mret (take (Z.to_nat n) src) else fault.

(** Store [data] at offset [off] of a zeroed area: a fault outside of it. *)
Definition area_write (off : Z) (data area : bytes) : M bytes :=
  if (0 <=? off) && (off + blen data <=? blen area)
  then mret (take (Z.to_nat off) area ++ data
             ++ drop (Z.to_nat off + length data) area)
  else fault.

(** The zeroed bytes of a message that follow [used] bytes of command
    structure: a fault when the message is shorter than that. *)
Definition area_after (msg : dxgvmbusmsg) (used : Z) : M bytes :=
  let ext := match msg_ext msg with Some e => command_offset e | None => 0 end in
  let n := msg_size msg - ext - used in
  if 0 <=? n then mret (replicate (Z.to_nat n) 0) else fault.

Definition msg_chan (msg : dxgvmbusmsg) : M channel :=
  match msg_channel msg with Some c => mret c | None => fault end.

Definition mk_packet (msg : dxgvmbusmsg) (c : command) : packet :=
  {| pk_size := msg_size msg; pk_ext := msg_ext msg; pk_cmd := c |}.

(** ** Header initialisers *)

Definition command_vm_to_host_init1 (t : commandtype) : command_hdr :=
  {| command_type := t; process := 0; command_id := 0;
     hdr_channel_type := DXGKVMB_VM_TO_HOST; async_msg := 0 |}.

Definition command_vm_to_host_init2 (t : commandtype) (p : Z) : command_hdr :=
  {| command_type := t; process := p; command_id := 0;
     hdr_channel_type := DXGKVMB_VM_TO_HOST; async_msg := 0 |}.

Definition command_vgpu_to_host_init1 (t : commandtype) : command_hdr :=
  {| command_type := t; process := 0; command_id := 0;
     hdr_channel_type := DXGKVMB_VGPU_TO_HOST; async_msg := 0 |}.

Definition command_vgpu_to_host_init2 (t : commandtype) (p : Z) : command_hdr :=
  {| command_type := t; process := p; command_id := 0;
     hdr_channel_type := DXGKVMB_VGPU_TO_HOST; async_msg := 0 |}.

Definition set_async_msg (h : command_hdr) : command_hdr :=
  {| command_type := command_type h; process := process h;
     command_id := command_id h; hdr_channel_type := hdr_channel_type h;
     async_msg := 1 |}.

(** ** Transport, channel lock, memory windows *)

Section Transport.
Variable K : header.
Variable E : env.
Variable dxgglobal : dxgglobal_t.

(** [dxgvmb_send_sync_msg] (external). *)
Definition dxgvmb_send_sync_msg (ch : channel) (p : packet) (result_size : Z)
  : M reply :=
  emit (EvSendSync ch p result_size) ;;;
  mret (dxgvmb_send_sync_msg_reply E ch p result_size).

(** [dxgvmb_send_async_msg] (external). *)
Definition dxgvmb_send_async_msg (ch : channel) (p : packet) : M Z :=
  emit (EvSendAsync ch p) ;;; mret (dxgvmb_send_async_msg_ret E ch p).

(** [dxgvmb_send_sync_msg_ntstatus]; the status buffer is allocated without
    a NULL test and read when the transport reports success. *)
Definition dxgvmb_send_sync_msg_ntstatus (ch : channel) (p : packet) : M Z :=
  ok <- kzalloc E (sizeof_ntstatus K) ;;
  r <- dxgvmb_send_sync_msg ch p (sizeof_ntstatus K) ;;
  ret <- (if 0 <=? rp_ret r
          then (if ok then mret (ntstatus2int K (rp_status r)) else fault)
          else mret (rp_ret r)) ;;
  (if ok then emit EvKfree else mret tt) ;;;
  mret ret.

(** [dxgglobal_acquire_channel_lock] / [dxgglobal_release_channel_lock]
    (external). *)
Definition dxgglobal_acquire_channel_lock : M Z :=
  emit (EvAcquireChannelLock (dxgglobal_acquire_channel_lock_ret E)) ;;;
  mret (dxgglobal_acquire_channel_lock_ret E).

Definition dxgglobal_release_channel_lock : M unit :=
  emit EvReleaseChannelLock.

(** [check_iospace_address]: [address] is an [unsigned long], [size] a
    [u32], the window bounds are [u64]. *)
Definition check_iospace_address (address size : Z) : Z :=
  if (address <? mmiospace_base dxgglobal)
     || (mmiospace_size dxgglobal <? size)
     || (u64 (mmiospace_base dxgglobal + mmiospace_size dxgglobal - size)
         <=? address)
  then - EINVAL else 0.

Definition add_map (va len : Z) : M unit :=
  fun w => (Some tt, {| w_trace := w_trace w; w_handles := w_handles w;
                        w_maps := (va, len) :: w_maps w |}).

Definition del_map (addr : Z) : M unit :=
  fun w => (Some tt, {| w_trace := w_trace w; w_handles := w_handles w;
                        w_maps := filter (fun m => m.1 ≠ addr) (w_maps w) |}).

(** [dxg_unmap_iospace] *)
Definition dxg_unmap_iospace (va size : Z) : M Z :=
  let page_addr := Z.land va PAGE_MASK in
  if current_mm E then
    emit (EvMunmap page_addr size) ;;;
    let ret := vm_munmap_ret E page_addr size in
    if negb (ret =? 0) then mret (- ENOTRECOVERABLE)
    else del_map page_addr ;;; mret 0
  else mret 0.

(** [dxg_map_iospace]: the result is the returned pointer, 0 for NULL. *)
Definition dxg_map_iospace (iospace_address size : Z) (cached : bool) : M Z :=
  if check_iospace_address iospace_address size <? 0 then mret 0
  else
    let va := vm_mmap_ret E size in
    emit (EvMmap size va) ;;;
    if va <=? 0 then mret 0
    else
      add_map va size ;;;
      let ret := if find_vma_ok E va
                 then io_remap_pfn_range_ret E va
                        (Z.shiftr iospace_address PAGE_SHIFT)
                 else - ENOMEM in
      if negb (ret =? 0) then
        dxg_unmap_iospace va size ;;; mret 0
      else mret (u64 (va + iospace_address mod PAGE_SIZE)).

(** [dxgvmb_send_set_iospace_region] *)
Definition dxgvmb_send_set_iospace_region (start len shared_mem_gpadl : Z)
  : M Z :=
  rm <- init_message K E dxgglobal None
                   (sizeof_command_setiospaceregion K) ;;
  let '(ret, msg) := rm in
  if negb (ret =? 0) then mret ret
  else
    ret <- dxgglobal_acquire_channel_lock ;;
    if ret <? 0 then free_message msg ;;; mret ret
    else
      let command :=
        command_setiospaceregion
          (command_vm_to_host_init1 DXGK_VMBCOMMAND_SETIOSPACEREGION)
          start len shared_mem_gpadl in
      ret <- dxgvmb_send_sync_msg_ntstatus global_channel
               (mk_packet msg command) ;;
      dxgglobal_release_channel_lock ;;;
      free_message msg ;;;
      mret ret.

(** [dxgvmb_send_signal_sync_object]: the copies into the area after the
    fixed structure; [inl] is the error value of a failed user copy. *)
Definition signal_copy (user_address : bool) (src : bytes) (n off : Z)
    (area : bytes) : M (Z + bytes) :=
  if user_address then
    match copy_from_user src n with
    | Some d => a <- area_write off d area ;; mret (inr a)
    | None => mret (inl (- EINVAL))
    end
  else
    d <- memcpy_from src n ;;
    a <- area_write off d area ;; mret (inr a).

Definition dxgvmb_send_signal_sync_object
    (process_host_handle : Z) (adapter : option dxgadapter)
    (enqueue_cpu_event : bool) (legacy_fence_value : Z) (context : Z)
    (object_count : Z) (objects : list Z)
    (context_count : Z) (contexts : list Z)
    (fence_count : Z) (fences : option (list Z))
    (cpu_event_handle : Z) (device : Z) (user_address : bool) : M Z :=
  let object_size := u32 (object_count * sizeof_d3dkmthandle) in
  let context_size := u32 (context_count * sizeof_d3dkmthandle) in
  let fence_size := match fences with
                    | Some _ => u32 (fence_count * sizeof_u64)
                    | None => 0
                    end in
  let cmd_size0 := u32 (sizeof_command_signalsyncobject K
                        + object_size + context_size + fence_size) in
  let cmd_size := if negb (context =? 0)
                  then u32 (cmd_size0 + sizeof_d3dkmthandle) else cmd_size0 in
  rm <- init_message K E dxgglobal adapter cmd_size ;;
  let '(ret, msg) := rm in
  if negb (ret =? 0) then free_message msg ;;; mret ret
  else
    let hdr := command_vgpu_to_host_init2 DXGK_VMBCOMMAND_SIGNALSYNCOBJECT
                 process_host_handle in
    area0 <- area_after msg (sizeof_command_signalsyncobject K) ;;
    r1 <- signal_copy user_address (handles_image objects) object_size 0 area0 ;;
    match r1 with
    | inl e => free_message msg ;;; mret e
    | inr area1 =>
      let pos1 := object_size in
      area2 <- (if negb (context =? 0)
                then area_write pos1 (le_bytes 4 context) area1
                else mret area1) ;;
      let count2 := if negb (context =? 0)
                    then u32 (context_count + 1) else context_count in
      let pos2 := if negb (context =? 0)
                  then pos1 + sizeof_d3dkmthandle else pos1 in
      r3 <- (if negb (context_size =? 0)
             then signal_copy user_address (handles_image contexts)
                    context_size pos2 area2
             else mret (inr area2)) ;;
      match r3 with
      | inl e => free_message msg ;;; mret e
      | inr area3 =>
        let pos3 := if negb (context_size =? 0)
                    then pos2 + context_size else pos2 in
        r4 <- (if negb (fence_size =? 0)
               then signal_copy user_address
                      (u64s_image (default [] fences)) fence_size pos3 area3
               else mret (inr area3)) ;;
        match r4 with
        | inl e => free_message msg ;;; mret e
        | inr area4 =>
          let command h :=
            command_signalsyncobject h
              (if enqueue_cpu_event then cpu_event_handle else 0)
              (if enqueue_cpu_event then 0 else device)
              enqueue_cpu_event legacy_fence_value object_count count2
              area4 in
          ch <- msg_chan msg ;;
          ret <- (if async_msg_enabled dxgglobal
                  then dxgvmb_send_async_msg ch
                         (mk_packet msg (command (set_async_msg hdr)))
                  else dxgvmb_send_sync_msg_ntstatus ch
                         (mk_packet msg (command hdr))) ;;
          free_message msg ;;;
          mret ret
        end
      end
    end.

(** [dxgvmb_send_wait_sync_object_gpu]; [cmd_size] subtracts one [u64] from
    the fixed structure, whose last member [fence_values] is where the
    copies start. *)
Definition dxgvmb_send_wait_sync_object_gpu
    (process_host_handle : Z) (adapter : option dxgadapter) (context : Z)
    (object_count : Z) (objects : list Z) (fences : list Z)
    (legacy_fence : bool) : M Z :=
  let fence_size := u32 (object_count * sizeof_u64) in
  let object_size := u32 (object_count * sizeof_d3dkmthandle) in
  let cmd_size := u32 (object_size + fence_size - sizeof_u64
                       + sizeof_command_waitforsyncobjectfromgpu K) in
  if (object_count =? 0) || (D3DDDI_MAX_OBJECT_WAITED_ON K <? object_count)
  then free_message msg_empty ;;; mret (- EINVAL)
  else
    rm <- init_message K E dxgglobal adapter cmd_size ;;
    let '(ret, msg) := rm in
    if negb (ret =? 0) then free_message msg ;;; mret ret
    else
      let hdr := command_vgpu_to_host_init2
                   DXGK_VMBCOMMAND_WAITFORSYNCOBJECTFROMGPU
                   process_host_handle in
      area0 <- area_after msg
                 (sizeof_command_waitforsyncobjectfromgpu K - sizeof_u64) ;;
      f <- memcpy_from (u64s_image fences) fence_size ;;
      area1 <- area_write 0 f area0 ;;
      o <- memcpy_from (handles_image objects) object_size ;;
      area2 <- area_write fence_size o area1 ;;
      let command h :=
        command_waitforsyncobjectfromgpu h context object_count
          legacy_fence area2 in
      ch <- msg_chan msg ;;
      ret <- (if async_msg_enabled dxgglobal
              then dxgvmb_send_async_msg ch
                     (mk_packet msg (command (set_async_msg hdr)))
              else dxgvmb_send_sync_msg_ntstatus ch
                     (mk_packet msg (command hdr))) ;;
      free_message msg ;;;
      mret ret.

(** *** Hardware queues *)

(** Modelled from the spec: the handle table is not part of the sources; it
    is a lookup keyed by handle and typed by entry kind.  Whether a
    registration succeeds is the table's decision ([env]); a successful one
    adds the entry. *)
Definition hmgrtable_assign_handle_safe (t : hmgrentry_type) (h : Z) : M Z :=
  let ret := hmgrtable_assign_handle_ret E t h in
  emit (EvAssignHandle t h ret) ;;;
  (fun w => (Some ret,
             {| w_trace := w_trace w;
                w_handles := if 0 <=? ret then <[h := t]> (w_handles w)
                             else w_handles w;
                w_maps := w_maps w |})).

(** Modelled from the spec: freeing removes the entry of that handle when
    it has the given kind. *)
Definition hmgrtable_free_handle_safe (t : hmgrentry_type) (h : Z) : M unit :=
  emit (EvFreeHandle t h) ;;;
  (fun w => (Some tt,
             {| w_trace := w_trace w;
                w_handles := if decide (w_handles w !! h = Some t)
                             then delete h (w_handles w) else w_handles w;
                w_maps := w_maps w |})).

(** [copy_to_user] of one output field; [true] stands for the return
    value 0. *)
Definition copy_to_user (f : user_field) : M bool :=
  emit (EvCopyToUser f) ;;; mret (copy_to_user_ok E f).

(** [dxgvmb_send_destroy_hwqueue] *)
Definition dxgvmb_send_destroy_hwqueue (process_host_handle : Z)
    (adapter : option dxgadapter) (handle : Z) : M Z :=
  rm <- init_message K E dxgglobal adapter (sizeof_command_destroyhwqueue K) ;;
  let '(ret, msg) := rm in
  if negb (ret =? 0) then free_message msg ;;; mret ret
  else
    let command :=
      command_destroyhwqueue
        (command_vgpu_to_host_init2 DXGK_VMBCOMMAND_DESTROYHWQUEUE
           process_host_handle) handle in
    ch <- msg_chan msg ;;
    ret <- dxgvmb_send_sync_msg_ntstatus ch (mk_packet msg command) ;;
    free_message msg ;;;
    mret ret.

(** The label [cleanup] of [dxgvmb_send_create_hwqueue]; [command_hwqueue]
    is [None] while [command] is NULL, else [command->hwqueue.v]. *)
Definition create_hwqueue_cleanup (process_host_handle : Z)
    (adapter : option dxgadapter) (msg : dxgvmbusmsg)
    (command_hwqueue : option Z) (ret : Z) (hwqueue : dxghwqueue)
  : M (Z * dxghwqueue) :=
  hwqueue' <-
    (if ret <? 0 then
       hq <- (if negb (hwq_handle hwqueue =? 0) then
                hmgrtable_free_handle_safe HMGRENTRY_TYPE_DXGHWQUEUE
                  (hwq_handle hwqueue) ;;;
                mret {| hwq_handle := 0;
                        progress_fence_sync_object :=
                          progress_fence_sync_object hwqueue;
                        progress_fence_mapped_address :=
                          progress_fence_mapped_address hwqueue |}
              else mret hwqueue) ;;
       match command_hwqueue with
       | Some h =>
           if negb (h =? 0)
           then dxgvmb_send_destroy_hwqueue process_host_handle adapter h ;;;
                mret hq
           else mret hq
       | None => mret hq
       end
     else mret hwqueue) ;;
  free_message msg ;;;
  mret (ret, hwqueue').

(** [dxgvmb_send_create_hwqueue], from the return of the send on: [rp] is
    what the transport returned and left in [command]. *)
Definition create_hwqueue_result (process_host_handle : Z)
    (adapter : option dxgadapter) (msg : dxgvmbusmsg)
    (priv_drv_data_size : Z) (rp : reply) (hwqueue : dxghwqueue)
  : M (Z * dxghwqueue) :=
  let cleanup := create_hwqueue_cleanup process_host_handle adapter msg
                   (Some (rp_hwqueue rp)) in
  if rp_ret rp <? 0 then cleanup (rp_ret rp) hwqueue
  else
    let ret := ntstatus2int K (rp_status rp) in
    if ret <? 0 then cleanup ret hwqueue
    else
      ret <- hmgrtable_assign_handle_safe HMGRENTRY_TYPE_DXGHWQUEUE
               (rp_hwqueue rp) ;;
      if ret <? 0 then cleanup ret hwqueue
      else
        ret <- hmgrtable_assign_handle_safe HMGRENTRY_TYPE_MONITOREDFENCE
                 (rp_hwqueue_progress_fence rp) ;;
        if ret <? 0 then cleanup ret hwqueue
        else
          va <- dxg_map_iospace (rp_hwqueue_progress_fence_cpuva rp)
                  PAGE_SIZE true ;;
          let hwqueue1 :=
            {| hwq_handle := rp_hwqueue rp;
               progress_fence_sync_object := rp_hwqueue_progress_fence rp;
               progress_fence_mapped_address := va |} in
          if va =? 0 then cleanup (- ENOMEM) hwqueue1
          else
            ok <- copy_to_user uf_queue ;;
            if negb ok then cleanup (- EINVAL) hwqueue1
            else
            ok <- copy_to_user uf_queue_progress_fence ;;
            if negb ok then cleanup (- EINVAL) hwqueue1
            else
            ok <- copy_to_user uf_queue_progress_fence_cpu_va ;;
            if negb ok then cleanup (- EINVAL) hwqueue1
            else
            ok <- copy_to_user uf_queue_progress_fence_gpu_va ;;
            if negb ok then cleanup (- EINVAL) hwqueue1
            else
            if negb (priv_drv_data_size =? 0) then
              ok <- copy_to_user uf_priv_drv_data ;;
              cleanup (if ok then 0 else - EINVAL) hwqueue1
            else cleanup 0 hwqueue1.

(** [dxgvmb_send_create_hwqueue]; [priv_drv_data] is the readable extent of
    the user buffer [args->priv_drv_data].  The result of the send is
    written over [command]. *)
Definition dxgvmb_send_create_hwqueue (process_host_handle : Z)
    (adapter : option dxgadapter)
    (context flags priv_drv_data_size : Z) (priv_drv_data : bytes)
    (hwqueue : dxghwqueue) : M (Z * dxghwqueue) :=
  let cleanup := create_hwqueue_cleanup process_host_handle adapter in
  if DXG_MAX_VM_BUS_PACKET_SIZE K <? priv_drv_data_size then
    cleanup msg_empty None (- EINVAL) hwqueue
  else
    let cmd_size :=
      if negb (priv_drv_data_size =? 0)
      then u32 (sizeof_command_createhwqueue K + (priv_drv_data_size - 1))
      else sizeof_command_createhwqueue K in
    rm <- init_message K E dxgglobal adapter cmd_size ;;
    let '(ret, msg) := rm in
    if negb (ret =? 0) then cleanup msg None ret hwqueue
    else
      let hdr := command_vgpu_to_host_init2 DXGK_VMBCOMMAND_CREATEHWQUEUE
                   process_host_handle in
      area0 <- area_after msg (sizeof_command_createhwqueue K - 1) ;;
      r <- (if negb (priv_drv_data_size =? 0) then
              match copy_from_user priv_drv_data priv_drv_data_size with
              | Some d => a <- area_write 0 d area0 ;; mret (inr a)
              | None => mret (inl (- EINVAL))
              end
            else mret (inr area0)) ;;
      match r with
      | inl e => cleanup msg (Some 0) e hwqueue
      | inr area1 =>
        let command :=
          command_createhwqueue hdr context flags priv_drv_data_size area1 in
        ch <- msg_chan msg ;;
        rp <- dxgvmb_send_sync_msg ch (mk_packet msg command) cmd_size ;;
        create_hwqueue_result process_host_handle adapter msg
          priv_drv_data_size rp hwqueue
      end.

End Transport.

(** ** Allocation creation *)

Definition INT_MAX : Z := 2 ^ 31 - 1.
Definition EFAULT : Z := 14.

(** The fields of [struct d3dddi_allocationinfo] that this file reads;
    [sysmem] is a user pointer (0 for NULL), [priv_drv_data] the readable
    extent of the user buffer of that name. *)
Record d3dddi_allocationinfo := {
  sysmem : Z;
  priv_drv_data_size : Z;
  priv_drv_data : bytes
}.

(** The fields of [struct d3dkmt_createallocation] that this file reads. *)
Record d3dkmt_createallocation := {
  device : Z;
  alloc_count : Z;
  private_runtime_data_size : Z;
  args_priv_drv_data_size : Z
}.

(** [page_to_phys] of a page given by its frame number. *)
Definition page_to_phys (pfn : Z) : Z := u64 (pfn * PAGE_SIZE).

(** The locals of the page loop of [copy_sysmem_pages_rle_data]; [rle_out]
    are the records stored through [sysmem_pages_rle_dest] for the current
    allocation, whose number is [alloc_info->sysmem_pages_rle_size]. *)
Record rle_cursor := {
  rle_out : list Z;
  sysmem_pages_rle_used : Z;
  base_page : Z;
  pages_seen : Z;
  page_in : nat
}.

(** The test that decides whether the iteration stores a record. *)
Definition rle_flush (npages pages_processed curr_page base pages_seen : Z)
  : bool :=
  (negb (pages_processed =? 0)
   && negb (curr_page =? u64 (base + pages_seen * PAGE_SIZE)))
  || (pages_seen =? PAGE_SIZE)
  || (pages_processed =? npages).

(** One iteration of the page loop: the error value, if any, and the
    locals after it. *)
Definition rle_step (sysmem_pages_rle_limit npages : Z) (pages : list Z)
    (pages_processed : Z) (c : rle_cursor) : Z * rle_cursor :=
  let curr_page := page_to_phys (default 0 (pages !! page_in c)) in
  let base := if base_page c =? 0 then curr_page else base_page c in
  let next_in := if pages_processed <? u32 (npages - 1)
                 then S (page_in c) else page_in c in
  if rle_flush npages pages_processed curr_page base (pages_seen c) then
    if sysmem_pages_rle_limit <=? sysmem_pages_rle_used c then
      (- EOVERFLOW,
       {| rle_out := rle_out c;
          sysmem_pages_rle_used := sysmem_pages_rle_used c;
          base_page := base; pages_seen := pages_seen c;
          page_in := page_in c |})
    else
      (0,
       {| rle_out := rle_out c ++ [Z.lor base (u32 (pages_seen c - 1))];
          sysmem_pages_rle_used := u32 (sysmem_pages_rle_used c + 1);
          base_page := curr_page; pages_seen := 1;
          page_in := next_in |})
  else
    (0,
     {| rle_out := rle_out c;
        sysmem_pages_rle_used := sysmem_pages_rle_used c;
        base_page := base; pages_seen := u32 (pages_seen c + 1);
        page_in := next_in |}).

(** The page loop, [n] iterations from [pages_processed]. *)
Fixpoint rle_loop (sysmem_pages_rle_limit npages : Z) (pages : list Z)
    (n : nat) (pages_processed : Z) (c : rle_cursor) : Z * rle_cursor :=
  match n with
  | O => (0, c)
  | S n' =>
      let '(ret, c') :=
        rle_step sysmem_pages_rle_limit npages pages pages_processed c in
      if ret =? 0
      then rle_loop sysmem_pages_rle_limit npages pages n'
             (pages_processed + 1) c'
      else (ret, c')
  end.

(** The page count that a record announces: its low [PAGE_SHIFT] bits
    plus one. *)
Definition rle_record_pages (r : Z) : Z := Z.land r (PAGE_SIZE - 1) + 1.

Definition rle_total_pages (rs : list Z) : Z :=
  foldr (fun r acc => rle_record_pages r + acc) 0 rs.

(** [calculate_max_rle_data_size] *)
Definition calculate_max_rle_data_size (result_alloc_count : Z)
    (allocation_sizes : list Z) : Z :=
  let num_pages :=
    foldl (fun acc sz => u64 (acc + u64 (sz + PAGE_SIZE - 1) / PAGE_SIZE)) 0
      (take (Z.to_nat result_alloc_count) allocation_sizes) in
  u64 (num_pages * sizeof_u64).

(** The loop that adds up the per-allocation private data sizes, as written
    in [dxgvmb_send_get_allocation_size] and in
    [dxgvmb_send_create_allocation]. *)
Fixpoint total_priv_drv_data_size (max : Z) (l : list d3dddi_allocationinfo)
    (acc : Z) : Z + Z :=
  match l with
  | [] => inr acc
  | a :: l' =>
      if max <=? priv_drv_data_size a then inl (- EOVERFLOW)
      else
        let acc' := u32 (acc + priv_drv_data_size a) in
        if max <=? acc' then inl (- EOVERFLOW)
        else total_priv_drv_data_size max l' acc'
  end.

(** [get_allocation_size_private_data_copy]: the user copies, in order. *)
Fixpoint get_allocation_size_private_data_copy
    (l : list d3dddi_allocationinfo) : Z :=
  match l with
  | [] => 0
  | a :: l' =>
      if negb (priv_drv_data_size a =? 0) then
        match copy_from_user (priv_drv_data a) (priv_drv_data_size a) with
        | Some _ => get_allocation_size_private_data_copy l'
        | None => - EINVAL
        end
      else get_allocation_size_private_data_copy l'
  end.

Section Allocation.
Variable K : header.
Variable E : env.
Variable dxgglobal : dxgglobal_t.

(** The body of the allocation loop of [copy_sysmem_pages_rle_data] for
    allocation [i]: the error value, the records stored for it and the
    running count of records. *)
Definition rle_alloc (i : nat) (sysmem_pages_rle_limit : Z)
    (input_alloc : d3dddi_allocationinfo) (curr_alloc_size : Z)
    (used : Z) : M (Z * list Z * Z) :=
  if negb (priv_drv_data_size input_alloc =? 0) && (0 <? curr_alloc_size)
  then
    let npages := u32 (Z.shiftr curr_alloc_size PAGE_SHIFT) in
    ok <- vzalloc E (npages * 8) ;;
    if negb ok then mret (- ENOMEM, [], used)
    else
      emit (EvGetUserPages i npages) ;;;
      let got := get_user_pages_fast_ret E i npages in
      let pages := default [] got in
      let ret1 := match got with
                  | Some l => if blen l <=? INT_MAX then blen l else - EFAULT
                  | None => - EFAULT
                  end in
      if negb (u32 ret1 =? npages) then
        emit EvVfree ;;; mret (- ENOMEM, [], used)
      else
        let '(ret, c) :=
          rle_loop sysmem_pages_rle_limit npages pages
            (Z.to_nat (npages + 1)) 0
            {| rle_out := []; sysmem_pages_rle_used := used;
               base_page := 0; pages_seen := 0; page_in := O |} in
        mret (ret, rle_out c, sysmem_pages_rle_used c)
  else mret (0, [], used).

(** The allocation loop, from allocation [i] on. *)
Fixpoint rle_allocs (i : nat) (sysmem_pages_rle_limit : Z)
    (l : list (d3dddi_allocationinfo * Z)) (used : Z)
  : M (Z * list (list Z)) :=
  match l with
  | [] => mret (0, [])
  | (input_alloc, curr_alloc_size) :: l' =>
      r <- rle_alloc i sysmem_pages_rle_limit input_alloc curr_alloc_size
             used ;;
      let '(ret, recs, used') := r in
      if ret =? 0 then
        r' <- rle_allocs (S i) sysmem_pages_rle_limit l' used' ;;
        let '(ret', out) := r' in
        mret (ret', recs :: out)
      else mret (ret, [recs])
  end.

(** [copy_sysmem_pages_rle_data]: the return value and, per allocation
    reached, the records stored for it ([sysmem_pages_rle_dest] receives
    their concatenation).  [input_alloc_info] and [allocation_sizes] hold
    [alloc_count] entries each. *)
Definition copy_sysmem_pages_rle_data (args : d3dkmt_createallocation)
    (input_alloc_info : list d3dddi_allocationinfo)
    (allocation_sizes : list Z) (sysmem_pages_rle_limit : Z)
  : M (Z * list (list Z)) :=
  rle_allocs O sysmem_pages_rle_limit
    (take (Z.to_nat (alloc_count args))
       (zip input_alloc_info allocation_sizes)) 0.

(** [dxgvmb_send_get_allocation_size]: the return value and the result
    buffer (its [alloc_count] and the sizes after it), zero until the host
    fills it. *)
Definition dxgvmb_send_get_allocation_size (process_host_handle : Z)
    (adapter : option dxgadapter) (args : d3dkmt_createallocation)
    (alloc_info : list d3dddi_allocationinfo) (result_size : Z)
  : M (Z * (Z * list Z)) :=
  let infos := take (Z.to_nat (alloc_count args)) alloc_info in
  let zeroed := (0, replicate (Z.to_nat (alloc_count args)) 0) in
  match total_priv_drv_data_size (DXG_MAX_VM_BUS_PACKET_SIZE K) infos 0 with
  | inl e => free_message msg_empty ;;; mret (e, zeroed)
  | inr priv_size =>
    let cmd_size := u32 (sizeof_command_getallocationsize K
                         + alloc_count args * 4 + priv_size) in
    if DXG_MAX_VM_BUS_PACKET_SIZE K <? cmd_size
    then free_message msg_empty ;;; mret (- EOVERFLOW, zeroed)
    else
      rm <- init_message K E dxgglobal adapter cmd_size ;;
      let '(ret, msg) := rm in
      if negb (ret =? 0) then free_message msg ;;; mret (ret, zeroed)
      else
        let command :=
          command_getallocationsize
            (command_vgpu_to_host_init2 DXGK_VMBCOMMAND_GETALLOCATIONSIZE
               process_host_handle)
            (device args) (alloc_count args)
            (map priv_drv_data_size infos) in
        let ret := get_allocation_size_private_data_copy infos in
        if ret <? 0 then free_message msg ;;; mret (ret, zeroed)
        else
          ch <- msg_chan msg ;;
          rp <- dxgvmb_send_sync_msg E ch (mk_packet msg command)
                  result_size ;;
          let result := (rp_alloc_count rp, rp_allocation_sizes rp) in
          if rp_ret rp <? 0 then free_message msg ;;; mret (rp_ret rp, result)
          else if negb (rp_alloc_count rp =? alloc_count args)
          then free_message msg ;;; mret (- EINVAL, result)
          else free_message msg ;;;
               mret (ntstatus2int K (rp_status rp), result)
  end.

(** The label [cleanup] of [dxgvmb_send_create_allocation]. *)
Definition create_allocation_cleanup (result allocation_size_result : bool)
    (msg : dxgvmbusmsg) (ret : Z) : M Z :=
  (if result then emit EvVfree else mret tt) ;;;
  (if allocation_size_result then emit EvVfree else mret tt) ;;;
  free_message msg ;;;
  mret ret.

(** [create_local_allocations]; [allocations] are the handles that the host
    left in [result->allocation_info], read as zero where it left none.
    The message of the compensating destroy command is built first.  What
    follows up to the label [cleanup] sends nothing and allocates nothing:
    the copies of the handles and of the private data to user memory and
    [process_allocation_handles]; [create_local_allocations_ret] is the
    value of [ret] with which they reach the label.  On a negative [ret]
    the destroy command is sent before the message is released; this
    includes the -ENOMEM of a failed [init_message], after which the
    transport is handed the NULL [msg.channel]: a fault, as everywhere in
    this model. *)
Definition create_local_allocations (process_host_handle : Z)
    (adapter : option dxgadapter) (args : d3dkmt_createallocation)
    (allocations : list Z) (destroy_buffer_size : Z) : M Z :=
  let count := int_of_u32 (alloc_count args) in
  rm <- init_message K E dxgglobal adapter destroy_buffer_size ;;
  let '(ret, msg) := rm in
  ret <- (if negb (ret =? 0) then mret ret
          else emit EvCreateLocalAllocations ;;;
               mret (create_local_allocations_ret E)) ;;
  (if ret <? 0 then
     let destroy_buf :=
       command_destroyallocation
         (command_vgpu_to_host_init2 DXGK_VMBCOMMAND_DESTROYALLOCATION
            process_host_handle)
         (device args) (u32 count) true
         (map (fun i => default 0 (allocations !! i))
            (seq 0 (Z.to_nat count))) in
     ch <- msg_chan msg ;;
     dxgvmb_send_sync_msg_ntstatus K E ch (mk_packet msg destroy_buf) ;;;
     mret tt
   else mret tt) ;;;
  free_message msg ;;;
  mret ret.

(** [dxgvmb_send_create_allocation].  [copy_private_data] is taken from the
    environment. *)
Definition dxgvmb_send_create_allocation (process_host_handle : Z)
    (adapter : option dxgadapter) (args : d3dkmt_createallocation)
    (alloc_info : list d3dddi_allocationinfo) : M Z :=
  let max := DXG_MAX_VM_BUS_PACKET_SIZE K in
  let infos := take (Z.to_nat (alloc_count args)) alloc_info in
  if (max <=? private_runtime_data_size args)
     || (max <=? args_priv_drv_data_size args)
  then create_allocation_cleanup false false msg_empty (- EOVERFLOW)
  else
  let destroy_buffer_size :=
    u32 (sizeof_command_destroyallocation K
         + alloc_count args * sizeof_d3dkmthandle) in
  match total_priv_drv_data_size max infos 0 with
  | inl e => create_allocation_cleanup false false msg_empty e
  | inr priv_size0 =>
    let is_sysmem :=
      (0 <? alloc_count args)
      && negb (default 0 (sysmem <$> head alloc_info) =? 0) in
    if existsb (fun a => sysmem a =? 0) (drop 1 infos)
    then create_allocation_cleanup false false msg_empty (- EINVAL)
    else
    let result_size :=
      u32 (sizeof_command_createallocation_return K
           + u32 (alloc_count args - 1) * sizeof_command_allocinfo_return K
           + priv_size0) in
    ok <- vzalloc E result_size ;;
    if negb ok
    then create_allocation_cleanup false false msg_empty (- ENOMEM)
    else
    let priv_size := u32 (priv_size0 + args_priv_drv_data_size args) in
    let allocation_size_result_size :=
      u32 (sizeof_command_getallocationsize_return K
           + alloc_count args * sizeof_u64) in
    ok <- vzalloc E allocation_size_result_size ;;
    if negb ok
    then create_allocation_cleanup true false msg_empty (- ENOMEM)
    else
    r <- (if is_sysmem
          then dxgvmb_send_get_allocation_size process_host_handle adapter
                 args alloc_info allocation_size_result_size
          else mret (0, (0, replicate (Z.to_nat (alloc_count args)) 0))) ;;
    let '(ret, (res_count, allocation_sizes)) := r in
    if is_sysmem && (ret <? 0)
    then create_allocation_cleanup true true msg_empty ret
    else
    let cmd_size0 :=
      u32 (sizeof_command_createallocation K
           + alloc_count args * sizeof_command_createallocation_allocinfo K
           + private_runtime_data_size args + priv_size) in
    let sysmem_pages_rle_limit :=
      if is_sysmem
      then u32 (calculate_max_rle_data_size res_count allocation_sizes)
      else 0 in
    let cmd_size :=
      if is_sysmem then u32 (cmd_size0 + sysmem_pages_rle_limit)
      else cmd_size0 in
    if max <? cmd_size
    then create_allocation_cleanup true true msg_empty (- EOVERFLOW)
    else
    rm <- init_message K E dxgglobal adapter cmd_size ;;
    let '(ret, msg) := rm in
    if negb (ret =? 0) then create_allocation_cleanup true true msg ret
    else
    emit EvCopyPrivateData ;;;
    let ret := copy_private_data_ret E in
    if ret <? 0 then create_allocation_cleanup true true msg ret
    else
    r <- (if is_sysmem
          then copy_sysmem_pages_rle_data args alloc_info allocation_sizes
                 sysmem_pages_rle_limit
          else mret (0, [])) ;;
    let '(ret, rle) := r in
    if ret <? 0 then create_allocation_cleanup true true msg ret
    else
    let command :=
      command_createallocation
        (command_vgpu_to_host_init2 DXGK_VMBCOMMAND_CREATEALLOCATION
           process_host_handle)
        (device args) (alloc_count args) (private_runtime_data_size args)
        (args_priv_drv_data_size args)
        (map blen rle) (concat rle) in
    ch <- msg_chan msg ;;
    rp <- dxgvmb_send_sync_msg E ch (mk_packet msg command) result_size ;;
    if rp_ret rp <? 0 then create_allocation_cleanup true true msg (rp_ret rp)
    else
    let ret := ntstatus2int K (rp_status rp) in
    if ret <? 0 then create_allocation_cleanup true true msg ret
    else
    ret <- create_local_allocations process_host_handle adapter args
             (rp_allocations rp) destroy_buffer_size ;;
    create_allocation_cleanup true true msg ret
  end.

End Allocation.

(** ** Reading traces *)

(** The transport calls of a trace, in order. *)
Fixpoint sends (t : list event) : list (channel * packet) :=
  match t with
  | [] => []
  | EvSendSync ch p _ :: t' => (ch, p) :: sends t'
  | EvSendAsync ch p :: t' => (ch, p) :: sends t'
  | _ :: t' => sends t'
  end.

Definition is_lock_event (e : event) : bool :=
  match e with
  | EvAcquireChannelLock _ | EvReleaseChannelLock => true
  | _ => false
  end.


(** Whether every transport call of the trace happens while the channel
    lock is held; [held] is the state of the lock before the trace. *)
Fixpoint sends_under_lock (held : bool) (t : list event) : bool :=
  match t with
  | [] => true
  | EvAcquireChannelLock ret :: t' =>
      sends_under_lock (if 0 <=? ret then true else held) t'
  | EvReleaseChannelLock :: t' => sends_under_lock false t'
  | EvSendSync _ _ _ :: t' => held && sends_under_lock held t'
  | EvSendAsync _ _ :: t' => held && sends_under_lock held t'
  | _ :: t' => sends_under_lock held t'
  end.

(** The state of the channel lock after the trace. *)
Fixpoint lock_after (held : bool) (t : list event) : bool :=
  match t with
  | [] => held
  | EvAcquireChannelLock ret :: t' =>
      lock_after (if 0 <=? ret then true else held) t'
  | EvReleaseChannelLock :: t' => lock_after false t'
  | _ :: t' => lock_after held t'
  end.

(** The channel-selection rule in the words of the specification: the
    adapter's own channel when there is an adapter context and asynchronous
    messages are off, the global channel otherwise. *)
Definition channel_rule (adapter : option dxgadapter) (async : bool) : channel :=
  match adapter, async with
  | Some a, false => adapter_channel a
  | _, _ => global_channel
  end.

(** A computation only appends events, all of them satisfying [P]. *)
Definition emits {A} (P : event -> Prop) (m : M A) : Prop :=
  forall w, exists t, w_trace (m w).2 = w_trace w ++ t /\ Forall P t.

(** The page count announced for an allocation of [copy_sysmem_pages_rle_data]. *)
Definition alloc_npages (x : d3dddi_allocationinfo * Z) : Z :=
  if negb (priv_drv_data_size x.1 =? 0) && (0 <? x.2)
  then u32 (Z.shiftr x.2 PAGE_SHIFT) else 0.

(** Sizes that a header can give: non-negative and far from the wrap-around
    of [u32]. *)
Definition small (x : Z) : Prop := 0 <= x < 2 ^ 16.

Record header_sane (K : header) : Prop := {
  sane_ext : small (sizeof_dxgvmb_ext_header K);
  sane_stack : small (VMBUSMESSAGEONSTACK K);
  sane_signal : small (sizeof_command_signalsyncobject K);
  sane_wait : 8 <= sizeof_command_waitforsyncobjectfromgpu K < 2 ^ 16;
  sane_destroyhwqueue : small (sizeof_command_destroyhwqueue K);
  sane_waited_on : small (D3DDDI_MAX_OBJECT_WAITED_ON K);
  sane_max : 0 < DXG_MAX_VM_BUS_PACKET_SIZE K < 2 ^ 31
}.

(** ** A sample configuration

    Values for the constants of the missing headers and an environment in
    which every external call succeeds, to run the model on concrete
    inputs.  The status macros have the values of the Windows NT status
    codes they are named after, cast to [int], and [NT_SUCCESS] is the NT
    test of the severity, [status.v >= 0]; the sizes are sample values. *)

(** [STATUS_PENDING], the success code that line 3083 compares with. *)
Definition STATUS_PENDING : Z := int_of_u32 0x00000103.

Definition sample_header : header := {|
  NT_SUCCESS := fun v => 0 <=? v;
  STATUS_OBJECT_NAME_COLLISION := int_of_u32 0xC0000035;
  STATUS_NO_MEMORY := int_of_u32 0xC0000017;
  STATUS_INVALID_PARAMETER := int_of_u32 0xC000000D;
  STATUS_OBJECT_NAME_INVALID := int_of_u32 0xC0000033;
  STATUS_OBJECT_NAME_NOT_FOUND := int_of_u32 0xC0000034;
  STATUS_TIMEOUT := int_of_u32 0x00000102;
  STATUS_BUFFER_TOO_SMALL := int_of_u32 0xC0000023;
  STATUS_DEVICE_REMOVED := int_of_u32 0xC00002B6;
  STATUS_ACCESS_DENIED := int_of_u32 0xC0000022;
  STATUS_NOT_SUPPORTED := int_of_u32 0xC00000BB;
  STATUS_ILLEGAL_INSTRUCTION := int_of_u32 0xC000001D;
  STATUS_INVALID_HANDLE := int_of_u32 0xC0000008;
  STATUS_GRAPHICS_ALLOCATION_BUSY := int_of_u32 0xC01E0102;
  STATUS_OBJECT_TYPE_MISMATCH := int_of_u32 0xC0000024;
  STATUS_NOT_IMPLEMENTED := int_of_u32 0xC0000002;
  DXGK_VMBUS_INTERFACE_VERSION := 40;
  VMBUSMESSAGEONSTACK := 64;
  DXG_MAX_VM_BUS_PACKET_SIZE := 1024 * 128;
  D3DDDI_MAX_OBJECT_WAITED_ON := 32;
  sizeof_dxgvmb_ext_header := 32;
  sizeof_ntstatus := 4;
  sizeof_command_setiospaceregion := 40;
  sizeof_command_signalsyncobject := 56;
  sizeof_command_waitforsyncobjectfromgpu := 40;
  sizeof_command_createhwqueue := 64;
  sizeof_command_destroyhwqueue := 24;
  sizeof_command_getallocationsize := 32;
  sizeof_command_getallocationsize_return := 8;
  sizeof_command_createallocation := 56;
  sizeof_command_createallocation_allocinfo := 16;
  sizeof_command_createallocation_return := 40;
  sizeof_command_allocinfo_return := 24;
  sizeof_command_destroyallocation := 40
|}.

Definition sample_reply : reply := {|
  rp_ret := 0;
  rp_status := 0;
  rp_hwqueue := 0x40000001;
  rp_hwqueue_progress_fence := 0x40000002;
  rp_hwqueue_progress_fence_cpuva := 0x10002000;
  rp_hwqueue_progress_fence_gpuva := 0x20000000;
  rp_alloc_count := 0;
  rp_allocation_sizes := [];
  rp_allocations := [];
  rp_hprocess := 0x40000010;
  rp_sync_object := 0x40000011;
  rp_guest_cpu_physical_address := 0x10003000;
  rp_gpu_virtual_address := 0x20001000;
  rp_shared_handle := 0x40000012;
  rp_vail_nt_handle := 0x40000013
|}.

(** [user_ok] decides the copies to user memory, [pages] the frames that
    pinning returns. *)
Definition sample_env (user_ok : user_field -> bool) (pages : list Z) : env := {|
  kzalloc_ok := fun _ => true;
  vzalloc_ok := fun _ => true;
  dxgglobal_acquire_channel_lock_ret := 0;
  dxgvmb_send_sync_msg_reply := fun _ _ _ => sample_reply;
  dxgvmb_send_async_msg_ret := fun _ _ => 0;
  copy_to_user_ok := user_ok;
  hmgrtable_assign_handle_ret := fun _ _ => 0;
  vm_mmap_ret := fun _ => 0x7f0000001000;
  find_vma_ok := fun _ => true;
  io_remap_pfn_range_ret := fun _ _ => 0;
  current_mm := true;
  vm_munmap_ret := fun _ _ => 0;
  get_user_pages_fast_ret := fun _ _ => Some pages;
  copy_private_data_ret := 0;
  create_local_allocations_ret := 0;
  get_task_comm := [100; 120; 103; 0]
|}.

Definition sample_global (async : bool) : dxgglobal_t := {|
  vmbus_ver := 40;
  async_msg_enabled := async;
  mmiospace_base := 0x10000000;
  mmiospace_size := 0x100000
|}.

(** The same with a host whose protocol version is older than
    [DXGK_VMBUS_INTERFACE_VERSION]: no extended header. *)
Definition sample_global_old (async : bool) : dxgglobal_t := {|
  vmbus_ver := 39;
  async_msg_enabled := async;
  mmiospace_base := 0x10000000;
  mmiospace_size := 0x100000
|}.

Definition sample_adapter : dxgadapter :=
  {| adapter_id := 1; host_vgpu_luid := 0x1234 |}.

(** ** Further models, readers and samples *)

(** What the page loop maintains before iteration [k]: an aligned base, a
    run of at most [PAGE_SIZE] pages, every page so far counted once, and
    the running count of records within the budget. *)
Record rle_inv (limit used0 k : Z) (c : rle_cursor) : Prop := {
  inv_aligned : Z.land (base_page c) (PAGE_SIZE - 1) = 0;
  inv_seen : 0 <= pages_seen c <= PAGE_SIZE;
  inv_seen_pos : 1 <= k -> 1 <= pages_seen c;
  inv_total : rle_total_pages (rle_out c) + pages_seen c = k;
  inv_used : sysmem_pages_rle_used c = used0 + Z.of_nat (length (rle_out c));
  inv_budget : sysmem_pages_rle_used c <= limit
}.

(** The pages that a record stands for: [count + 1] pages from its base
    address, the record without its low [PAGE_SHIFT] bits. *)
Definition rle_record_base (r : Z) : Z := Z.ldiff r (PAGE_SIZE - 1).

Definition rle_run (base n : Z) : list Z :=
  map (fun j => u64 (base + Z.of_nat j * PAGE_SIZE)) (seq 0 (Z.to_nat n)).

Definition rle_decode (rs : list Z) : list Z :=
  flat_map (fun r => rle_run (rle_record_base r) (rle_record_pages r)) rs.

(** What the page loop maintains before iteration [k >= 1] when every page
    has a non-zero physical address: the records stored and the run that is
    open stand for the first [k] pages, in order. *)
Record rle_rt (npages k : Z) (pages : list Z) (c : rle_cursor) : Prop := {
  rt_base_nz : base_page c <> 0;
  rt_base_range : 0 <= base_page c < 2 ^ 64;
  rt_aligned : Z.land (base_page c) (PAGE_SIZE - 1) = 0;
  rt_seen : 1 <= pages_seen c <= PAGE_SIZE;
  rt_in : Z.of_nat (page_in c) = Z.min k (npages - 1);
  rt_decode :
    rle_decode (rle_out c) ++ rle_run (base_page c) (pages_seen c)
    = map page_to_phys (take (Z.to_nat k) pages)
}.

(** An allocation backed by three pages of system memory, and the
    arguments of a call that creates [n] allocations. *)
Definition sample_sysmem_alloc : d3dddi_allocationinfo :=
  {| sysmem := 0x7000; priv_drv_data_size := 8;
     priv_drv_data := replicate 8 0 |}.

Definition sample_create_args (n : Z) : d3dkmt_createallocation :=
  {| device := 7; alloc_count := n; private_runtime_data_size := 0;
     args_priv_drv_data_size := 0 |}.

(** An environment whose host answers every synchronous message with the
    given allocation sizes. *)
Definition sample_env_host_sizes (sizes : list Z) : env := {|
  kzalloc_ok := fun _ => true;
  vzalloc_ok := fun _ => true;
  dxgglobal_acquire_channel_lock_ret := 0;
  dxgvmb_send_sync_msg_reply := fun _ _ _ =>
    {| rp_ret := 0; rp_status := 0; rp_hwqueue := 0;
       rp_hwqueue_progress_fence := 0;
       rp_hwqueue_progress_fence_cpuva := 0;
       rp_hwqueue_progress_fence_gpuva := 0;
       rp_alloc_count := Z.of_nat (length sizes);
       rp_allocation_sizes := sizes;
       rp_allocations := [];
       rp_hprocess := 0; rp_sync_object := 0;
       rp_guest_cpu_physical_address := 0; rp_gpu_virtual_address := 0;
       rp_shared_handle := 0; rp_vail_nt_handle := 0 |};
  dxgvmb_send_async_msg_ret := fun _ _ => 0;
  copy_to_user_ok := fun _ => true;
  hmgrtable_assign_handle_ret := fun _ _ => 0;
  vm_mmap_ret := fun _ => 0x7f0000001000;
  find_vma_ok := fun _ => true;
  io_remap_pfn_range_ret := fun _ _ => 0;
  current_mm := true;
  vm_munmap_ret := fun _ _ => 0;
  get_user_pages_fast_ret := fun _ _ => None;
  copy_private_data_ret := 0;
  create_local_allocations_ret := 0;
  get_task_comm := [100; 120; 103; 0]
|}.

(** [n] page frames of which no two follow each other. *)
Definition scattered_pages (n : Z) : list Z :=
  map (fun j => 1 + 2 * Z.of_nat j) (seq 0 (Z.to_nat n)).

(** An environment in which pinning returns scattered pages. *)
Definition sample_env_scattered (sizes : list Z) : env := {|
  kzalloc_ok := fun _ => true;
  vzalloc_ok := fun _ => true;
  dxgglobal_acquire_channel_lock_ret := 0;
  dxgvmb_send_sync_msg_reply :=
    dxgvmb_send_sync_msg_reply (sample_env_host_sizes sizes);
  dxgvmb_send_async_msg_ret := fun _ _ => 0;
  copy_to_user_ok := fun _ => true;
  hmgrtable_assign_handle_ret := fun _ _ => 0;
  vm_mmap_ret := fun _ => 0x7f0000001000;
  find_vma_ok := fun _ => true;
  io_remap_pfn_range_ret := fun _ _ => 0;
  current_mm := true;
  vm_munmap_ret := fun _ _ => 0;
  get_user_pages_fast_ret := fun _ n => Some (scattered_pages n);
  copy_private_data_ret := 0;
  create_local_allocations_ret := 0;
  get_task_comm := [100; 120; 103; 0]
|}.

(** An allocation backed by system memory that has no private driver data:
    [copy_sysmem_pages_rle_data] skips it. *)
Definition sample_sysmem_alloc_bare : d3dddi_allocationinfo :=
  {| sysmem := 0x9000; priv_drv_data_size := 0; priv_drv_data := [] |}.

(** The create-allocation message of a trace: its size and the number of
    page records it carries. *)
Definition createallocation_sent (t : list event) : list (Z * Z) :=
  omap (fun cp => match pk_cmd cp.2 with
                  | command_createallocation _ _ _ _ _ _ rle =>
                      Some (pk_size cp.2, Z.of_nat (length rle))
                  | _ => None
                  end) (sends t).

(** An environment in which no VMA is found for a fresh mapping. *)
Definition sample_env_no_vma : env := {|
  kzalloc_ok := fun _ => true;
  vzalloc_ok := fun _ => true;
  dxgglobal_acquire_channel_lock_ret := 0;
  dxgvmb_send_sync_msg_reply := fun _ _ _ => sample_reply;
  dxgvmb_send_async_msg_ret := fun _ _ => 0;
  copy_to_user_ok := fun _ => true;
  hmgrtable_assign_handle_ret := fun _ _ => 0;
  vm_mmap_ret := fun _ => 0x7f0000001000;
  find_vma_ok := fun _ => false;
  io_remap_pfn_range_ret := fun _ _ => 0;
  current_mm := true;
  vm_munmap_ret := fun _ _ => 0;
  get_user_pages_fast_ret := fun _ _ => None;
  copy_private_data_ret := 0;
  create_local_allocations_ret := 0;
  get_task_comm := [100; 120; 103; 0]
|}.

(** ** Existing system memory: the page frame messages

    [create_existing_sysmem], when guest pages are mapped by the host: the
    page frame numbers travel in messages of at most [max_pfns_in_message]
    entries. *)

(** [max_pfns_in_message]: the subtraction is done in [size_t] and the
    quotient stored in a [u32]; [sizeof_set_pages_command] is
    [sizeof(struct dxgkvmb_command_setexistingsysmempages)]. *)
Definition max_pfns_in_message (K : header) (sizeof_set_pages_command : Z)
  : Z :=
  u32 (u64 (DXG_MAX_VM_BUS_PACKET_SIZE K - sizeof_set_pages_command
            - PAGE_SIZE) / sizeof_u64).

(** What one message of the loop carries after the fixed header. *)
Record set_pages_message := {
  sp_num_pages : Z;
  sp_alloc_offset_in_pages : Z;
  sp_pfns : list Z
}.

(** The [while] loop: [send] is the result of
    [dxgvmb_send_sync_msg_ntstatus] for a message, [page_in] the pages not
    yet sent, [ret] the value of [ret] on entry.  The result is the value
    of [ret] after the loop and the messages sent; [None] when [fuel]
    iterations did not end the loop. *)
Fixpoint set_existing_sysmem_pages (fuel : nat) (max_pfns npages : Z)
    (send : set_pages_message -> Z) (page_in : list Z)
    (alloc_offset_in_pages ret : Z) : option (Z * list set_pages_message) :=
  if alloc_offset_in_pages <? npages then
    match fuel with
    | O => None
    | S fuel' =>
        let pages_to_send :=
          Z.min (u32 (npages - alloc_offset_in_pages)) max_pfns in
        let m := {| sp_num_pages := pages_to_send;
                    sp_alloc_offset_in_pages := alloc_offset_in_pages;
                    sp_pfns := take (Z.to_nat pages_to_send) page_in |} in
        let ret := send m in
        if ret <? 0 then Some (ret, [m])
        else
          match set_existing_sysmem_pages fuel' max_pfns npages send
                  (drop (Z.to_nat pages_to_send) page_in)
                  (u32 (alloc_offset_in_pages + pages_to_send)) ret with
          | Some (r, ms) => Some (r, m :: ms)
          | None => None
          end
    end
  else Some (ret, []).

(** Messages whose offsets continue each other from [off]. *)
Fixpoint offsets_from (off : Z) (ms : list set_pages_message) : Prop :=
  match ms with
  | [] => True
  | m :: ms' =>
      sp_alloc_offset_in_pages m = off /\
      offsets_from (off + sp_num_pages m) ms'
  end.

(** ** Local handles of new allocations

    [process_allocation_handles]: the handle table is taken as a state
    machine, [hmgrtable_assign_handle] giving the return value and the
    table after the call. *)

Inductive alloc_entry_type :=
| HMGRENTRY_TYPE_DXGRESOURCE
| HMGRENTRY_TYPE_DXGALLOCATION.

(** The fields of [struct dxgresource] and [struct dxgallocation] that the
    function writes. *)
Record dxgresource := {
  resource_handle : Z;
  resource_handle_valid : bool
}.

Record dxgallocation := {
  alloc_handle : Z;
  alloc_handle_valid : bool
}.

Section ProcessAllocationHandles.
Variable hmgrtable : Type.
Variable hmgrtable_assign_handle :
  hmgrtable -> alloc_entry_type -> Z -> Z * hmgrtable.

(** The loop over the allocations; [ret] is the value of [ret] on entry,
    [host_allocs] are [res->allocation_info[i].allocation] for the indices
    still to do. *)
Fixpoint assign_alloc_handles (tb : hmgrtable) (host_allocs : list Z)
    (dxgalloc : list dxgallocation) (ret : Z)
  : Z * hmgrtable * list dxgallocation :=
  match host_allocs, dxgalloc with
  | h :: host_allocs', a :: dxgalloc' =>
      let '(ret1, tb1) :=
        hmgrtable_assign_handle tb HMGRENTRY_TYPE_DXGALLOCATION h in
      if ret1 <? 0 then (ret1, tb1, a :: dxgalloc')
      else
        let '(r, tb2, rest) :=
          assign_alloc_handles tb1 host_allocs' dxgalloc' ret1 in
        (r, tb2, {| alloc_handle := h; alloc_handle_valid := true |} :: rest)
  | _, _ => (ret, tb, dxgalloc)
  end.

Definition process_allocation_handles (tb : hmgrtable)
    (create_resource : bool) (alloc_count : Z) (res_resource : Z)
    (res_allocation_info : list Z) (dxgalloc : list dxgallocation)
    (resource : dxgresource)
  : Z * hmgrtable * dxgresource * list dxgallocation :=
  let '(ret0, tb0, resource') :=
    if create_resource then
      let '(ret, tb') :=
        hmgrtable_assign_handle tb HMGRENTRY_TYPE_DXGRESOURCE res_resource in
      if ret <? 0 then (ret, tb', resource)
      else (ret, tb', {| resource_handle := res_resource;
                         resource_handle_valid := true |})
    else (0, tb, resource) in
  let n := Z.to_nat alloc_count in
  let '(ret, tb1, assigned) :=
    assign_alloc_handles tb0 (take n res_allocation_info) (take n dxgalloc)
      ret0 in
  (ret, tb1, resource', assigned ++ drop n dxgalloc).

End ProcessAllocationHandles.

(** A handle table that accepts every allocation handle and, when
    [resource_ret] is negative, refuses the resource handle. *)
Definition sample_assign (resource_ret : Z) (tb : unit)
    (t : alloc_entry_type) (h : Z) : Z * unit :=
  (match t with
   | HMGRENTRY_TYPE_DXGRESOURCE => resource_ret
   | HMGRENTRY_TYPE_DXGALLOCATION => 0
   end, tb).

Definition sample_dxgalloc : list dxgallocation :=
  [ {| alloc_handle := 0; alloc_handle_valid := false |};
    {| alloc_handle := 0; alloc_handle_valid := false |} ].

(** ** CPU access to an allocation

    [dxgvmb_send_lock2] once the host has answered with success: the part
    under the handle table lock. *)

(** The fields of [struct dxgallocation] that the function reads and
    writes. *)
Record dxgallocation_cpu := {
  cpu_address : Z;
  cpu_address_mapped : bool;
  cpu_address_refcount : Z;
  num_pages : Z;
  cached : bool
}.

Section Lock2.
Variable E : env.
Variable dxgglobal : dxgglobal_t.

(** The wrap-around of the type of [cpu_address_refcount], which is
    declared in a header that is not among the sources. *)
Variable refcount_t : Z -> Z.

(** [alloc] is what [hmgrtable_get_object_by_type] returns, [data] the
    value of [args->data] on entry, [copy_to_user_ok] whether
    [copy_to_user] returns 0.  The result is [ret], the allocation and
    [args->data]. *)
Definition lock2_locked (alloc : option dxgallocation_cpu) (data : Z)
    (cpu_visible_buffer_offset : Z) (copy_to_user_ok : bool)
  : M (Z * option dxgallocation_cpu * Z) :=
  match alloc with
  | None => mret (- EINVAL, None, data)
  | Some a =>
      let size := u32 (num_pages a * PAGE_SIZE) in
      r <- (if negb (cpu_address a =? 0) then
              mret (cpu_address a,
                    if cpu_address_mapped a
                    then {| cpu_address := cpu_address a;
                            cpu_address_mapped := true;
                            cpu_address_refcount :=
                              refcount_t (cpu_address_refcount a + 1);
                            num_pages := num_pages a; cached := cached a |}
                    else a)
            else
              va <- dxg_map_iospace E dxgglobal
                      (u64 cpu_visible_buffer_offset) size (cached a) ;;
              if negb (va =? 0) then
                mret (va, {| cpu_address := va; cpu_address_mapped := true;
                             cpu_address_refcount := 1;
                             num_pages := num_pages a; cached := cached a |})
              else mret (0, a)) ;;
      let '(data1, a1) := r in
      if data1 =? 0 then mret (- ENOMEM, Some a1, data1)
      else if copy_to_user_ok then mret (0, Some a1, data1)
      else
        let refcount := refcount_t (cpu_address_refcount a1 - 1) in
        if refcount =? 0 then
          dxg_unmap_iospace E (cpu_address a1) size ;;;
          mret (- EINVAL,
                Some {| cpu_address := 0; cpu_address_mapped := false;
                        cpu_address_refcount := refcount;
                        num_pages := num_pages a1; cached := cached a1 |},
                data1)
        else
          mret (- EINVAL,
                Some {| cpu_address := cpu_address a1;
                        cpu_address_mapped := cpu_address_mapped a1;
                        cpu_address_refcount := refcount;
                        num_pages := num_pages a1; cached := cached a1 |},
                data1)
  end.

End Lock2.

(** A one-page allocation with the given CPU address state. *)
Definition sample_alloc_cpu (address : Z) (mapped : bool) (refcount : Z)
  : dxgallocation_cpu :=
  {| cpu_address := address; cpu_address_mapped := mapped;
     cpu_address_refcount := refcount; num_pages := 1; cached := true |}.

(** ** Private data of a create-allocation command

    [copy_private_data]: what is stored through [private_data_dest], in
    order.  [private_runtime_data], [priv_drv_data] and the [priv_drv_data]
    of the allocations are the readable extents of the user buffers,
    [standard_alloc] is the image of [*standard_alloc], whose size is
    [sizeof_createstandardallocation]. *)

(** The loop over the allocations: the return value and the bytes
    stored. *)
Fixpoint copy_alloc_private_data (l : list d3dddi_allocationinfo)
  : Z * bytes :=
  match l with
  | [] => (0, [])
  | a :: l' =>
      if negb (priv_drv_data_size a =? 0) then
        match copy_from_user (priv_drv_data a) (priv_drv_data_size a) with
        | Some d =>
            let '(ret, rest) := copy_alloc_private_data l' in
            (ret, d ++ rest)
        | None => (- EINVAL, [])
        end
      else copy_alloc_private_data l'
  end.

(** The result is the return value, the bytes stored and
    [args->priv_drv_data_size] on return. *)
Definition copy_private_data (sizeof_createstandardallocation : Z)
    (args : d3dkmt_createallocation) (private_runtime_data : bytes)
    (priv_drv_data : bytes) (standard_allocation : bool)
    (standard_alloc : bytes) (input_alloc_info : list d3dddi_allocationinfo)
  : Z * bytes * Z :=
  let size0 := args_priv_drv_data_size args in
  match (if negb (private_runtime_data_size args =? 0)
         then copy_from_user private_runtime_data
                (private_runtime_data_size args)
         else Some []) with
  | None => (- EINVAL, [], size0)
  | Some d1 =>
      match (if standard_allocation
             then Some (standard_alloc, sizeof_createstandardallocation)
             else if negb (size0 =? 0)
                  then match copy_from_user priv_drv_data size0 with
                       | Some d => Some (d, size0)
                       | None => None
                       end
                  else Some ([], size0)) with
      | None => (- EINVAL, d1, size0)
      | Some (d2, size1) =>
          let '(ret, d3) :=
            copy_alloc_private_data
              (take (Z.to_nat (alloc_count args)) input_alloc_info) in
          (ret, d1 ++ d2 ++ d3, size1)
      end
  end.

(** [n] page frames that follow each other from [p0]. *)
Definition contiguous_pages (p0 n : Z) : list Z :=
  map (fun j => p0 + Z.of_nat j) (seq 0 (Z.to_nat n)).

(** What [dxgvmb_send_create_allocation] may put on the wire: an event
    that is not a transport call; a create-allocation or
    get-allocation-size message of at most [bound] bytes; a
    destroy-allocation message of [destroy_size] bytes. *)
Definition create_allocation_packet (bound destroy_size : Z) (e : event)
  : Prop :=
  match e with
  | EvSendSync _ p _ | EvSendAsync _ p =>
      match pk_cmd p with
      | command_createallocation _ _ _ _ _ _ _
      | command_getallocationsize _ _ _ _ => pk_size p <= bound
      | command_destroyallocation _ _ _ _ _ => pk_size p = destroy_size
      | _ => False
      end
  | _ => True
  end.

(** An event that is not a transport call, or a transport call on the
    channel [c]. *)
Definition sends_on (c : channel) (e : event) : Prop :=
  match e with
  | EvSendSync ch _ _ | EvSendAsync ch _ => ch = c
  | _ => True
  end.

(** ** Two threads

    Modelled from the spec: the channel lock is "a single exclusive lock"
    (its implementation is not part of the sources).  A schedule lists the
    events of two threads in the order in which they happen, each with the
    thread that made it. *)
Inductive interleaving
  : list event -> list event -> list (bool * event) -> Prop :=
| interleaving_nil : interleaving [] [] []
| interleaving_first e t1 t2 t :
    interleaving t1 t2 t -> interleaving (e :: t1) t2 ((false, e) :: t)
| interleaving_second e t1 t2 t :
    interleaving t1 t2 t -> interleaving t1 (e :: t2) ((true, e) :: t).

(** The schedule in which the second thread runs after the first [n] events
    of the first one. *)
Definition schedule_after (n : nat) (t1 t2 : list event)
  : list (bool * event) :=
  map (pair false) (take n t1) ++ map (pair true) t2
  ++ map (pair false) (drop n t1).

(** Whether a schedule respects the exclusive lock: nobody acquires it
    while [owner] holds it, and only its holder releases it. *)
Fixpoint lock_exclusive (owner : option bool) (t : list (bool * event))
  : bool :=
  match t with
  | [] => true
  | (th, EvAcquireChannelLock ret) :: t' =>
      if 0 <=? ret then
        match owner with
        | None => lock_exclusive (Some th) t'
        | Some _ => false
        end
      else lock_exclusive owner t'
  | (th, EvReleaseChannelLock) :: t' =>
      match owner with
      | Some o => bool_decide (o = th) && lock_exclusive None t'
      | None => false
      end
  | _ :: t' => lock_exclusive owner t'
  end.

#[global] Instance dxgadapter_eq_dec : EqDecision dxgadapter.
Proof. solve_decision. Defined.

#[global] Instance channel_eq_dec : EqDecision channel.
Proof. solve_decision. Defined.

(** The threads that make a transport call on the channel [c] while the
    other thread holds the lock. *)
Fixpoint sends_beside_holder (c : channel) (owner : option bool)
    (t : list (bool * event)) : list bool :=
  match t with
  | [] => []
  | (th, EvAcquireChannelLock ret) :: t' =>
      sends_beside_holder c (if 0 <=? ret then Some th else owner) t'
  | (th, EvReleaseChannelLock) :: t' => sends_beside_holder c None t'
  | (th, EvSendSync ch _ _) :: t' | (th, EvSendAsync ch _) :: t' =>
      match owner with
      | Some o =>
          if bool_decide (ch = c) && negb (bool_decide (o = th))
          then th :: sends_beside_holder c owner t'
          else sends_beside_holder c owner t'
      | None => sends_beside_holder c owner t'
      end
  | _ :: t' => sends_beside_holder c owner t'
  end.

Definition is_send (e : event) : bool :=
  match e with
  | EvSendSync _ _ _ | EvSendAsync _ _ => true
  | _ => false
  end.

(** The heap buffers of [kzalloc] that a trace leaves allocated: one more
    for every successful [kzalloc], one less for every [kfree] of a
    buffer. *)
Definition kheap_event (E : env) (e : event) : Z :=
  match e with
  | EvKzalloc n => if kzalloc_ok E n then 1 else 0
  | EvKfree => -1
  | _ => 0
  end.

Definition kheap (E : env) (t : list event) : Z :=
  foldr (fun e acc => kheap_event E e + acc) 0 t.

(** Whether a message holds a heap buffer. *)
Definition msg_heap (msg : dxgvmbusmsg) : Z :=
  match msg_hdr msg with
  | hdr_heap => 1
  | _ => 0
  end.

(** A computation only appends events; when it returns [a], the events
    change the number of heap buffers by [d a]. *)
Definition kheap_by {A} (E : env) (d : A -> Z) (m : M A) : Prop :=
  forall w, exists t,
    w_trace (m w).2 = w_trace w ++ t /\
    forall a, (m w).1 = Some a -> kheap E t = d a.

(** An environment whose handle table takes the queue handle and refuses
    the progress fence handle. *)
Definition sample_env_fence_refused : env := {|
  kzalloc_ok := fun _ => true;
  vzalloc_ok := fun _ => true;
  dxgglobal_acquire_channel_lock_ret := 0;
  dxgvmb_send_sync_msg_reply := fun _ _ _ => sample_reply;
  dxgvmb_send_async_msg_ret := fun _ _ => 0;
  copy_to_user_ok := fun _ => true;
  hmgrtable_assign_handle_ret :=
    fun t _ => match t with
               | HMGRENTRY_TYPE_DXGHWQUEUE => 0
               | HMGRENTRY_TYPE_MONITOREDFENCE => - ENOMEM
               end;
  vm_mmap_ret := fun _ => 0x7f0000001000;
  find_vma_ok := fun _ => true;
  io_remap_pfn_range_ret := fun _ _ => 0;
  current_mm := true;
  vm_munmap_ret := fun _ _ => 0;
  get_user_pages_fast_ret := fun _ _ => None;
  copy_private_data_ret := 0;
  create_local_allocations_ret := 0;
  get_task_comm := [100; 120; 103; 0]
|}.

(** ** Global messages to the host

    The encoders that follow [dxgvmb_send_set_iospace_region] in the source:
    they build their message without an adapter and take the channel lock
    around the send. *)

(** What the missing headers provide for these messages. *)
Record header_global := {
  WIN_MAX_PATH : Z;
  sizeof_command_createprocess : Z;
  sizeof_command_createprocess_return : Z;
  sizeof_command_destroyprocess : Z;
  sizeof_command_opensyncobject : Z;
  sizeof_command_opensyncobject_return : Z;
  sizeof_command_createntsharedobject : Z;
  sizeof_command_destroyntsharedobject : Z;
  sizeof_command_destroysyncobject : Z;
  sizeof_command_shareobjectwithhost : Z;
  sizeof_command_shareobjectwithhost_return : Z;
  sizeof_command_presentvirtual : Z
}.

(** The loop of [dxgvmb_send_create_process] that copies the task name:
    at most [n] characters of [s], up to and including the first zero. *)
Fixpoint copy_process_name (n : nat) (s : bytes) : bytes :=
  match n, s with
  | S n', c :: s' =>
      c :: (if c =? 0 then [] else copy_process_name n' s')
  | _, _ => []
  end.

(** Modelled from the spec: [dxgglobal_get_dxgvmbuschannel] is not part of
    the sources; global-scope operations route through the global channel,
    of which it is the accessor. *)
Definition dxgglobal_get_dxgvmbuschannel : channel := global_channel.

(** What [dxgvmb_send_open_sync_object_nt] writes to [args] and to the
    synchronisation object; [None] where it writes nothing. *)
Record opensyncobject_out := {
  out_sync_object : option Z;
  out_fence_value_cpu_va : option Z;
  out_fence_value_gpu_va : option Z;
  out_mapped_address : option Z
}.

Definition opensyncobject_untouched : opensyncobject_out :=
  {| out_sync_object := None; out_fence_value_cpu_va := None;
     out_fence_value_gpu_va := None; out_mapped_address := None |}.

Section GlobalMessages.
Variable K : header.
Variable G : header_global.
Variable E : env.
Variable dxgglobal : dxgglobal_t.

(** [dxgvmb_send_create_process]; [process] is the pointer sent as the
    identifier of the process, [host_handle] is [process->host_handle] on
    entry.  The result is the return value and [process->host_handle] on
    exit. *)
Definition dxgvmb_send_create_process (process pid host_handle : Z)
  : M (Z * Z) :=
  rm <- init_message K E dxgglobal None (sizeof_command_createprocess G) ;;
  let '(ret, msg) := rm in
  if negb (ret =? 0) then mret (ret, host_handle)
  else
    ret <- dxgglobal_acquire_channel_lock E ;;
    if ret <? 0 then free_message msg ;;; mret (ret, host_handle)
    else
      let command :=
        command_createprocess
          (command_vm_to_host_init1 DXGK_VMBCOMMAND_CREATEPROCESS)
          process pid 1
          (copy_process_name (Z.to_nat (WIN_MAX_PATH G)) (get_task_comm E)) in
      rp <- dxgvmb_send_sync_msg E global_channel (mk_packet msg command)
              (sizeof_command_createprocess_return G) ;;
      let r := if rp_ret rp <? 0 then (rp_ret rp, host_handle)
               else if rp_hprocess rp =? 0
               then (- ENOTRECOVERABLE, host_handle)
               else (rp_ret rp, rp_hprocess rp) in
      dxgglobal_release_channel_lock ;;;
      free_message msg ;;;
      mret r.

(** [dxgvmb_send_destroy_process] *)
Definition dxgvmb_send_destroy_process (process : Z) : M Z :=
  rm <- init_message K E dxgglobal None (sizeof_command_destroyprocess G) ;;
  let '(ret, msg) := rm in
  if negb (ret =? 0) then mret ret
  else
    ret <- dxgglobal_acquire_channel_lock E ;;
    if ret <? 0 then free_message msg ;;; mret ret
    else
      let command :=
        command_destroyprocess
          (command_vm_to_host_init2 DXGK_VMBCOMMAND_DESTROYPROCESS process) in
      ret <- dxgvmb_send_sync_msg_ntstatus K E global_channel
               (mk_packet msg command) ;;
      dxgglobal_release_channel_lock ;;;
      free_message msg ;;;
      mret ret.

(** [dxgvmb_send_open_sync_object_nt]: the message goes to the channel
    that the caller passes.  [global_sync_object] is
    [syncobj->shared_owner->host_shared_handle_nt], [monitored_fence] is
    [syncobj->monitored_fence], [engine_affinity] is
    [args->monitored_fence.engine_affinity]. *)
Definition dxgvmb_send_open_sync_object_nt (process_host_handle : Z)
    (channel : channel) (device flags engine_affinity : Z)
    (global_sync_object : Z) (monitored_fence : bool)
  : M (Z * opensyncobject_out) :=
  rm <- init_message K E dxgglobal None (sizeof_command_opensyncobject G) ;;
  let '(ret, msg) := rm in
  if negb (ret =? 0) then mret (ret, opensyncobject_untouched)
  else
    let command :=
      command_opensyncobject
        (command_vm_to_host_init2 DXGK_VMBCOMMAND_OPENSYNCOBJECT
           process_host_handle)
        device global_sync_object flags
        (if monitored_fence then engine_affinity else 0) in
    ret <- dxgglobal_acquire_channel_lock E ;;
    if ret <? 0 then free_message msg ;;; mret (ret, opensyncobject_untouched)
    else
      rp <- dxgvmb_send_sync_msg E channel (mk_packet msg command)
              (sizeof_command_opensyncobject_return G) ;;
      dxgglobal_release_channel_lock ;;;
      if rp_ret rp <? 0
      then free_message msg ;;; mret (rp_ret rp, opensyncobject_untouched)
      else
        let ret := ntstatus2int K (rp_status rp) in
        if ret <? 0
        then free_message msg ;;; mret (ret, opensyncobject_untouched)
        else
          let opened :=
            {| out_sync_object := Some (rp_sync_object rp);
               out_fence_value_cpu_va := None;
               out_fence_value_gpu_va := None;
               out_mapped_address := None |} in
          if monitored_fence then
            va <- dxg_map_iospace E dxgglobal
                    (rp_guest_cpu_physical_address rp) PAGE_SIZE true ;;
            if va =? 0 then free_message msg ;;; mret (- ENOMEM, opened)
            else
              free_message msg ;;;
              mret (ret,
                    {| out_sync_object := Some (rp_sync_object rp);
                       out_fence_value_cpu_va := Some va;
                       out_fence_value_gpu_va :=
                         Some (rp_gpu_virtual_address rp);
                       out_mapped_address := Some va |})
          else free_message msg ;;; mret (ret, opened).

(** [dxgvmb_send_create_nt_shared_object]: the return value and what the
    transport left in [*shared_handle], the result buffer of the send. *)
Definition dxgvmb_send_create_nt_shared_object (process_host_handle : Z)
    (object : Z) : M (Z * option Z) :=
  rm <- init_message K E dxgglobal None
          (sizeof_command_createntsharedobject G) ;;
  let '(ret, msg) := rm in
  if negb (ret =? 0) then mret (ret, None)
  else
    let command :=
      command_createntsharedobject
        (command_vm_to_host_init2 DXGK_VMBCOMMAND_CREATENTSHAREDOBJECT
           process_host_handle) object in
    ret <- dxgglobal_acquire_channel_lock E ;;
    if ret <? 0 then free_message msg ;;; mret (ret, None)
    else
      rp <- dxgvmb_send_sync_msg E dxgglobal_get_dxgvmbuschannel
              (mk_packet msg command) sizeof_d3dkmthandle ;;
      dxgglobal_release_channel_lock ;;;
      let ret := if rp_ret rp <? 0 then rp_ret rp
                 else if rp_shared_handle rp =? 0 then - ENOTRECOVERABLE
                 else rp_ret rp in
      free_message msg ;;;
      mret (ret, Some (rp_shared_handle rp)).

(** [dxgvmb_send_destroy_nt_shared_object] *)
Definition dxgvmb_send_destroy_nt_shared_object (shared_handle : Z) : M Z :=
  rm <- init_message K E dxgglobal None
          (sizeof_command_destroyntsharedobject G) ;;
  let '(ret, msg) := rm in
  if negb (ret =? 0) then mret ret
  else
    let command :=
      command_destroyntsharedobject
        (command_vm_to_host_init1 DXGK_VMBCOMMAND_DESTROYNTSHAREDOBJECT)
        shared_handle in
    ret <- dxgglobal_acquire_channel_lock E ;;
    if ret <? 0 then free_message msg ;;; mret ret
    else
      ret <- dxgvmb_send_sync_msg_ntstatus K E dxgglobal_get_dxgvmbuschannel
               (mk_packet msg command) ;;
      dxgglobal_release_channel_lock ;;;
      free_message msg ;;;
      mret ret.

(** [dxgvmb_send_destroy_sync_object] *)
Definition dxgvmb_send_destroy_sync_object (process_host_handle : Z)
    (sync_object : Z) : M Z :=
  rm <- init_message K E dxgglobal None
          (sizeof_command_destroysyncobject G) ;;
  let '(ret, msg) := rm in
  if negb (ret =? 0) then mret ret
  else
    ret <- dxgglobal_acquire_channel_lock E ;;
    if ret <? 0 then free_message msg ;;; mret ret
    else
      let command :=
        command_destroysyncobject
          (command_vm_to_host_init2 DXGK_VMBCOMMAND_DESTROYSYNCOBJECT
             process_host_handle) sync_object in
      ret <- dxgvmb_send_sync_msg_ntstatus K E dxgglobal_get_dxgvmbuschannel
               (mk_packet msg command) ;;
      dxgglobal_release_channel_lock ;;;
      free_message msg ;;;
      mret ret.

(** [dxgvmb_send_share_object_with_host]: the return value and
    [args->object_vail_nt_handle] when it is written. *)
Definition dxgvmb_send_share_object_with_host (process_host_handle : Z)
    (device_handle object_handle : Z) : M (Z * option Z) :=
  rm <- init_message K E dxgglobal None
          (sizeof_command_shareobjectwithhost G) ;;
  let '(ret, msg) := rm in
  if negb (ret =? 0) then mret (ret, None)
  else
    ret <- dxgglobal_acquire_channel_lock E ;;
    if ret <? 0 then free_message msg ;;; mret (ret, None)
    else
      let command :=
        command_shareobjectwithhost
          (command_vm_to_host_init2 DXGK_VMBCOMMAND_SHAREOBJECTWITHHOST
             process_host_handle) device_handle object_handle in
      rp <- dxgvmb_send_sync_msg E dxgglobal_get_dxgvmbuschannel
              (mk_packet msg command)
              (sizeof_command_shareobjectwithhost_return G) ;;
      dxgglobal_release_channel_lock ;;;
      let r := if negb (rp_ret rp =? 0) || negb (NT_SUCCESS K (rp_status rp))
               then (if rp_ret rp =? 0 then ntstatus2int K (rp_status rp)
                     else rp_ret rp, None)
               else (rp_ret rp, Some (rp_vail_nt_handle rp)) in
      free_message msg ;;;
      mret r.

(** [dxgvmb_send_present_virtual]; [private_data] is the readable extent
    of the user buffer [args->private_data]. *)
Definition dxgvmb_send_present_virtual (process_host_handle : Z)
    (private_data_size : Z) (private_data : bytes)
    (acquire_semaphore_nthandle release_semaphore_nthandle
       composition_memory_nthandle : Z) : M Z :=
  let cmd_size := u32 (sizeof_command_presentvirtual G + private_data_size) in
  rm <- init_message K E dxgglobal None cmd_size ;;
  let '(ret, msg) := rm in
  if negb (ret =? 0) then mret ret
  else
    let hdr := command_vm_to_host_init2 DXGK_VMBCOMMAND_PRESENTVIRTUAL
                 process_host_handle in
    area0 <- area_after msg (sizeof_command_presentvirtual G) ;;
    r <- (if negb (private_data_size =? 0) then
            match copy_from_user private_data private_data_size with
            | Some d => a <- area_write 0 d area0 ;; mret (inr a)
            | None => mret (inl (- EINVAL))
            end
          else mret (inr area0)) ;;
    match r with
    | inl e => free_message msg ;;; mret e
    | inr area1 =>
      let command :=
        command_presentvirtual hdr acquire_semaphore_nthandle
          release_semaphore_nthandle composition_memory_nthandle
          private_data_size area1 in
      ret <- dxgglobal_acquire_channel_lock E ;;
      if ret <? 0 then free_message msg ;;; mret ret
      else
        ret <- dxgvmb_send_sync_msg_ntstatus K E dxgglobal_get_dxgvmbuschannel
                 (mk_packet msg command) ;;
        dxgglobal_release_channel_lock ;;;
        free_message msg ;;;
        mret ret
    end.

End GlobalMessages.

(** An event that is neither a transport call nor an operation of the
    channel lock. *)
Definition quiet_event (e : event) : Prop :=
  is_send e = false /\ is_lock_event e = false.

(** A computation only appends events; started with the channel lock in
    the state [held], it makes every transport call with the lock held,
    and when it returns [a] the lock is in the state [post a]. *)
Definition lock_by {A} (held : bool) (post : A -> bool) (m : M A) : Prop :=
  forall w, exists t,
    w_trace (m w).2 = w_trace w ++ t /\
    sends_under_lock held t = true /\
    forall a, (m w).1 = Some a -> lock_after held t = post a.

(** An encoder that keeps the channel-lock discipline: its transport calls
    go to the channel [c] and happen with the channel lock held, and the
    lock is free again when it returns. *)
Definition locked_encoder {A} (c : channel) (m : M A) : Prop :=
  lock_by false (fun _ => false) m /\ emits (sends_on c) m.

(** What is proved of an encoder of global messages: it keeps the
    channel-lock discipline and its heap buffers are released. *)
Definition global_encoder {A} (E : env) (c : channel) (m : M A) : Prop :=
  locked_encoder c m /\ kheap_by E (fun _ => 0) m.

Definition sample_header_global : header_global := {|
  WIN_MAX_PATH := 260;
  sizeof_command_createprocess := 560;
  sizeof_command_createprocess_return := 4;
  sizeof_command_destroyprocess := 24;
  sizeof_command_opensyncobject := 48;
  sizeof_command_opensyncobject_return := 32;
  sizeof_command_createntsharedobject := 32;
  sizeof_command_destroyntsharedobject := 32;
  sizeof_command_destroysyncobject := 32;
  sizeof_command_shareobjectwithhost := 32;
  sizeof_command_shareobjectwithhost_return := 16;
  sizeof_command_presentvirtual := 56
|}.

(** * Properties *)

(** ** Status translator *)

(** C3. [ntstatus2int] is total and tests [NT_SUCCESS] before its switch:
    a status that [NT_SUCCESS] accepts is returned unchanged, whatever its
    sign; the case labels (pairwise distinct, as the labels of one switch
    are) map to their POSIX codes, in source order -EEXIST, -ENOMEM,
    -EINVAL, -ENOENT, -ENOENT, -EAGAIN, -EOVERFLOW, -ENODEV, -EACCES,
    -EPERM, -EOPNOTSUPP, -EBADF, -EINPROGRESS, -EPROTOTYPE, -EPERM, except
    a label that [NT_SUCCESS] accepts, which is returned unchanged and whose
    case is never reached; every other status that is not a success maps
    to -EINVAL.  With the NT values, [STATUS_TIMEOUT] (0x102) is such a
    label: the result is 258, not -EAGAIN. *)
Theorem ntstatus2int_mapping (K : header) :
  NoDup (ntstatus_case_labels K) ->
  (forall v, NT_SUCCESS K v = true -> ntstatus2int K v = v) /\
  map (ntstatus2int K) (ntstatus_case_labels K)
  = zip_with (fun s c => if NT_SUCCESS K s then s else c)
      (ntstatus_case_labels K) ntstatus_case_codes /\
  (forall v, NT_SUCCESS K v = false -> v ∉ ntstatus_case_labels K ->
             ntstatus2int K v = - EINVAL).
Proof.
  intros Hnd. unfold ntstatus_case_labels in *.
  repeat (apply NoDup_cons in Hnd; destruct Hnd as [?Hn Hnd]).
  repeat match goal with
         | H : _ ∉ _ :: _ |- _ => rewrite !not_elem_of_cons in H
         end.
  destruct_and!.
  split; [| split].
  - intros v Hv. unfold ntstatus2int. by rewrite Hv.
  - unfold ntstatus_case_codes. cbn [map zip_with]. unfold ntstatus2int.
    repeat match goal with
           | H : ?a ≠ ?b |- _ =>
               rewrite ?(proj2 (Z.eqb_neq a b) H),
                       ?(proj2 (Z.eqb_neq b a) (not_eq_sym H)); clear H
           end.
    rewrite !Z.eqb_refl. reflexivity.
  - intros v Hv Hnot. rewrite !not_elem_of_cons in Hnot.
    destruct_and!.
    unfold ntstatus2int. rewrite Hv.
    repeat match goal with
           | H : v ≠ ?b |- _ =>
               rewrite ?(proj2 (Z.eqb_neq v b) H); clear H
           end.
    reflexivity.
Qed.

Lemma ntstatus2int_mapping_witness :
  ntstatus2int sample_header STATUS_PENDING = 259 /\
  STATUS_TIMEOUT sample_header = 258 /\
  map (ntstatus2int sample_header) (ntstatus_case_labels sample_header)
  = [ - EEXIST; - ENOMEM; - EINVAL; - ENOENT; - ENOENT; 258; - EOVERFLOW;
      - ENODEV; - EACCES; - EPERM; - EOPNOTSUPP; - EBADF; - EINPROGRESS;
      - EPROTOTYPE; - EPERM ] /\
  ntstatus2int sample_header (int_of_u32 0xC0000001) = - EINVAL.
Proof.
  assert (Hnd : NoDup (ntstatus_case_labels sample_header)) by compute_done.
  destruct (ntstatus2int_mapping sample_header Hnd) as (Hs & Hl & Hd).
  split; [| split; [| split]].
  - apply Hs. reflexivity.
  - reflexivity.
  - rewrite Hl. reflexivity.
  - apply Hd; [reflexivity | compute_done].
Defined.

(** ** Message builder *)

(** C2. The channel of a message is decided by the adapter argument and
    [async_msg_enabled] alone; size, result size, allocator, protocol version
    and world play no part.  [init_message] never faults, and a message it
    builds has the adapter's own channel exactly when an adapter is given and
    [async_msg_enabled] is off, the global channel in every other case.
    [init_message_res] does not test its adapter: it faults only on a NULL
    adapter with the extended header in use, and a message it builds has
    the global channel exactly when [async_msg_enabled] is on and
    [&adapter->channel] otherwise: the adapter's own channel when an adapter
    is given, the address taken from the NULL adapter when none is. *)
Theorem init_message_channel (K : header) (E : env) (g : dxgglobal_t)
    (adapter : option dxgadapter) (size0 res_size0 result_size : Z)
    (w : world) :
  (is_Some (init_message K E g adapter size0 w).1 /\
   forall msg w',
     init_message K E g adapter size0 w = (Some (0, msg), w') ->
     msg_channel msg = Some (channel_rule adapter (async_msg_enabled g)) /\
     (forall a, msg_channel msg = Some (adapter_channel a) <->
                adapter = Some a /\ async_msg_enabled g = false) /\
     (msg_channel msg = Some global_channel <->
      adapter = None \/ async_msg_enabled g = true)) /\
  (((init_message_res K E g res_size0 adapter size0 result_size w).1 = None ->
    adapter = None /\ use_ext_header K g = true) /\
   forall msg w',
     init_message_res K E g res_size0 adapter size0 result_size w
     = (Some (0, msg), w') ->
     (forall a, msg_channel msg = Some (adapter_channel a) <->
                adapter = Some a /\ async_msg_enabled g = false) /\
     (msg_channel msg = Some global_channel <->
      async_msg_enabled g = true) /\
     (msg_channel msg = Some null_adapter_channel <->
      adapter = None /\ async_msg_enabled g = false)).
Proof.
  split; split.
  - unfold init_message, kzalloc, mbind, mret, emit. cbn.
    repeat case_match; cbn; eauto.
  - intros msg w' H.
    assert (Hc : msg_channel msg
                 = Some (channel_rule adapter (async_msg_enabled g))).
    { unfold init_message, kzalloc, mbind, mret, emit in H.
      repeat case_match; simplify_eq; cbn in *; try done;
        try (exfalso; unfold ENOMEM in *; lia);
        destruct (async_msg_enabled g); done. }
    rewrite Hc. split; [done |].
    destruct adapter as [a' |], (async_msg_enabled g); cbn;
      split; try split; intros; destruct_or?; destruct_and?;
      simplify_eq; auto; try done.
  - unfold init_message_res, kzalloc, mbind, mret, emit, fault. cbn.
    destruct adapter as [a |], (use_ext_header K g);
      repeat case_match; cbn; intros; simplify_eq; done.
  - intros msg w' H.
    assert (Hc : msg_channel msg
                 = Some (if async_msg_enabled g then global_channel
                         else match adapter with
                              | Some a => adapter_channel a
                              | None => null_adapter_channel
                              end)).
    { unfold init_message_res, kzalloc, mbind, mret, emit, fault in H.
      cbn in H.
      repeat case_match; simplify_eq; cbn in *; try done;
        exfalso; unfold ENOMEM in *; lia. }
    rewrite Hc.
    destruct adapter as [a' |], (async_msg_enabled g); cbn;
      split; try split; try split; intros; destruct_and?;
      simplify_eq; auto; try done.
Qed.

Lemma init_message_channel_witness :
  (exists msg w',
     init_message sample_header (sample_env (fun _ => true) [])
       (sample_global false) (Some sample_adapter) 24 world0
     = (Some (0, msg), w') /\
     msg_channel msg = Some (adapter_channel sample_adapter)) /\
  (exists msg w',
     init_message_res sample_header (sample_env (fun _ => true) [])
       (sample_global true) 0 (Some sample_adapter) 24 12 world0
     = (Some (0, msg), w') /\
     msg_channel msg = Some global_channel).
Proof.
  destruct (init_message_channel sample_header
              (sample_env (fun _ => true) []) (sample_global false)
              (Some sample_adapter) 24 0 12 world0) as [[_ Hm] _].
  destruct (init_message_channel sample_header
              (sample_env (fun _ => true) []) (sample_global true)
              (Some sample_adapter) 24 0 12 world0) as [_ [_ Hr]].
  split; eexists _, _.
  - split; [reflexivity |].
    exact (proj1 (Hm _ _ eq_refl)).
  - split; [reflexivity |].
    apply (proj1 (proj2 (Hr _ _ eq_refl))). reflexivity.
Defined.

(** The claim C2 fails for [init_message_res] without an adapter: with
    asynchronous messages off and no extended header it builds a message
    whose channel is the address taken from the NULL adapter, not the global
    channel that the rule gives. *)
Lemma init_message_res_without_adapter :
  let r := init_message_res sample_header (sample_env (fun _ => true) [])
             (sample_global_old false) 0 None 24 12 world0 in
  exists msg,
    r.1 = Some (0, msg) /\
    channel_rule None false = global_channel /\
    msg_channel msg = Some null_adapter_channel /\
    msg_channel msg <> Some (channel_rule None false).
Proof. vm_compute. eexists. split; [reflexivity |]. done. Qed.

(** ** Memory window mapper *)

(** What [check_iospace_address] accepts, when the window does not wrap
    around the address space: the range must start inside the window and end
    strictly before its end. *)
Lemma check_iospace_address_accepts (g : dxgglobal_t) (address size : Z) :
  0 <= mmiospace_base g -> 0 <= size ->
  mmiospace_base g + mmiospace_size g < 2 ^ 64 ->
  check_iospace_address g address size = 0 <->
  mmiospace_base g <= address /\ size <= mmiospace_size g /\
  address + size < mmiospace_base g + mmiospace_size g.
Proof.
  intros Hb Hs Hw. unfold check_iospace_address, u64, EINVAL.
  destruct (Z.ltb_spec address (mmiospace_base g)); cbn [orb];
    [split; [discriminate | lia] |].
  destruct (Z.ltb_spec (mmiospace_size g) size); cbn [orb];
    [split; [discriminate | lia] |].
  rewrite Z.mod_small by lia.
  destruct (Z.leb_spec (mmiospace_base g + mmiospace_size g - size) address);
    split; try discriminate; try lia; auto.
Qed.

(** C8. The range that ends exactly at the end of the IO-space window lies
    within the window (base <= address, address + size <= base + window
    size), yet [check_iospace_address] refuses it and [dxg_map_iospace]
    returns NULL without mapping anything. *)
Theorem dxg_map_iospace_rejects_window_end (E : env) (g : dxgglobal_t)
    (size : Z) (cached : bool) (w : world) :
  0 <= mmiospace_base g -> 0 <= size <= mmiospace_size g ->
  mmiospace_base g + mmiospace_size g < 2 ^ 64 ->
  let address := mmiospace_base g + mmiospace_size g - size in
  (mmiospace_base g <= address /\
   address + size <= mmiospace_base g + mmiospace_size g) /\
  check_iospace_address g address size = - EINVAL /\
  dxg_map_iospace E g address size cached w = (Some 0, w).
Proof.
  intros Hb Hs Hw address. subst address.
  assert (Hc : check_iospace_address g
                 (mmiospace_base g + mmiospace_size g - size) size = - EINVAL).
  { unfold check_iospace_address, u64. rewrite Z.mod_small by lia.
    rewrite (proj2 (Z.leb_le _ _)) by lia. by rewrite !orb_true_r. }
  split; [lia | split; [exact Hc |]].
  unfold dxg_map_iospace. rewrite Hc. reflexivity.
Qed.

Lemma dxg_map_iospace_rejects_window_end_witness :
  check_iospace_address (sample_global false) 0x100FF000 PAGE_SIZE = - EINVAL /\
  dxg_map_iospace (sample_env (fun _ => true) []) (sample_global false)
    0x100FF000 PAGE_SIZE true world0 = (Some 0, world0).
Proof.
  refine (proj2 (dxg_map_iospace_rejects_window_end
                   (sample_env (fun _ => true) []) (sample_global false)
                   PAGE_SIZE true world0 _ _ _)); vm_compute; done.
Defined.

(** ** Allocation creation: system-memory tagging *)

(** C5. A batch of two allocations, none of them backed by system memory,
    is refused with -EINVAL before any allocation or transport call. *)
Theorem create_allocation_rejects_all_non_sysmem (K : header) (E : env)
    (g : dxgglobal_t) (h d : Z) (adapter : option dxgadapter) (w : world) :
  0 < DXG_MAX_VM_BUS_PACKET_SIZE K ->
  let a := {| sysmem := 0; priv_drv_data_size := 0; priv_drv_data := [] |} in
  dxgvmb_send_create_allocation K E g h adapter
    {| device := d; alloc_count := 2; private_runtime_data_size := 0;
       args_priv_drv_data_size := 0 |}
    [a; a] w
  = (Some (- EINVAL), w).
Proof.
  intros Hmax. cbv zeta. unfold dxgvmb_send_create_allocation.
  pose proof (proj2 (Z.leb_gt _ _) Hmax) as Hle.
  cbn [private_runtime_data_size args_priv_drv_data_size alloc_count].
  rewrite Hle. cbn [orb].
  change (Z.to_nat 2) with 2%nat.
  cbn [take drop existsb total_priv_drv_data_size sysmem priv_drv_data_size].
  repeat (change (u32 (0 + 0)) with 0; rewrite ?Hle).
  reflexivity.
Qed.

Lemma create_allocation_rejects_all_non_sysmem_witness :
  dxgvmb_send_create_allocation sample_header (sample_env (fun _ => true) [])
    (sample_global false) 1 (Some sample_adapter)
    {| device := 7; alloc_count := 2; private_runtime_data_size := 0;
       args_priv_drv_data_size := 0 |}
    [ {| sysmem := 0; priv_drv_data_size := 0; priv_drv_data := [] |};
      {| sysmem := 0; priv_drv_data_size := 0; priv_drv_data := [] |} ]
    world0
  = (Some (- EINVAL), world0).
Proof.
  apply (create_allocation_rejects_all_non_sysmem sample_header
           (sample_env (fun _ => true) []) (sample_global false) 1 7
           (Some sample_adapter) world0).
  reflexivity.
Defined.

(** The same check lets a mixed batch through when it is the first element
    that is not backed by system memory: the run goes on to allocate and to
    send. *)
Lemma create_allocation_accepts_mixed_batch :
  let r := dxgvmb_send_create_allocation sample_header
             (sample_env (fun _ => true) []) (sample_global false) 1
             (Some sample_adapter)
             {| device := 7; alloc_count := 2; private_runtime_data_size := 0;
                args_priv_drv_data_size := 0 |}
             [ {| sysmem := 0; priv_drv_data_size := 0; priv_drv_data := [] |};
               {| sysmem := 0x7000; priv_drv_data_size := 0;
                  priv_drv_data := [] |} ]
             world0 in
  r.1 = Some 0 /\ length (sends (w_trace r.2)) = 1%nat.
Proof. vm_compute. split; reflexivity. Qed.

(** ** Traces of computations *)

Lemma emits_mret {A} (P : event -> Prop) (a : A) : emits P (mret a).
Proof. intros w. exists []. by rewrite app_nil_r. Qed.

Lemma emits_fault {A} (P : event -> Prop) : emits P (@fault A).
Proof. intros w. exists []. by rewrite app_nil_r. Qed.

Lemma emits_emit (P : event -> Prop) (e : event) : P e -> emits P (emit e).
Proof. intros He w. exists [e]. split; [done | by constructor]. Qed.

Lemma emits_bind {A B} (P : event -> Prop) (m : M A) (k : A -> M B) :
  emits P m -> (forall a, emits P (k a)) -> emits P (mbind m k).
Proof.
  intros Hm Hk w. unfold mbind.
  destruct (Hm w) as (t1 & Ht1 & HP1).
  destruct (m w) as [[a |] w1]; cbn in *.
  - destruct (Hk a w1) as (t2 & Ht2 & HP2).
    exists (t1 ++ t2). rewrite Ht2, Ht1, app_assoc.
    split; [done | by apply Forall_app].
  - by exists t1.
Qed.

Lemma emits_weaken {A} (P Q : event -> Prop) (m : M A) :
  (forall e, P e -> Q e) -> emits P m -> emits Q m.
Proof.
  intros HPQ Hm w. destruct (Hm w) as (t & Ht & HP).
  exists t. split; [done | by eapply Forall_impl].
Qed.

Section EmitsPrimitives.
Variable K : header.
Variable E : env.
Variable g : dxgglobal_t.
Variable P : event -> Prop.
Hypothesis P_kzalloc : forall n, P (EvKzalloc n).
Hypothesis P_kfree : P EvKfree.
Hypothesis P_sync : forall ch p n, P (EvSendSync ch p n).
Hypothesis P_async : forall ch p, P (EvSendAsync ch p).

Lemma emits_kzalloc n : emits P (kzalloc E n).
Proof. unfold kzalloc. apply emits_bind; [by apply emits_emit | intros; apply emits_mret]. Qed.

Lemma emits_free_message msg : emits P (free_message msg).
Proof.
  unfold free_message. destruct (msg_hdr msg);
    first [apply emits_mret | by apply emits_emit].
Qed.

Lemma emits_init_message adapter n : emits P (init_message K E g adapter n).
Proof.
  unfold init_message. cbv zeta.
  repeat first [apply emits_mret | apply emits_kzalloc
               | apply emits_bind; [| intros ?]
               | match goal with |- emits _ (if ?c then _ else _) => destruct c end].
Qed.

Lemma emits_area_write off d a : emits P (area_write off d a).
Proof. unfold area_write. case_match; [apply emits_mret | apply emits_fault]. Qed.

Lemma emits_area_after msg n : emits P (area_after msg n).
Proof.
  unfold area_after. cbv zeta. case_match; [apply emits_mret | apply emits_fault].
Qed.

Lemma emits_memcpy_from src n : emits P (memcpy_from src n).
Proof. unfold memcpy_from. case_match; [apply emits_mret | apply emits_fault]. Qed.

Lemma emits_msg_chan msg : emits P (msg_chan msg).
Proof. unfold msg_chan. case_match; [apply emits_mret | apply emits_fault]. Qed.

Lemma emits_send_sync ch p n : emits P (dxgvmb_send_sync_msg E ch p n).
Proof.
  unfold dxgvmb_send_sync_msg.
  apply emits_bind; [by apply emits_emit | intros; apply emits_mret].
Qed.

Lemma emits_send_async ch p : emits P (dxgvmb_send_async_msg E ch p).
Proof.
  unfold dxgvmb_send_async_msg.
  apply emits_bind; [by apply emits_emit | intros; apply emits_mret].
Qed.

Lemma emits_send_sync_ntstatus ch p :
  emits P (dxgvmb_send_sync_msg_ntstatus K E ch p).
Proof.
  unfold dxgvmb_send_sync_msg_ntstatus.
  repeat first [apply emits_mret | apply emits_fault | apply emits_kzalloc
               | apply emits_send_sync | by apply emits_emit
               | apply emits_bind; [| intros ?]
               | match goal with |- emits _ (if ?c then _ else _) => destruct c end].
Qed.

Lemma emits_signal_copy ua src n off a : emits P (signal_copy ua src n off a).
Proof.
  unfold signal_copy.
  repeat first [apply emits_mret | apply emits_area_write | apply emits_memcpy_from
               | apply emits_bind; [| intros ?]
               | match goal with
                 | |- emits _ (if ?c then _ else _) => destruct c
                 | |- emits _ (match ?x with _ => _ end) => destruct x
                 end].
Qed.

(** [dxgvmb_send_signal_sync_object] allocates, sends and frees, and does
    nothing else that leaves a trace. *)
Lemma emits_signal_sync_object h adapter ece lfv ctx oc objs cc ctxs fc fences
    ceh dev ua :
  emits P (dxgvmb_send_signal_sync_object K E g h adapter ece lfv ctx oc objs
             cc ctxs fc fences ceh dev ua).
Proof.
  unfold dxgvmb_send_signal_sync_object. cbv zeta.
  repeat first [apply emits_mret | apply emits_init_message
               | apply emits_free_message | apply emits_area_after
               | apply emits_area_write | apply emits_signal_copy
               | apply emits_msg_chan | apply emits_send_async
               | apply emits_send_sync_ntstatus
               | apply emits_bind; [| intros ?]
               | match goal with
                 | |- emits _ (if ?c then _ else _) => destruct c
                 | |- emits _ (match ?x with _ => _ end) => destruct x
                 end].
Qed.

End EmitsPrimitives.

Lemma emits_bind_post {A B} (P : event -> Prop) (Q : A -> Prop) (m : M A)
    (k : A -> M B) :
  (forall w a, (m w).1 = Some a -> Q a) ->
  emits P m -> (forall a, Q a -> emits P (k a)) -> emits P (mbind m k).
Proof.
  intros HQ Hm Hk w. unfold mbind.
  destruct (Hm w) as (t1 & Ht1 & HP1).
  specialize (HQ w).
  destruct (m w) as [[a |] w1]; cbn in *.
  - destruct (Hk a (HQ a eq_refl) w1) as (t2 & Ht2 & HP2).
    exists (t1 ++ t2). rewrite Ht2, Ht1, app_assoc.
    split; [done | by apply Forall_app].
  - by exists t1.
Qed.

Lemma init_message_size (K : header) (E : env) (g : dxgglobal_t)
    (adapter : option dxgadapter) (size : Z) (w : world) (rm : Z * dxgvmbusmsg) :
  (init_message K E g adapter size w).1 = Some rm ->
  msg_size rm.2 = (if use_ext_header K g
                   then u32 (size + sizeof_dxgvmb_ext_header K) else size).
Proof.
  unfold init_message, kzalloc, mbind, mret, emit.
  repeat case_match; cbn; intros [= <-]; done.
Qed.

(** The same for a property that holds of every event that is not a
    transport call. *)
Section WithinLimit.
Variable K : header.
Variable E : env.
Variable g : dxgglobal_t.
Variable P : event -> Prop.
Hypothesis P_quiet : forall e, is_send e = false -> P e.

Lemma emits_within_free_message msg : emits P (free_message msg).
Proof.
  unfold free_message. destruct (msg_hdr msg);
    first [apply emits_mret | by apply emits_emit, P_quiet].
Qed.

Lemma emits_within_init_message adapter n :
  emits P (init_message K E g adapter n).
Proof.
  unfold init_message, kzalloc. cbv zeta.
  repeat first [apply emits_mret | by apply emits_emit, P_quiet
               | apply emits_bind; [| intros ?]
               | match goal with
                 | |- emits _ (if ?c then _ else _) => destruct c
                 end].
Qed.

Lemma emits_within_vzalloc n : emits P (vzalloc E n).
Proof.
  unfold vzalloc.
  apply emits_bind; [by apply emits_emit, P_quiet | intros; apply emits_mret].
Qed.

Lemma emits_within_send_sync ch p n :
  P (EvSendSync ch p n) -> emits P (dxgvmb_send_sync_msg E ch p n).
Proof.
  intros Hp. unfold dxgvmb_send_sync_msg.
  apply emits_bind; [by apply emits_emit | intros; apply emits_mret].
Qed.

Lemma emits_within_send_async ch p :
  P (EvSendAsync ch p) -> emits P (dxgvmb_send_async_msg E ch p).
Proof.
  intros Hp. unfold dxgvmb_send_async_msg.
  apply emits_bind; [by apply emits_emit | intros; apply emits_mret].
Qed.

Lemma emits_within_send_sync_ntstatus ch p :
  P (EvSendSync ch p (sizeof_ntstatus K)) ->
  emits P (dxgvmb_send_sync_msg_ntstatus K E ch p).
Proof.
  intros Hp. unfold dxgvmb_send_sync_msg_ntstatus, kzalloc.
  repeat first [apply emits_mret | apply emits_fault
               | by apply emits_within_send_sync
               | by apply emits_emit, P_quiet
               | apply emits_bind; [| intros ?]
               | match goal with
                 | |- emits _ (if ?c then _ else _) => destruct c
                 end].
Qed.

Lemma emits_within_cleanup r1 r2 msg ret :
  emits P (create_allocation_cleanup r1 r2 msg ret).
Proof.
  unfold create_allocation_cleanup.
  repeat first [apply emits_mret | by apply emits_emit, P_quiet
               | apply emits_within_free_message
               | apply emits_bind; [| intros ?]
               | match goal with
                 | |- emits _ (if ?c then _ else _) => destruct c
                 end].
Qed.

Lemma emits_within_rle_alloc i limit a size used :
  emits P (rle_alloc E i limit a size used).
Proof.
  unfold rle_alloc. cbv zeta.
  repeat first [apply emits_mret | by apply emits_emit, P_quiet
               | apply emits_within_vzalloc
               | apply emits_bind; [| intros ?]
               | match goal with
                 | |- emits _ (if ?c then _ else _) => destruct c
                 | |- emits _ (let (_, _) := ?x in _) => destruct x
                 end].
Qed.

Lemma emits_within_rle_allocs limit l :
  forall i used, emits P (rle_allocs E i limit l used).
Proof.
  induction l as [| [a size] l IH]; intros i used; cbn [rle_allocs].
  - apply emits_mret.
  - apply emits_bind; [apply emits_within_rle_alloc |].
    intros [[ret recs] used'].
    destruct (ret =? 0); [| apply emits_mret].
    apply emits_bind; [apply IH |]. intros [ret' out]. apply emits_mret.
Qed.

End WithinLimit.

(** ** Channel selection and schedules *)

Lemma init_message_channel_rule (K : header) (E : env) (g : dxgglobal_t)
    (adapter : option dxgadapter) (n : Z) (w : world)
    (rm : Z * dxgvmbusmsg) :
  (init_message K E g adapter n w).1 = Some rm -> rm.1 = 0 ->
  msg_channel rm.2 = Some (channel_rule adapter (async_msg_enabled g)).
Proof.
  unfold init_message, kzalloc, mbind, mret, emit.
  repeat case_match; cbn; intros [= <-]; cbn; try done;
    try (unfold ENOMEM; lia);
    destruct (async_msg_enabled g); done.
Qed.

Lemma interleaving_schedule_after (n : nat) (t1 t2 : list event) :
  interleaving t1 t2 (schedule_after n t1 t2).
Proof.
  unfold schedule_after. revert t1.
  induction n as [| n IH]; intros t1.
  - rewrite take_0, drop_0. cbn [map app].
    induction t2 as [| e t2 IH2]; cbn [map app].
    + induction t1 as [| e t1 IH1]; cbn [map]; by constructor.
    + by constructor.
  - destruct t1 as [| e t1]; cbn [take drop map app].
    + specialize (IH []). by rewrite take_nil, drop_nil in IH.
    + constructor. apply IH.
Qed.

(** ** Running the builder and the copies *)

Definition w_emit (w : world) (t : list event) : world :=
  {| w_trace := w_trace w ++ t; w_handles := w_handles w; w_maps := w_maps w |}.

Lemma w_emit_nil w : w_emit w [] = w.
Proof. destruct w. unfold w_emit. cbn. by rewrite app_nil_r. Qed.

Lemma w_emit_app w t1 t2 : w_emit (w_emit w t1) t2 = w_emit w (t1 ++ t2).
Proof. unfold w_emit. cbn. by rewrite app_assoc. Qed.

Lemma sends_app t1 t2 : sends (t1 ++ t2) = sends t1 ++ sends t2.
Proof.
  induction t1 as [| e t1 IH]; [done |].
  destruct e; cbn; rewrite IH; done.
Qed.

Lemma u32_small x : 0 <= x < 2 ^ 32 -> u32 x = x.
Proof. intros. unfold u32. by apply Z.mod_small. Qed.

Lemma length_le_bytes n v : length (le_bytes n v) = n.
Proof. revert v. induction n as [| n IH]; intros v; cbn; [done | by rewrite IH]. Qed.

Lemma blen_handles_image l : blen (handles_image l) = 4 * Z.of_nat (length l).
Proof.
  unfold blen, handles_image. induction l as [| x l IH]; [done |].
  cbn [flat_map]. rewrite length_app, length_le_bytes. cbn [length]. lia.
Qed.

Lemma blen_u64s_image l : blen (u64s_image l) = 8 * Z.of_nat (length l).
Proof.
  unfold blen, u64s_image. induction l as [| x l IH]; [done |].
  cbn [flat_map]. rewrite length_app, length_le_bytes. cbn [length]. lia.
Qed.

(** The message that [init_message] builds when its storage is available. *)
Lemma init_message_built (K : header) (E : env) (g : dxgglobal_t)
    (adapter : option dxgadapter) (size0 : Z) (w : world) :
  let size := if use_ext_header K g
              then u32 (size0 + sizeof_dxgvmb_ext_header K) else size0 in
  size <= VMBUSMESSAGEONSTACK K \/ kzalloc_ok E size = true ->
  exists st t,
    init_message K E g adapter size0 w
    = (Some (0, {| msg_hdr := st;
                   msg_ext := if use_ext_header K g
                              then Some {| command_offset := sizeof_dxgvmb_ext_header K;
                                           vgpu_luid := match adapter with
                                                        | Some a => host_vgpu_luid a
                                                        | None => 0
                                                        end |}
                              else None;
                   msg_size := size; msg_res_size := 0;
                   msg_channel := Some (channel_rule adapter
                                          (async_msg_enabled g)) |}),
       w_emit w t) /\
    sends t = [] /\ Forall (fun e => is_lock_event e = false) t.
Proof.
  intros size Hok. unfold init_message. fold size.
  assert (Hch : match adapter with
                | Some a => if negb (async_msg_enabled g)
                            then adapter_channel a else global_channel
                | None => global_channel
                end = channel_rule adapter (async_msg_enabled g)).
  { by destruct adapter, (async_msg_enabled g). }
  rewrite Hch.
  destruct (Z.leb_spec size (VMBUSMESSAGEONSTACK K)).
  - exists msg_on_stack, []. rewrite w_emit_nil. done.
  - destruct Hok as [? | Hk]; [lia |].
    exists hdr_heap, [EvKzalloc size].
    unfold kzalloc, mbind, mret, emit. cbn. rewrite Hk.
    split; [done | split; [done | by repeat constructor]].
Qed.

Lemma memcpy_from_all (src : bytes) (n : Z) (w : world) :
  n = blen src -> memcpy_from src n w = (Some src, w).
Proof.
  intros ->. unfold memcpy_from, blen. rewrite Z.leb_refl, Nat2Z.id.
  by rewrite firstn_all.
Qed.

Lemma copy_from_user_all (src : bytes) (n : Z) :
  n = blen src -> copy_from_user src n = Some src.
Proof.
  intros ->. unfold copy_from_user, blen. rewrite Z.leb_refl, Nat2Z.id.
  by rewrite firstn_all.
Qed.

Lemma signal_copy_all (ua : bool) (src : bytes) (n off : Z) (area : bytes)
    (w : world) :
  n = blen src ->
  signal_copy ua src n off area w
  = mbind (area_write off src area) (fun a => mret (inr a)) w.
Proof.
  intros Hn. unfold signal_copy. destruct ua.
  - by rewrite copy_from_user_all.
  - unfold mbind at 1. by rewrite memcpy_from_all.
Qed.

(** Storing [data] over as many bytes, after [pre]. *)
Lemma area_write_over (pre data old rest : bytes) (off : Z) (w : world) :
  off = blen pre -> length old = length data ->
  area_write off data (pre ++ old ++ rest) w
  = (Some (pre ++ data ++ rest), w).
Proof.
  intros -> Hlen. unfold area_write, blen.
  rewrite !length_app, Hlen, Nat2Z.id.
  rewrite (proj2 (Z.leb_le 0 _)) by lia.
  rewrite (proj2 (Z.leb_le _ _)) by lia. cbn [andb].
  rewrite take_app_length.
  rewrite drop_app_add', drop_app_length' by done. done.
Qed.

Lemma zeros_split (a b : Z) :
  0 <= a -> 0 <= b ->
  replicate (Z.to_nat (a + b)) 0 = replicate (Z.to_nat a) 0 ++ replicate (Z.to_nat b) 0.
Proof. intros. by rewrite Z2Nat.inj_add, replicate_add by lia. Qed.

(** The traces of the two ways of sending. *)
Lemma send_async_run (E : env) (ch : channel) (p : packet) (w : world) :
  dxgvmb_send_async_msg E ch p w
  = (Some (dxgvmb_send_async_msg_ret E ch p), w_emit w [EvSendAsync ch p]).
Proof. reflexivity. Qed.

Lemma send_sync_ntstatus_run (K : header) (E : env) (ch : channel)
    (p : packet) (w : world) :
  exists r t,
    dxgvmb_send_sync_msg_ntstatus K E ch p w = (r, w_emit w t) /\
    sends t = [(ch, p)].
Proof.
  unfold dxgvmb_send_sync_msg_ntstatus, dxgvmb_send_sync_msg, kzalloc,
    mbind, mret, emit, fault, w_emit. cbn.
  repeat case_match; simplify_eq; cbn;
    eexists _, _; (split; [rewrite <- ?app_assoc; reflexivity |]); done.
Qed.

Lemma free_message_run (msg : dxgvmbusmsg) (w : world) :
  exists t, free_message msg w = (Some tt, w_emit w t) /\ sends t = [].
Proof.
  unfold free_message. destruct (msg_hdr msg).
  - exists []. by rewrite w_emit_nil.
  - exists []. by rewrite w_emit_nil.
  - by exists [EvKfree].
Qed.

(** Sending a built command and freeing the message: one transport call. *)
Lemma send_and_free (K : header) (E : env) (g : dxgglobal_t)
    (msg : dxgvmbusmsg) (ch : channel) (command : command_hdr -> command)
    (hdr : command_hdr) (w : world) :
  exists t,
    w_trace
      (mbind (if async_msg_enabled g
              then dxgvmb_send_async_msg E ch
                     (mk_packet msg (command (set_async_msg hdr)))
              else dxgvmb_send_sync_msg_ntstatus K E ch
                     (mk_packet msg (command hdr)))
             (fun ret => mbind (free_message msg) (fun _ => mret ret)) w).2
    = w_trace w ++ t /\
    sends t = [(ch, mk_packet msg
                      (command (if async_msg_enabled g
                                then set_async_msg hdr else hdr)))].
Proof.
  unfold mbind at 1. destruct (async_msg_enabled g).
  - rewrite send_async_run.
    destruct (free_message_run msg (w_emit w [EvSendAsync ch
               (mk_packet msg (command (set_async_msg hdr)))]))
      as (t & Hf & Hs).
    unfold mbind, mret. rewrite Hf. cbn.
    eexists. split; [by rewrite <- app_assoc |].
    by rewrite sends_app, Hs.
  - destruct (send_sync_ntstatus_run K E ch (mk_packet msg (command hdr)) w)
      as (r & t1 & Hr & Hs1).
    rewrite Hr. destruct r as [ret |].
    + destruct (free_message_run msg (w_emit w t1)) as (t & Hf & Hs).
      unfold mbind, mret. rewrite Hf. cbn.
      eexists. split; [by rewrite <- app_assoc |].
      by rewrite sends_app, Hs, Hs1.
    + cbn. by exists t1.
Qed.

(** ** Waiting from the GPU *)

(** C10. [dxgvmb_send_wait_sync_object_gpu] returns -EINVAL when
    [object_count] is 0 or exceeds [D3DDDI_MAX_OBJECT_WAITED_ON], leaving the
    world as it was: no message built, no allocation, nothing sent.  For a
    count in range (with that many fences and objects, and storage for the
    message) the request is built, with the fence values followed by the
    object handles, and sent once on the channel of the rule. *)
Theorem wait_sync_object_gpu_count_check (K : header) (E : env)
    (g : dxgglobal_t) (h : Z) (adapter : option dxgadapter) (ctx n : Z)
    (objs fences : list Z) (legacy : bool) (w : world) :
  header_sane K ->
  let run := dxgvmb_send_wait_sync_object_gpu K E g h adapter ctx n objs
               fences legacy w in
  (n = 0 \/ D3DDDI_MAX_OBJECT_WAITED_ON K < n ->
   run = (Some (- EINVAL), w)) /\
  (0 < n <= D3DDDI_MAX_OBJECT_WAITED_ON K ->
   Z.of_nat (length objs) = n -> Z.of_nat (length fences) = n ->
   (let size0 := 12 * n - 8 + sizeof_command_waitforsyncobjectfromgpu K in
    let size := if use_ext_header K g
                then size0 + sizeof_dxgvmb_ext_header K else size0 in
    size <= VMBUSMESSAGEONSTACK K \/ kzalloc_ok E size = true) ->
   exists t p,
     w_trace run.2 = w_trace w ++ t /\
     sends t = [(channel_rule adapter (async_msg_enabled g), p)] /\
     pk_cmd p
     = command_waitforsyncobjectfromgpu
         (let h0 := command_vgpu_to_host_init2
                      DXGK_VMBCOMMAND_WAITFORSYNCOBJECTFROMGPU h in
          if async_msg_enabled g then set_async_msg h0 else h0)
         ctx n legacy (u64s_image fences ++ handles_image objs)).
Proof.
  intros [Hext Hstack _ Hwait _ Hmaxw _] run. subst run. unfold small in *.
  split.
  - intros Hn. unfold dxgvmb_send_wait_sync_object_gpu. cbv zeta.
    assert ((n =? 0) || (D3DDDI_MAX_OBJECT_WAITED_ON K <? n) = true) as ->.
    { destruct Hn as [-> | Hn]; [done |].
      rewrite (proj2 (Z.ltb_lt _ _) Hn). apply orb_true_r. }
    reflexivity.
  - intros Hn Hlo Hlf Hok.
    unfold dxgvmb_send_wait_sync_object_gpu. cbv zeta.
    assert ((n =? 0) || (D3DDDI_MAX_OBJECT_WAITED_ON K <? n) = false) as ->.
    { rewrite (proj2 (Z.eqb_neq _ _)) by lia.
      rewrite (proj2 (Z.ltb_ge _ _)) by lia. done. }
    unfold sizeof_u64, sizeof_d3dkmthandle.
    rewrite (u32_small (n * 8)), (u32_small (n * 4)) by lia.
    rewrite (u32_small (n * 4 + n * 8 - 8 + _)) by lia.
    destruct (init_message_built K E g adapter
                (n * 4 + n * 8 - 8 + sizeof_command_waitforsyncobjectfromgpu K) w)
      as (st & t0 & Hinit & Hs0 & _).
    { cbv zeta. rewrite u32_small by lia.
      replace (n * 4 + n * 8 - 8 + sizeof_command_waitforsyncobjectfromgpu K)
        with (12 * n - 8 + sizeof_command_waitforsyncobjectfromgpu K) by lia.
      exact Hok. }
    unfold mbind at 1. rewrite Hinit. cbn [Z.eqb negb].
    match goal with
    | |- context [area_after ?m _] => set (msg := m)
    end.
    assert (Harea : area_after msg
                      (sizeof_command_waitforsyncobjectfromgpu K - 8)
                      (w_emit w t0)
                    = (Some (replicate (Z.to_nat (n * 8)) 0
                             ++ replicate (Z.to_nat (n * 4)) 0), w_emit w t0)).
    { unfold area_after, msg. cbn [msg_ext msg_size].
      rewrite <- zeros_split by lia.
      destruct (use_ext_header K g); cbn [command_offset];
        rewrite ?u32_small by lia;
        (rewrite (proj2 (Z.leb_le 0 _)) by lia);
        unfold mret; do 3 f_equal; lia. }
    unfold mbind at 1. rewrite Harea.
    unfold mbind at 1.
    rewrite memcpy_from_all by (rewrite blen_u64s_image; lia).
    unfold mbind at 1.
    assert (Hlf8 : length (replicate (Z.to_nat (n * 8)) 0)
                   = length (u64s_image fences)).
    { rewrite length_replicate.
      pose proof (blen_u64s_image fences). unfold blen in *. lia. }
    pose proof (area_write_over [] (u64s_image fences) _
                  (replicate (Z.to_nat (n * 4)) 0) 0 (w_emit w t0) eq_refl
                  Hlf8) as Hw1.
    cbn [app] in Hw1. rewrite Hw1. clear Hw1.
    unfold mbind at 1.
    rewrite memcpy_from_all by (rewrite blen_handles_image; lia).
    unfold mbind at 1.
    assert (Hlo4 : length (replicate (Z.to_nat (n * 4)) 0)
                   = length (handles_image objs)).
    { rewrite length_replicate.
      pose proof (blen_handles_image objs). unfold blen in *. lia. }
    pose proof (area_write_over (u64s_image fences) (handles_image objs) _
                  [] (n * 8) (w_emit w t0)
                  ltac:(rewrite blen_u64s_image; lia) Hlo4) as Hw2.
    rewrite !app_nil_r in Hw2. rewrite Hw2. clear Hw2.
    unfold mbind at 1. unfold msg_chan at 1. cbn [msg_channel msg mret].
    destruct (send_and_free K E g msg
                (channel_rule adapter (async_msg_enabled g))
                (fun h' => command_waitforsyncobjectfromgpu h' ctx n legacy
                             (u64s_image fences ++ handles_image objs))
                (command_vgpu_to_host_init2
                   DXGK_VMBCOMMAND_WAITFORSYNCOBJECTFROMGPU h)
                (w_emit w t0)) as (t1 & Ht1 & Hs1).
    cbv beta in Ht1. rewrite Ht1. cbn [w_emit w_trace].
    exists (t0 ++ t1). eexists. split; [by rewrite app_assoc |].
    rewrite sends_app, Hs0, Hs1. split; [reflexivity |].
    cbn [pk_cmd mk_packet]. by destruct (async_msg_enabled g).
Qed.

Lemma wait_sync_object_gpu_count_check_witness :
  dxgvmb_send_wait_sync_object_gpu sample_header
    (sample_env (fun _ => true) []) (sample_global false) 1
    (Some sample_adapter) 0x40000003 0 [] [] false world0
  = (Some (- EINVAL), world0) /\
  exists t p,
    w_trace (dxgvmb_send_wait_sync_object_gpu sample_header
               (sample_env (fun _ => true) []) (sample_global false) 1
               (Some sample_adapter) 0x40000003 2 [0x40000005; 0x40000006]
               [10; 11] false world0).2 = w_trace world0 ++ t /\
    sends t = [(adapter_channel sample_adapter, p)].
Proof.
  assert (Hs : header_sane sample_header)
    by (split; unfold small; cbn; lia).
  split.
  - apply (wait_sync_object_gpu_count_check sample_header
             (sample_env (fun _ => true) []) (sample_global false) 1
             (Some sample_adapter) 0x40000003 0 [] [] false world0 Hs).
    left. reflexivity.
  - destruct (proj2 (wait_sync_object_gpu_count_check sample_header
                       (sample_env (fun _ => true) []) (sample_global false) 1
                       (Some sample_adapter) 0x40000003 2
                       [0x40000005; 0x40000006] [10; 11] false world0 Hs))
      as (t & p & Ht & Hsend & _).
    + cbn. lia.
    + reflexivity.
    + reflexivity.
    + right. reflexivity.
    + exists t, p. split; [exact Ht | exact Hsend].
Defined.

(** ** Signalling synchronisation objects *)

Lemma area_write_into (pre data old rest area : bytes) (off : Z) (w : world) :
  area = pre ++ old ++ rest -> off = blen pre -> length old = length data ->
  area_write off data area w = (Some (pre ++ data ++ rest), w).
Proof. intros -> ? ?. by apply area_write_over. Qed.

Lemma blen_app (a b : bytes) : blen (a ++ b) = blen a + blen b.
Proof. unfold blen. rewrite length_app. lia. Qed.

Lemma blen_zeros (n : Z) : 0 <= n -> blen (replicate (Z.to_nat n) 0) = n.
Proof. intros. unfold blen. rewrite length_replicate. lia. Qed.

Lemma signal_copy_into (ua : bool) (pre src old rest area : bytes)
    (n off : Z) (w : world) :
  n = blen src -> area = pre ++ old ++ rest -> off = blen pre ->
  length old = length src ->
  signal_copy ua src n off area w = (Some (inr (pre ++ src ++ rest)), w).
Proof.
  intros Hn Ha Ho Hl. rewrite signal_copy_all by done.
  unfold mbind. by rewrite (area_write_into pre src old rest).
Qed.

Lemma length_zero_image_handles (l : list Z) :
  Z.of_nat (length l) * 4 = 0 -> handles_image l = [].
Proof. destruct l; [done | cbn [length]; lia]. Qed.

Lemma length_zero_image_u64s (l : list Z) :
  Z.of_nat (length l) * 8 = 0 -> u64s_image l = [].
Proof. destruct l; [done | cbn [length]; lia]. Qed.

Lemma signal_sync_object_layout (K : header) (E : env) (g : dxgglobal_t)
    (h : Z) (adapter : option dxgadapter) (ece : bool) (lfv ctx : Z)
    (objs ctxs fs : list Z) (ceh dev : Z) (ua : bool) (w : world) :
  header_sane K ->
  let oc := Z.of_nat (length objs) in
  let cc := Z.of_nat (length ctxs) in
  let fc := Z.of_nat (length fs) in
  let injected := if ctx =? 0 then [] else le_bytes 4 ctx in
  let payload := handles_image objs ++ injected ++ handles_image ctxs
                 ++ u64s_image fs in
  oc < 2 ^ 20 -> cc < 2 ^ 20 -> fc < 2 ^ 20 ->
  (let size0 := sizeof_command_signalsyncobject K + blen payload in
   let size := if use_ext_header K g
               then size0 + sizeof_dxgvmb_ext_header K else size0 in
   size <= VMBUSMESSAGEONSTACK K \/ kzalloc_ok E size = true) ->
  let run := dxgvmb_send_signal_sync_object K E g h adapter ece lfv ctx
               oc objs cc ctxs fc (Some fs) ceh dev ua w in
  exists t p,
    w_trace run.2 = w_trace w ++ t /\
    sends t = [(channel_rule adapter (async_msg_enabled g), p)] /\
    pk_size p = (if use_ext_header K g then sizeof_dxgvmb_ext_header K else 0)
                + sizeof_command_signalsyncobject K + blen payload /\
    pk_cmd p
    = command_signalsyncobject
        (let h0 := command_vgpu_to_host_init2
                     DXGK_VMBCOMMAND_SIGNALSYNCOBJECT h in
         if async_msg_enabled g then set_async_msg h0 else h0)
        (if ece then ceh else 0) (if ece then 0 else dev) ece lfv oc
        (if ctx =? 0 then cc else cc + 1) payload.
Proof.
  intros [Hext Hstack Hsig _ _ _ _] oc cc fc injected payload Hoc Hcc Hfc
    Hok run.
  unfold small in *.
  assert (Hbo : blen (handles_image objs) = 4 * oc) by apply blen_handles_image.
  assert (Hbc : blen (handles_image ctxs) = 4 * cc) by apply blen_handles_image.
  assert (Hbf : blen (u64s_image fs) = 8 * fc) by apply blen_u64s_image.
  assert (Hbi : blen injected = if ctx =? 0 then 0 else 4).
  { unfold injected. by destruct (ctx =? 0). }
  assert (Hbp : blen payload = 4 * oc + blen injected + 4 * cc + 8 * fc).
  { unfold payload. rewrite !blen_app. lia. }
  assert (Hbi' : 0 <= blen injected <= 4) by (rewrite Hbi; destruct (ctx =? 0); lia).
  assert (0 <= oc /\ 0 <= cc /\ 0 <= fc) as (? & ? & ?) by (unfold oc, cc, fc; lia).
  subst run. unfold dxgvmb_send_signal_sync_object. cbv zeta.
  unfold sizeof_u64, sizeof_d3dkmthandle.
  rewrite (u32_small (oc * 4)), (u32_small (cc * 4)), (u32_small (fc * 8)) by lia.
  rewrite (u32_small (_ + oc * 4 + cc * 4 + fc * 8)) by lia.
  rewrite (u32_small (_ + oc * 4 + cc * 4 + fc * 8 + 4)) by lia.
  rewrite (u32_small (cc + 1)) by lia.
  set (cmd_size := if negb (ctx =? 0) then _ else _).
  assert (Hcs : cmd_size = sizeof_command_signalsyncobject K + blen payload).
  { unfold cmd_size. rewrite Hbp, Hbi. destruct (ctx =? 0); cbn [negb]; lia. }
  destruct (init_message_built K E g adapter cmd_size w)
    as (st & t0 & Hinit & Hs0 & _).
  { cbv zeta. rewrite u32_small by lia. rewrite Hcs. exact Hok. }
  unfold mbind at 1. rewrite Hinit. cbn [Z.eqb negb].
  match goal with
  | |- context [area_after ?m _] => set (msg := m)
  end.
  set (ZA := replicate (Z.to_nat (4 * oc)) 0).
  set (ZC := replicate (Z.to_nat (blen injected)) 0).
  set (ZB := replicate (Z.to_nat (4 * cc)) 0).
  set (ZF := replicate (Z.to_nat (8 * fc)) 0).
  assert (Harea : area_after msg (sizeof_command_signalsyncobject K)
                    (w_emit w t0)
                  = (Some (ZA ++ ZC ++ ZB ++ ZF), w_emit w t0)).
  { unfold area_after, msg, ZA, ZC, ZB, ZF. cbn [msg_ext msg_size].
    rewrite <- !zeros_split by lia.
    destruct (use_ext_header K g); cbn [command_offset];
      rewrite ?u32_small by lia;
      (rewrite (proj2 (Z.leb_le 0 _)) by lia);
      unfold mret; do 3 f_equal; lia. }
  unfold mbind at 1. rewrite Harea.
  set (A := handles_image objs) in *.
  set (B := handles_image ctxs) in *.
  set (F := u64s_image fs) in *.
  assert (Hl : forall n x, 0 <= n -> blen x = n ->
                 length (replicate (Z.to_nat n) 0) = length x).
  { intros n x Hn Hx. rewrite length_replicate. unfold blen in Hx. lia. }
  unfold mbind at 1.
  rewrite (signal_copy_into ua [] A ZA (ZC ++ ZB ++ ZF))
    by (first [done | lia | apply Hl; lia]).
  cbn [app].
  cbv beta iota. unfold mbind at 1.
  match goal with
  | |- context [let (_, _) := ?X in _] =>
      assert (H2 : X = (Some (A ++ injected ++ ZB ++ ZF), w_emit w t0))
  end.
  { unfold ZC, injected. destruct (ctx =? 0); cbn [negb]; [done |].
    apply (area_write_into A _ (replicate (Z.to_nat (blen (le_bytes 4 ctx))) 0)
             (ZB ++ ZF)); [done | lia | by rewrite length_replicate]. }
  rewrite H2. cbv beta iota.
  unfold mbind at 1.
  match goal with
  | |- context [let (_, _) := ?X in _] =>
      assert (H3 : X = (Some (inr (A ++ injected ++ B ++ ZF)), w_emit w t0))
  end.
  { destruct (Z.eqb_spec (cc * 4) 0) as [Hz | Hz]; cbn [negb].
    - unfold B, ZB. rewrite length_zero_image_handles by done.
      replace (4 * cc) with 0 by lia. done.
    - rewrite (signal_copy_into ua (A ++ injected) B ZB ZF);
        rewrite <- ?app_assoc; try done; try lia; [| apply Hl; lia].
      rewrite blen_app, Hbi, Hbo. destruct (ctx =? 0); cbn [negb]; lia. }
  rewrite H3. cbv beta iota.
  unfold mbind at 1.
  match goal with
  | |- context [let (_, _) := ?X in _] =>
      assert (H4 : X = (Some (inr payload), w_emit w t0))
  end.
  { cbn [default]. fold F.
    destruct (Z.eqb_spec (fc * 8) 0) as [Hz | Hz]; cbn [negb].
    - unfold payload, ZF. fold A B F. unfold F.
      rewrite length_zero_image_u64s by done.
      replace (8 * fc) with 0 by lia. done.
    - rewrite (signal_copy_into ua (A ++ injected ++ B) F ZF []);
        rewrite <- ?app_assoc, ?app_nil_r; try done; try lia;
        [| apply Hl; lia].
      rewrite !blen_app, Hbi, Hbo, Hbc.
      destruct (Z.eqb_spec (cc * 4) 0), (ctx =? 0); cbn [negb]; lia. }
  rewrite H4. cbv beta iota.
  unfold mbind at 1. unfold msg_chan at 1. cbn [msg_channel msg mret].
  destruct (send_and_free K E g msg
              (channel_rule adapter (async_msg_enabled g))
              (fun h' => command_signalsyncobject h'
                           (if ece then ceh else 0) (if ece then 0 else dev)
                           ece lfv oc (if negb (ctx =? 0) then cc + 1 else cc)
                           payload)
              (command_vgpu_to_host_init2 DXGK_VMBCOMMAND_SIGNALSYNCOBJECT h)
              (w_emit w t0)) as (t1 & Ht1 & Hs1).
  cbv beta in Ht1. rewrite Ht1. cbn [w_emit w_trace].
  exists (t0 ++ t1). eexists. split; [by rewrite app_assoc |].
  rewrite sends_app, Hs0, Hs1. split; [reflexivity |].
  cbn [pk_cmd pk_size mk_packet msg msg_size]. split.
  - rewrite Hcs. destruct (use_ext_header K g); rewrite ?u32_small by lia; lia.
  - by destruct (async_msg_enabled g), (ctx =? 0).
Qed.

(** C7. A signal call with two objects, two fence values and a non-zero
    explicit context handle, whatever context array the caller supplies,
    sends one message whose area after the fixed command structure holds the
    object handles, then the injected context handle, then the caller's
    context array, then the fence values, with nothing in between: for an
    empty context array (context_count = 0) that is exactly
    2*sizeof(d3dkmthandle) + 1*sizeof(d3dkmthandle) + 2*8 bytes, and the
    context_count reported in the header is 1. *)
Theorem signal_sync_object_scenario (K : header) (E : env) (g : dxgglobal_t)
    (h : Z) (adapter : option dxgadapter) (ece : bool) (lfv ctx : Z)
    (o1 o2 f1 f2 : Z) (ctxs : list Z) (ceh dev : Z) (ua : bool) (w : world) :
  header_sane K -> ctx <> 0 ->
  let cc := Z.of_nat (length ctxs) in
  let payload := handles_image [o1; o2] ++ le_bytes 4 ctx
                 ++ handles_image ctxs ++ u64s_image [f1; f2] in
  cc < 2 ^ 20 ->
  (let size0 := sizeof_command_signalsyncobject K + blen payload in
   let size := if use_ext_header K g
               then size0 + sizeof_dxgvmb_ext_header K else size0 in
   size <= VMBUSMESSAGEONSTACK K \/ kzalloc_ok E size = true) ->
  let run := dxgvmb_send_signal_sync_object K E g h adapter ece lfv ctx
               2 [o1; o2] cc ctxs 2 (Some [f1; f2]) ceh dev ua w in
  exists t p hdr,
    w_trace run.2 = w_trace w ++ t /\
    sends t = [(channel_rule adapter (async_msg_enabled g), p)] /\
    pk_cmd p
    = command_signalsyncobject hdr (if ece then ceh else 0)
        (if ece then 0 else dev) ece lfv 2 (cc + 1) payload /\
    blen payload
    = 2 * sizeof_d3dkmthandle + 1 * sizeof_d3dkmthandle
      + cc * sizeof_d3dkmthandle + 2 * 8 /\
    pk_size p
    = (if use_ext_header K g then sizeof_dxgvmb_ext_header K else 0)
      + sizeof_command_signalsyncobject K + blen payload.
Proof.
  intros Hsane Hctx cc payload Hcc Hok run.
  destruct (signal_sync_object_layout K E g h adapter ece lfv ctx [o1; o2]
              ctxs [f1; f2] ceh dev ua w Hsane) as (t & p & Ht & Hs & Hsz & Hc).
  - cbn. lia.
  - exact Hcc.
  - cbn. lia.
  - rewrite (proj2 (Z.eqb_neq ctx 0) Hctx). exact Hok.
  - rewrite (proj2 (Z.eqb_neq ctx 0) Hctx) in Hc, Hsz.
    exists t, p. eexists. split; [exact Ht |]. split; [exact Hs |].
    split; [exact Hc |]. split; [| exact Hsz].
    unfold payload.
    rewrite !blen_app, !blen_handles_image, blen_u64s_image.
    unfold blen. rewrite length_le_bytes.
    unfold sizeof_d3dkmthandle, cc. cbn [length]. lia.
Qed.

Lemma signal_sync_object_scenario_witness :
  exists t p hdr payload,
    w_trace (dxgvmb_send_signal_sync_object sample_header
               (sample_env (fun _ => true) []) (sample_global false) 1
               (Some sample_adapter) false 0 0x40000009 2
               [0x40000005; 0x40000006] 0 [] 2 (Some [10; 11]) 0 7 true
               world0).2 = w_trace world0 ++ t /\
    sends t = [(adapter_channel sample_adapter, p)] /\
    pk_cmd p = command_signalsyncobject hdr 0 7 false 0 2 1 payload /\
    blen payload = 2 * 4 + 1 * 4 + 2 * 8.
Proof.
  assert (Hs : header_sane sample_header)
    by (split; unfold small; cbn; lia).
  destruct (signal_sync_object_scenario sample_header
              (sample_env (fun _ => true) []) (sample_global false) 1
              (Some sample_adapter) false 0 0x40000009 0x40000005 0x40000006
              10 11 [] 0 7 true world0 Hs)
    as (t & p & hdr & Ht & Hsend & Hc & Hlen & _).
  - discriminate.
  - reflexivity.
  - right. reflexivity.
  - exists t, p, hdr. eexists. split; [exact Ht |]. split; [exact Hsend |].
    split; [exact Hc | exact Hlen].
Defined.

(** ** Size validation *)

Lemma total_priv_drv_data_size_error (max : Z)
    (l : list d3dddi_allocationinfo) (acc e : Z) :
  total_priv_drv_data_size max l acc = inl e -> e = - EOVERFLOW.
Proof.
  revert acc. induction l as [| a l IH]; intros acc; cbn; [done |].
  repeat case_match; try (intros [= <-]; done). apply IH.
Qed.

Lemma total_priv_drv_data_size_overflow (max : Z)
    (l : list d3dddi_allocationinfo) (acc : Z) :
  Exists (fun a => max <= priv_drv_data_size a) l ->
  total_priv_drv_data_size max l acc = inl (- EOVERFLOW).
Proof.
  intros Hex. revert acc.
  induction Hex as [a l Ha | a l Hex IH]; intros acc; cbn.
  - by rewrite (proj2 (Z.leb_le _ _) Ha).
  - repeat case_match; try done.
Qed.







(** ** Hardware queue creation: what a failure unwinds *)

Definition is_fence_free (e : event) : bool :=
  match e with
  | EvFreeHandle HMGRENTRY_TYPE_MONITOREDFENCE _ => true
  | _ => false
  end.

Definition is_munmap (e : event) : bool :=
  match e with
  | EvMunmap _ _ => true
  | _ => false
  end.

(** Events of the allocator and of the transport. *)
Definition is_transport (e : event) : bool :=
  match e with
  | EvKzalloc _ | EvKfree | EvSendSync _ _ _ | EvSendAsync _ _ => true
  | _ => false
  end.

Lemma destroy_hwqueue_run (K : header) (E : env) (g : dxgglobal_t)
    (ph : Z) (adapter : option dxgadapter) (h : Z) (w : world) :
  (let size := if use_ext_header K g
               then u32 (sizeof_command_destroyhwqueue K
                         + sizeof_dxgvmb_ext_header K)
               else sizeof_command_destroyhwqueue K in
   size <= VMBUSMESSAGEONSTACK K \/ kzalloc_ok E size = true) ->
  exists r t p hdr,
    dxgvmb_send_destroy_hwqueue K E g ph adapter h w = (r, w_emit w t) /\
    sends t = [(channel_rule adapter (async_msg_enabled g), p)] /\
    pk_cmd p = command_destroyhwqueue hdr h /\
    Forall (fun e => is_transport e = true) t.
Proof.
  intros Hok. unfold dxgvmb_send_destroy_hwqueue.
  destruct (init_message_built K E g adapter
              (sizeof_command_destroyhwqueue K) w Hok)
    as (st & t0 & Hinit & Hs0 & _).
  assert (Ht0 : Forall (fun e => is_transport e = true) t0).
  { pose proof (emits_init_message K E g (fun e => is_transport e = true)
                  ltac:(done) adapter (sizeof_command_destroyhwqueue K) w)
      as (t0' & Heq & HP).
    rewrite Hinit in Heq. cbn in Heq. by apply app_inv_head in Heq as ->. }
  unfold mbind at 1. rewrite Hinit. cbn [Z.eqb negb].
  unfold mbind at 1. unfold msg_chan at 1. cbn [msg_channel mret].
  match goal with
  | |- context [dxgvmb_send_sync_msg_ntstatus _ _ ?ch ?p] =>
      destruct (send_sync_ntstatus_run K E ch p (w_emit w t0))
        as (r & t1 & Hr & Hs1);
      pose proof (emits_send_sync_ntstatus K E (fun e => is_transport e = true)
                    ltac:(done) ltac:(done) ltac:(done) ch p (w_emit w t0))
        as (t1' & Heq1 & HP1)
  end.
  rewrite Hr in Heq1. cbn in Heq1. apply app_inv_head in Heq1 as <-.
  unfold mbind at 1. rewrite Hr.
  destruct r as [ret |].
  - match goal with
    | |- context [free_message ?m] =>
        destruct (free_message_run m (w_emit (w_emit w t0) t1))
          as (t2 & Hf & Hs2);
        pose proof (emits_free_message (fun e => is_transport e = true)
                      ltac:(done) m (w_emit (w_emit w t0) t1))
          as (t2' & Heq2 & HP2)
    end.
    rewrite Hf in Heq2. cbn in Heq2. apply app_inv_head in Heq2 as <-.
    unfold mbind, mret. rewrite Hf. rewrite !w_emit_app.
    eexists _, _, _, _. split; [reflexivity |].
    rewrite !sends_app, Hs0, Hs1, Hs2. split; [reflexivity |].
    split; [reflexivity |]. by repeat apply Forall_app_2.
  - rewrite !w_emit_app.
    eexists _, _, _, _. split; [reflexivity |].
    rewrite !sends_app, Hs0, Hs1. split; [reflexivity |].
    split; [reflexivity |]. by repeat apply Forall_app_2.
Qed.

(** The run of the label [cleanup] on a failure, once the host has returned
    a queue handle [h]. *)
Lemma create_hwqueue_cleanup_failure (K : header) (E : env) (g : dxgglobal_t)
    (ph : Z) (adapter : option dxgadapter) (msg : dxgvmbusmsg) (h ret : Z)
    (hq : dxghwqueue) (w : world) :
  ret < 0 -> h <> 0 ->
  (let size := if use_ext_header K g
               then u32 (sizeof_command_destroyhwqueue K
                         + sizeof_dxgvmb_ext_header K)
               else sizeof_command_destroyhwqueue K in
   size <= VMBUSMESSAGEONSTACK K \/ kzalloc_ok E size = true) ->
  let r := create_hwqueue_cleanup K E g ph adapter msg (Some h) ret hq w in
  exists t p hdr,
    w_trace r.2 = w_trace w ++ t /\
    w_maps r.2 = w_maps w /\
    w_handles r.2
    = (if hwq_handle hq =? 0 then w_handles w
       else if decide (w_handles w !! hwq_handle hq
                       = Some HMGRENTRY_TYPE_DXGHWQUEUE)
            then delete (hwq_handle hq) (w_handles w) else w_handles w) /\
    sends t = [(channel_rule adapter (async_msg_enabled g), p)] /\
    pk_cmd p = command_destroyhwqueue hdr h /\
    Forall (fun e => is_fence_free e = false /\ is_munmap e = false) t /\
    (hwq_handle hq <> 0 ->
     In (EvFreeHandle HMGRENTRY_TYPE_DXGHWQUEUE (hwq_handle hq)) t) /\
    (forall ret' hq', r.1 = Some (ret', hq') ->
       ret' = ret /\
       hq' = {| hwq_handle := 0;
                progress_fence_sync_object := progress_fence_sync_object hq;
                progress_fence_mapped_address :=
                  progress_fence_mapped_address hq |}).
Proof.
  intros Hret Hh Hok r. subst r.
  destruct (create_hwqueue_cleanup K E g ph adapter msg (Some h) ret hq w)
    as [o w1] eqn:Hrun.
  cbn [fst snd].
  unfold create_hwqueue_cleanup in Hrun.
  rewrite (proj2 (Z.ltb_lt _ _) Hret) in Hrun.
  rewrite (proj2 (Z.eqb_neq _ _) Hh) in Hrun. cbn [negb] in Hrun.
  assert (Htr : forall t, Forall (fun e => is_transport e = true) t ->
                  Forall (fun e => is_fence_free e = false
                                   /\ is_munmap e = false) t).
  { intros t Ht. eapply Forall_impl; [exact Ht |]. by intros []. }
  unfold hmgrtable_free_handle_safe in Hrun.
  unfold mbind, mret, emit in Hrun.
  destruct (Z.eqb_spec (hwq_handle hq) 0) as [Hz | Hnz];
    cbn [negb w_trace w_handles w_maps] in Hrun.
  - destruct (destroy_hwqueue_run K E g ph adapter h w Hok)
      as (r & t & p & hdr & Hd & Hs & Hc & HT).
    rewrite Hd in Hrun.
    destruct r as [rd |].
    + destruct (free_message_run msg (w_emit w t)) as (t2 & Hf & Hs2).
      pose proof (emits_free_message (fun e => is_transport e = true)
                    ltac:(done) msg (w_emit w t)) as (t2' & Heq2 & HP2).
      rewrite Hf in Heq2. cbn in Heq2. apply app_inv_head in Heq2 as <-.
      rewrite Hf in Hrun. injection Hrun as <- <-. cbn.
      exists (t ++ t2), p, hdr.
      rewrite app_assoc, sends_app, Hs, Hs2.
      split_and!; try done.
      * apply Htr. by apply Forall_app_2.
      * intros ? ? [= <- <-]. destruct hq; cbn in *; by subst.
    + injection Hrun as <- <-. cbn.
      exists t, p, hdr. split_and!; try done. by apply Htr.
  - match type of Hrun with
    | context [dxgvmb_send_destroy_hwqueue _ _ _ _ _ _ ?w1] =>
        destruct (destroy_hwqueue_run K E g ph adapter h w1 Hok)
          as (r & t & p & hdr & Hd & Hs & Hc & HT); rewrite Hd in Hrun
    end.
    destruct r as [rd |].
    + match type of Hrun with
      | context [free_message msg ?w2] =>
        destruct (free_message_run msg w2) as (t2 & Hf & Hs2);
        pose proof (emits_free_message (fun e => is_transport e = true)
                      ltac:(done) msg w2) as (t2' & Heq2 & HP2)
      end.
      rewrite Hf in Heq2. cbn in Heq2. apply app_inv_head in Heq2 as <-.
      rewrite Hf in Hrun. injection Hrun as <- <-. cbn.
      exists ([EvFreeHandle HMGRENTRY_TYPE_DXGHWQUEUE (hwq_handle hq)]
              ++ t ++ t2), p, hdr.
      rewrite <- !app_assoc. cbn [sends app]. rewrite sends_app, Hs, Hs2.
      split_and!; try done.
      * constructor; [done |]. apply Htr. by apply Forall_app_2.
      * intros _. by left.
      * by intros ? ? [= <- <-].
    + injection Hrun as <- <-. cbn.
      exists ([EvFreeHandle HMGRENTRY_TYPE_DXGHWQUEUE (hwq_handle hq)] ++ t),
        p, hdr.
      rewrite <- !app_assoc. cbn [sends app]. rewrite Hs.
      split_and!; try done.
      * constructor; [done |]. by apply Htr.
      * intros _. by left.
Qed.

Lemma create_hwqueue_cleanup_success (K : header) (E : env) (g : dxgglobal_t)
    (ph : Z) (adapter : option dxgadapter) (msg : dxgvmbusmsg)
    (ch : option Z) (ret : Z) (hq : dxghwqueue) (w : world) (ret' : Z)
    (hq' : dxghwqueue) :
  0 <= ret ->
  (create_hwqueue_cleanup K E g ph adapter msg ch ret hq w).1
  = Some (ret', hq') ->
  ret' = ret.
Proof.
  intros Hret. unfold create_hwqueue_cleanup.
  rewrite (proj2 (Z.ltb_ge _ _) Hret).
  unfold mbind at 1. unfold mret at 1. unfold mbind.
  destruct (free_message_run msg w) as (t & -> & _). cbn.
  by intros [= <- <-].
Qed.

(** The run of [dxg_map_iospace]: it returns, touches no handle and sends
    nothing; when the result is not NULL the new mapping is recorded and
    nothing was unmapped. *)
Lemma dxg_map_iospace_run (E : env) (g : dxgglobal_t)
    (addr size : Z) (cached : bool) (w : world) :
  let r := dxg_map_iospace E g addr size cached w in
  exists va t,
    r.1 = Some va /\
    w_trace r.2 = w_trace w ++ t /\
    w_handles r.2 = w_handles w /\
    sends t = [] /\
    Forall (fun e => is_fence_free e = false) t /\
    (va <> 0 ->
     w_maps r.2 = (vm_mmap_ret E size, size) :: w_maps w /\
     Forall (fun e => is_munmap e = false) t).
Proof.
  cbv zeta.
  unfold dxg_map_iospace, dxg_unmap_iospace, add_map, del_map, mbind, mret,
    emit.
  repeat case_match; simplify_eq; cbn;
    eexists _, _; (split; [reflexivity |]);
    (split; [rewrite <- ?app_assoc; cbn; try reflexivity;
             symmetry; apply app_nil_r |]);
    (split; [done |]); (split; [done |]);
    (split; [by repeat constructor |]);
    try (intros Hva; by destruct Hva);
    intros _; split; [done | by repeat constructor].
Qed.

(** Reaching the label [cleanup] with a negative result, after the events
    [t_pre]. *)
Lemma create_hwqueue_exit (K : header) (E : env) (g : dxgglobal_t)
    (ph : Z) (adapter : option dxgadapter) (msg : dxgvmbusmsg) (h : Z)
    (retX : Z) (hqX : dxghwqueue) (w wX : world) (t_pre : list event)
    (o : option (Z * dxghwqueue)) (w1 : world) (ret : Z) (hq' : dxghwqueue) :
  h <> 0 ->
  (let size := if use_ext_header K g
               then u32 (sizeof_command_destroyhwqueue K
                         + sizeof_dxgvmb_ext_header K)
               else sizeof_command_destroyhwqueue K in
   size <= VMBUSMESSAGEONSTACK K \/ kzalloc_ok E size = true) ->
  create_hwqueue_cleanup K E g ph adapter msg (Some h) retX hqX wX = (o, w1) ->
  o = Some (ret, hq') -> ret < 0 ->
  w_trace wX = w_trace w ++ t_pre -> sends t_pre = [] ->
  Forall (fun e => is_fence_free e = false) t_pre ->
  exists t p hdr,
    w_trace w1 = w_trace w ++ t /\
    sends t = [(channel_rule adapter (async_msg_enabled g), p)] /\
    pk_cmd p = command_destroyhwqueue hdr h /\
    Forall (fun e => is_fence_free e = false) t /\
    hwq_handle hq' = 0 /\
    progress_fence_mapped_address hq' = progress_fence_mapped_address hqX /\
    w_maps w1 = w_maps wX /\
    w_handles w1
    = (if hwq_handle hqX =? 0 then w_handles wX
       else if decide (w_handles wX !! hwq_handle hqX
                       = Some HMGRENTRY_TYPE_DXGHWQUEUE)
            then delete (hwq_handle hqX) (w_handles wX) else w_handles wX) /\
    (hwq_handle hqX <> 0 ->
     In (EvFreeHandle HMGRENTRY_TYPE_DXGHWQUEUE (hwq_handle hqX)) t) /\
    (Forall (fun e => is_munmap e = false) t_pre ->
     Forall (fun e => is_munmap e = false) t).
Proof.
  intros Hh Hok Hrun -> Hret Hpre Hsp Hfp.
  destruct (Z.lt_ge_cases retX 0) as [Hneg | Hpos].
  - destruct (create_hwqueue_cleanup_failure K E g ph adapter msg h retX hqX
                wX Hneg Hh Hok)
      as (t & p & hdr & Ht & Hm & Hhs & Hs & Hc & HF & Hin & Hres).
    rewrite Hrun in Ht, Hm, Hhs, Hres. cbn [fst snd] in *.
    destruct (Hres ret hq' eq_refl) as [-> ->].
    exists (t_pre ++ t), p, hdr.
    rewrite Ht, Hpre, app_assoc, sends_app, Hsp, Hs.
    split_and!; try done.
    + apply Forall_app_2; [done |].
      eapply Forall_impl; [exact HF |]. by intros ? [? ?].
    + intros ?. apply in_or_app. right. by apply Hin.
    + intros Hmp. apply Forall_app_2; [done |].
      eapply Forall_impl; [exact HF |]. by intros ? [? ?].
  - pose proof (create_hwqueue_cleanup_success K E g ph adapter msg (Some h)
                  retX hqX wX ret hq' Hpos) as Heq.
    rewrite Hrun in Heq. specialize (Heq eq_refl). lia.
Qed.

Lemma assign_handle_run (E : env) (t : hmgrentry_type) (h : Z) (w : world) :
  hmgrtable_assign_handle_safe E t h w
  = (Some (hmgrtable_assign_handle_ret E t h),
     {| w_trace := w_trace w
                   ++ [EvAssignHandle t h (hmgrtable_assign_handle_ret E t h)];
        w_handles := if 0 <=? hmgrtable_assign_handle_ret E t h
                     then <[h := t]> (w_handles w) else w_handles w;
        w_maps := w_maps w |}).
Proof. reflexivity. Qed.

Lemma copy_to_user_run (E : env) (f : user_field) (w : world) :
  copy_to_user E f w = (Some (copy_to_user_ok E f), w_emit w [EvCopyToUser f]).
Proof. reflexivity. Qed.

(** C6. In [dxgvmb_send_create_hwqueue], on a failure after the host has
    returned a non-zero hardware-queue handle, the encoder sends one
    compensating destroy-hwqueue message for that handle and leaves the
    handle of the queue object zero; when both handle-table registrations
    had succeeded it removes the queue entry.  It never removes the
    progress-fence placeholder entry, which stays in the table, and it does
    not unmap a progress-fence mapping that was established: mapping and
    placeholder stay with the queue object. *)
Theorem create_hwqueue_failure_unwinding (K : header) (E : env)
    (g : dxgglobal_t) (ph : Z) (adapter : option dxgadapter)
    (msg : dxgvmbusmsg) (priv_size : Z) (rp : reply) (hq : dxghwqueue)
    (w : world) (ret : Z) (hq' : dxghwqueue) :
  rp_hwqueue rp <> 0 ->
  hwq_handle hq = 0 -> progress_fence_mapped_address hq = 0 ->
  (let size := if use_ext_header K g
               then u32 (sizeof_command_destroyhwqueue K
                         + sizeof_dxgvmb_ext_header K)
               else sizeof_command_destroyhwqueue K in
   size <= VMBUSMESSAGEONSTACK K \/ kzalloc_ok E size = true) ->
  let r := create_hwqueue_result K E g ph adapter msg priv_size rp hq w in
  r.1 = Some (ret, hq') -> ret < 0 ->
  exists t p hdr,
    w_trace r.2 = w_trace w ++ t /\
    sends t = [(channel_rule adapter (async_msg_enabled g), p)] /\
    pk_cmd p = command_destroyhwqueue hdr (rp_hwqueue rp) /\
    Forall (fun e => is_fence_free e = false) t /\
    hwq_handle hq' = 0 /\
    (0 <= rp_ret rp -> 0 <= ntstatus2int K (rp_status rp) ->
     0 <= hmgrtable_assign_handle_ret E HMGRENTRY_TYPE_DXGHWQUEUE
            (rp_hwqueue rp) ->
     0 <= hmgrtable_assign_handle_ret E HMGRENTRY_TYPE_MONITOREDFENCE
            (rp_hwqueue_progress_fence rp) ->
     In (EvFreeHandle HMGRENTRY_TYPE_DXGHWQUEUE (rp_hwqueue rp)) t /\
     w_handles r.2 !! rp_hwqueue_progress_fence rp
     = Some HMGRENTRY_TYPE_MONITOREDFENCE /\
     (rp_hwqueue rp <> rp_hwqueue_progress_fence rp ->
      w_handles r.2 !! rp_hwqueue rp = None)) /\
    (progress_fence_mapped_address hq' <> 0 ->
     In (vm_mmap_ret E PAGE_SIZE, PAGE_SIZE) (w_maps r.2) /\
     Forall (fun e => is_munmap e = false) t).
Proof.
  intros Hh Hq0 Hm0 Hok r Hr Hret. subst r.
  destruct (create_hwqueue_result K E g ph adapter msg priv_size rp hq w)
    as [o w1] eqn:Hrun.
  cbn [fst snd] in *.
  unfold create_hwqueue_result in Hrun. cbv zeta in Hrun.
  destruct (Z.ltb_spec (rp_ret rp) 0) as [H1 | H1].
  { edestruct (create_hwqueue_exit K E g ph adapter msg _ _ _ w w [] o w1 ret
                 hq' Hh Hok Hrun Hr Hret)
      as (t & p & hdr & Ht & Hs & Hc & HF & Hh0 & Hma & Hmaps & Hhs & Hin & Hmu);
      [by rewrite app_nil_r | done | constructor |].
    exists t, p, hdr. split_and!; try done; [lia | congruence]. }
  destruct (Z.ltb_spec (ntstatus2int K (rp_status rp)) 0) as [H2 | H2].
  { edestruct (create_hwqueue_exit K E g ph adapter msg _ _ _ w w [] o w1 ret
                 hq' Hh Hok Hrun Hr Hret)
      as (t & p & hdr & Ht & Hs & Hc & HF & Hh0 & Hma & Hmaps & Hhs & Hin & Hmu);
      [by rewrite app_nil_r | done | constructor |].
    exists t, p, hdr. split_and!; try done; [lia | congruence]. }
  unfold mbind at 1 in Hrun. rewrite assign_handle_run in Hrun.
  set (r1 := hmgrtable_assign_handle_ret E HMGRENTRY_TYPE_DXGHWQUEUE
               (rp_hwqueue rp)) in *.
  set (e1 := EvAssignHandle HMGRENTRY_TYPE_DXGHWQUEUE (rp_hwqueue rp) r1) in *.
  destruct (Z.ltb_spec r1 0) as [H3 | H3].
  { edestruct (create_hwqueue_exit K E g ph adapter msg _ _ _ w _ [e1] o w1
                 ret hq' Hh Hok Hrun Hr Hret)
      as (t & p & hdr & Ht & Hs & Hc & HF & Hh0 & Hma & Hmaps & Hhs & Hin & Hmu);
      [done | done | by repeat constructor |].
    exists t, p, hdr. split_and!; try done; [lia | congruence]. }
  unfold mbind at 1 in Hrun. rewrite assign_handle_run in Hrun.
  cbn [w_trace w_handles w_maps] in Hrun.
  set (r2 := hmgrtable_assign_handle_ret E HMGRENTRY_TYPE_MONITOREDFENCE
               (rp_hwqueue_progress_fence rp)) in *.
  set (e2 := EvAssignHandle HMGRENTRY_TYPE_MONITOREDFENCE
               (rp_hwqueue_progress_fence rp) r2) in *.
  destruct (Z.ltb_spec r2 0) as [H4 | H4].
  { edestruct (create_hwqueue_exit K E g ph adapter msg _ _ _ w _ [e1; e2] o
                 w1 ret hq' Hh Hok Hrun Hr Hret)
      as (t & p & hdr & Ht & Hs & Hc & HF & Hh0 & Hma & Hmaps & Hhs & Hin & Hmu);
      [cbn; by rewrite <- app_assoc | done | by repeat constructor |].
    exists t, p, hdr. split_and!; try done; [lia | congruence]. }
  unfold mbind at 1 in Hrun.
  match type of Hrun with
  | context [dxg_map_iospace E g ?a ?s ?c ?wA] =>
      pose proof (dxg_map_iospace_run E g a s c wA) as Hmap;
      destruct (dxg_map_iospace E g a s c wA) as [ov wM] eqn:HmapE
  end.
  cbv zeta in Hmap. cbn [fst snd w_trace w_handles w_maps] in Hmap.
  destruct Hmap as (va & tm & -> & HtM & HhM & HsM & HfM & HvaM).
  (* what every later exit shares *)
  assert (Hlate : forall tc wX retX,
            w_trace wX = w_trace wM ++ tc -> w_maps wX = w_maps wM ->
            w_handles wX = w_handles wM ->
            sends tc = [] ->
            Forall (fun e => is_fence_free e = false
                             /\ is_munmap e = false) tc ->
            create_hwqueue_cleanup K E g ph adapter msg
              (Some (rp_hwqueue rp)) retX
              {| hwq_handle := rp_hwqueue rp;
                 progress_fence_sync_object := rp_hwqueue_progress_fence rp;
                 progress_fence_mapped_address := va |} wX = (o, w1) ->
            exists t p hdr,
              w_trace w1 = w_trace w ++ t /\
              sends t = [(channel_rule adapter (async_msg_enabled g), p)] /\
              pk_cmd p = command_destroyhwqueue hdr (rp_hwqueue rp) /\
              Forall (fun e => is_fence_free e = false) t /\
              hwq_handle hq' = 0 /\
              (0 <= rp_ret rp -> 0 <= ntstatus2int K (rp_status rp) ->
               0 <= r1 -> 0 <= r2 ->
               In (EvFreeHandle HMGRENTRY_TYPE_DXGHWQUEUE (rp_hwqueue rp)) t /\
               w_handles w1 !! rp_hwqueue_progress_fence rp
               = Some HMGRENTRY_TYPE_MONITOREDFENCE /\
               (rp_hwqueue rp <> rp_hwqueue_progress_fence rp ->
                w_handles w1 !! rp_hwqueue rp = None)) /\
              (progress_fence_mapped_address hq' <> 0 ->
               In (vm_mmap_ret E PAGE_SIZE, PAGE_SIZE) (w_maps w1) /\
               Forall (fun e => is_munmap e = false) t)).
  { intros tc wX retX HtX HmX HhX Hsc Hfc HrunX.
    edestruct (create_hwqueue_exit K E g ph adapter msg _ _ _ w wX
                 ([e1; e2] ++ tm ++ tc) o w1 ret hq' Hh Hok HrunX Hr Hret)
      as (t & p & hdr & Ht & Hs & Hc & HF & Hh0 & Hma & Hmaps & Hhs & Hin & Hmu);
      [rewrite HtX, HtM; cbn; by rewrite <- !app_assoc
      | cbn; by rewrite sends_app, HsM, Hsc
      | repeat constructor; apply Forall_app_2; [done |];
        eapply Forall_impl; [exact Hfc |]; by intros ? [? ?] |].
    cbn [hwq_handle progress_fence_mapped_address] in *.
    exists t, p, hdr. split_and!; try done.
    - intros _ _ Hr1 Hr2. split; [by apply Hin |].
      rewrite Hhs, HhX, HhM.
      rewrite (proj2 (Z.eqb_neq _ _) Hh).
      rewrite (proj2 (Z.leb_le _ _) Hr1), (proj2 (Z.leb_le _ _) Hr2).
      destruct (decide (rp_hwqueue rp = rp_hwqueue_progress_fence rp))
        as [Heq | Hne].
      + rewrite Heq. case_decide; simplify_map_eq; done.
      + case_decide; simplify_map_eq; done.
    - rewrite Hma. intros Hva. destruct (HvaM Hva) as [HmapsM HmuM].
      split.
      + rewrite Hmaps, HmX, HmapsM. by left.
      + apply Hmu. repeat constructor. apply Forall_app_2; [done |].
        eapply Forall_impl; [exact Hfc |]. by intros ? [? ?]. }
  assert (Hemit : forall t1 t2, w_emit (w_emit wM t1) t2 = w_emit wM (t1 ++ t2))
    by (intros; apply w_emit_app).
  cbv beta iota in Hrun.
  destruct (va =? 0).
  { refine (Hlate [] wM _ _ _ _ _ _ Hrun);
      [by rewrite app_nil_r | done | done | done | constructor]. }
  repeat (unfold mbind at 1 in Hrun; rewrite copy_to_user_run in Hrun;
          match type of Hrun with
          | context [copy_to_user_ok E ?f] =>
              destruct (copy_to_user_ok E f); cbn [negb] in Hrun
          end;
          [| rewrite ?Hemit in Hrun;
             refine (Hlate _ _ _ _ _ _ _ _ Hrun);
             [reflexivity | done | done | done | by repeat constructor]]).
  destruct (priv_size =? 0); cbn [negb] in Hrun.
  - rewrite ?Hemit in Hrun.
    refine (Hlate _ _ _ _ _ _ _ _ Hrun);
      [reflexivity | done | done | done | by repeat constructor].
  - unfold mbind at 1 in Hrun. rewrite copy_to_user_run in Hrun.
    rewrite ?Hemit in Hrun.
    refine (Hlate _ _ _ _ _ _ _ _ Hrun);
      [reflexivity | done | done | done | by repeat constructor].
Qed.

Lemma create_hwqueue_failure_unwinding_witness :
  let E := sample_env (fun f => match f with
                                | uf_queue => false
                                | _ => true
                                end) [] in
  let r := create_hwqueue_result sample_header E (sample_global false) 1
             (Some sample_adapter) msg_empty 0 sample_reply
             {| hwq_handle := 0; progress_fence_sync_object := 0;
                progress_fence_mapped_address := 0 |} world0 in
  exists t p hdr,
    w_trace r.2 = w_trace world0 ++ t /\
    sends t = [(adapter_channel sample_adapter, p)] /\
    pk_cmd p = command_destroyhwqueue hdr (rp_hwqueue sample_reply).
Proof.
  cbv zeta.
  edestruct (create_hwqueue_failure_unwinding sample_header
               (sample_env (fun f => match f with
                                     | uf_queue => false
                                     | _ => true
                                     end) [])
               (sample_global false) 1 (Some sample_adapter) msg_empty 0
               sample_reply
               {| hwq_handle := 0; progress_fence_sync_object := 0;
                  progress_fence_mapped_address := 0 |} world0)
    as (t & p & hdr & Ht & Hs & Hc & _).
  - discriminate.
  - reflexivity.
  - reflexivity.
  - left. vm_compute. discriminate.
  - vm_compute. reflexivity.
  - vm_compute. reflexivity.
  - exists t, p, hdr. split; [exact Ht |]. split; [exact Hs | exact Hc].
Defined.

(** The claim C6 fails: when the copy of the queue handle to the caller
    fails, after both registrations and the mapping, the encoder returns
    -EINVAL with the progress-fence placeholder still in the handle table
    and the progress-fence mapping still in place; nothing was unmapped. *)
Lemma create_hwqueue_leaves_fence_and_mapping :
  let E := sample_env (fun f => match f with
                                | uf_queue => false
                                | _ => true
                                end) [] in
  let r := dxgvmb_send_create_hwqueue sample_header E (sample_global false) 1
             (Some sample_adapter) 0x40000003 0 0 []
             {| hwq_handle := 0; progress_fence_sync_object := 0;
                progress_fence_mapped_address := 0 |} world0 in
  fst <$> r.1 = Some (- EINVAL) /\
  w_handles r.2 !! rp_hwqueue_progress_fence sample_reply
  = Some HMGRENTRY_TYPE_MONITOREDFENCE /\
  w_maps r.2 = [(0x7f0000001000, PAGE_SIZE)] /\
  existsb is_munmap (w_trace r.2) = false /\
  existsb is_fence_free (w_trace r.2) = false.
Proof. vm_compute. done. Qed.

(** * Further properties *)

(** ** Run-length encoding of system-memory pages *)

Lemma page_to_phys_aligned (pfn : Z) :
  Z.land (page_to_phys pfn) (PAGE_SIZE - 1) = 0.
Proof.
  unfold page_to_phys, u64, PAGE_SIZE, PAGE_SHIFT.
  change (2 ^ 12 - 1) with (Z.ones 12). rewrite Z.land_ones by lia.
  change (2 ^ 64) with (2 ^ 52 * 2 ^ 12).
  rewrite Z.mul_mod_distr_r by lia. apply Z.mod_mul. lia.
Qed.

Lemma rle_record_pages_lor (base c : Z) :
  Z.land base (PAGE_SIZE - 1) = 0 -> 0 <= c < PAGE_SIZE ->
  rle_record_pages (Z.lor base c) = c + 1.
Proof.
  intros Hb Hc. unfold rle_record_pages.
  rewrite Z.land_lor_distr_l, Hb, Z.lor_0_l.
  unfold PAGE_SIZE, PAGE_SHIFT in *.
  change (2 ^ 12 - 1) with (Z.ones 12). rewrite Z.land_ones by lia.
  rewrite Z.mod_small by lia. done.
Qed.

Lemma rle_total_pages_app (a b : list Z) :
  rle_total_pages (a ++ b) = rle_total_pages a + rle_total_pages b.
Proof.
  unfold rle_total_pages. induction a as [| x a IH]; cbn; [done |].
  rewrite IH. lia.
Qed.

Lemma rle_total_pages_nonneg (rs : list Z) : 0 <= rle_total_pages rs.
Proof.
  unfold rle_total_pages. induction rs as [| r rs IH]; cbn [foldr]; [done |].
  assert (0 <= rle_record_pages r).
  { unfold rle_record_pages.
    assert (0 <= Z.land r (PAGE_SIZE - 1)); [| lia].
    apply Z.land_nonneg. right. unfold PAGE_SIZE, PAGE_SHIFT. lia. }
  lia.
Qed.

Lemma rle_step_inv (limit used0 npages k : Z) (pages : list Z)
    (c : rle_cursor) :
  0 <= used0 -> limit < 2 ^ 32 -> 1 <= npages -> 0 <= k <= npages ->
  rle_inv limit used0 k c ->
  let r := rle_step limit npages pages k c in
  (r.1 = 0 /\
   (k < npages -> rle_inv limit used0 (k + 1) r.2) /\
   (k = npages ->
    rle_total_pages (rle_out r.2) = npages /\
    sysmem_pages_rle_used r.2 = used0 + Z.of_nat (length (rle_out r.2)) /\
    sysmem_pages_rle_used r.2 <= limit)) \/
  (r.1 = - EOVERFLOW /\ rle_out r.2 = rle_out c /\
   sysmem_pages_rle_used r.2 = sysmem_pages_rle_used c /\
   sysmem_pages_rle_used c = limit).
Proof.
  intros Hu0 Hlim Hnp Hk [Hal Hseen Hpos Htot Hused Hbud] r. subst r.
  unfold rle_step. cbv zeta.
  set (curr := page_to_phys _).
  set (base := if base_page c =? 0 then curr else base_page c).
  assert (Hbase : Z.land base (PAGE_SIZE - 1) = 0).
  { unfold base. destruct (base_page c =? 0); [apply page_to_phys_aligned | done]. }
  assert (HPS : PAGE_SIZE = 4096) by reflexivity.
  unfold rle_flush.
  destruct ((negb (k =? 0) && negb (curr =? u64 (base + pages_seen c * PAGE_SIZE))
             || (pages_seen c =? PAGE_SIZE) || (k =? npages))%bool) eqn:Hfl.
  - destruct (Z.leb_spec limit (sysmem_pages_rle_used c)) as [Hov | Hfit].
    + right. cbn. split_and!; try done. lia.
    + left. cbn [fst snd rle_out sysmem_pages_rle_used base_page pages_seen].
      assert (Hk1 : 1 <= k).
      { destruct (Z.eqb_spec k 0) as [-> | ?]; [| lia].
        cbn [negb andb orb] in Hfl.
        pose proof (rle_total_pages_nonneg (rle_out c)).
        apply orb_true_iff in Hfl as [Hfl | Hfl].
        - apply Z.eqb_eq in Hfl. lia.
        - apply Z.eqb_eq in Hfl. lia. }
      specialize (Hpos Hk1).
      rewrite !u32_small by lia.
      assert (Hrec : rle_total_pages [Z.lor base (pages_seen c - 1)]
                     = pages_seen c).
      { unfold rle_total_pages. cbn [foldr].
        rewrite rle_record_pages_lor by (try done; lia). lia. }
      split; [done |]. split.
      * intros Hlt.
        split; cbn [rle_out sysmem_pages_rle_used base_page pages_seen];
          rewrite ?rle_total_pages_app, ?length_app, ?Hrec;
          cbn [length]; try done; try lia.
        apply page_to_phys_aligned.
      * intros ->. rewrite rle_total_pages_app, length_app, Hrec.
        cbn [length]. lia.
  - left. cbn [fst snd rle_out sysmem_pages_rle_used base_page pages_seen].
    apply orb_false_iff in Hfl as [Hfl Hend].
    apply orb_false_iff in Hfl as [_ Hcap].
    apply Z.eqb_neq in Hend, Hcap.
    rewrite u32_small by lia.
    split; [done |]. split.
    + intros Hlt.
      split; cbn [rle_out sysmem_pages_rle_used base_page pages_seen];
        try done; lia.
    + intros ->. done.
Qed.

(** The page loop of one allocation: on success the records announce
    [npages] pages; the count of records follows the records written and
    never passes the budget; the only error is -EOVERFLOW, with the budget
    used up. *)
Lemma rle_loop_inv (limit used0 npages : Z) (pages : list Z) (n : nat)
    (k : Z) (c : rle_cursor) :
  0 <= used0 -> limit < 2 ^ 32 -> 1 <= npages -> 0 <= k ->
  k + Z.of_nat n = npages + 1 ->
  (n <> O -> rle_inv limit used0 k c) ->
  (n = O ->
   rle_total_pages (rle_out c) = npages /\
   sysmem_pages_rle_used c = used0 + Z.of_nat (length (rle_out c)) /\
   sysmem_pages_rle_used c <= limit) ->
  let r := rle_loop limit npages pages n k c in
  sysmem_pages_rle_used r.2 = used0 + Z.of_nat (length (rle_out r.2)) /\
  sysmem_pages_rle_used r.2 <= limit /\
  (r.1 = 0 \/ r.1 = - EOVERFLOW) /\
  (r.1 = 0 -> rle_total_pages (rle_out r.2) = npages) /\
  (r.1 = - EOVERFLOW -> sysmem_pages_rle_used r.2 = limit) /\
  rle_total_pages (rle_out r.2) <= npages.
Proof.
  intros Hu0 Hlim Hnp. revert k c.
  induction n as [| n IH]; intros k c Hk Hkn Hinv Hend; cbv zeta.
  - destruct (Hend eq_refl) as (Ht & Hu & Hb). cbn.
    split_and!; try done; try (by left); try lia;
      unfold EOVERFLOW; intros [=].
  - specialize (Hinv ltac:(done)).
    cbn [rle_loop].
    pose proof (rle_step_inv limit used0 npages k pages c Hu0 Hlim Hnp
                  ltac:(lia) Hinv) as Hstep.
    cbv zeta in Hstep.
    destruct (rle_step limit npages pages k c) as [ret c'].
    cbn [fst snd] in Hstep.
    destruct Hstep as [(-> & Hnext & Hlast) | (-> & Hout & Hused & Hfull)].
    + cbn [Z.eqb].
      apply IH; [lia | lia | |].
      * intros Hn. apply Hnext. lia.
      * intros ->. apply Hlast. lia.
    + change (- EOVERFLOW =? 0) with false. cbn [fst snd].
      destruct Hinv as [_ Hseen _ Htot Hu Hb].
      rewrite Hout, Hused.
      split_and!; [done | done | by right | intros [=] | done | lia].
Qed.

(** *** Reading the records back *)

Lemma rle_record_base_lor (base c : Z) :
  Z.land base (PAGE_SIZE - 1) = 0 -> 0 <= c < PAGE_SIZE ->
  rle_record_base (Z.lor base c) = base.
Proof.
  intros Hb Hc. unfold rle_record_base.
  unfold PAGE_SIZE, PAGE_SHIFT in *.
  change (2 ^ 12 - 1) with (Z.ones 12) in *.
  apply Z.bits_inj'. intros n Hn.
  rewrite Z.ldiff_spec, Z.lor_spec.
  destruct (Z.lt_ge_cases n 12) as [Hlt | Hge].
  - rewrite Z.ones_spec_low by lia. cbn [negb]. rewrite andb_false_r.
    apply (f_equal (fun x => Z.testbit x n)) in Hb.
    rewrite Z.land_spec, Z.ones_spec_low, andb_true_r, Z.bits_0 in Hb by lia.
    done.
  - rewrite Z.ones_spec_high by lia. cbn [negb]. rewrite andb_true_r.
    assert (Z.testbit c n = false) as ->; [| by rewrite orb_false_r].
    destruct (Z.eq_dec c 0) as [-> | Hc0]; [apply Z.bits_0 |].
    apply Z.bits_above_log2; [lia |].
    assert (Z.log2 c < 12); [| lia].
    apply Z.log2_lt_pow2; lia.
Qed.

Lemma rle_run_S (base n : Z) :
  0 <= n ->
  rle_run base (n + 1) = rle_run base n ++ [u64 (base + n * PAGE_SIZE)].
Proof.
  intros Hn. unfold rle_run.
  replace (Z.to_nat (n + 1)) with (S (Z.to_nat n)) by lia.
  rewrite seq_S, map_app. cbn [map Nat.add].
  by rewrite Z2Nat.id.
Qed.

Lemma rle_run_one (base : Z) : 0 <= base < 2 ^ 64 -> rle_run base 1 = [base].
Proof.
  intros Hb. unfold rle_run. change (Z.to_nat 1) with 1%nat.
  cbn [seq map]. change (Z.of_nat 0 * PAGE_SIZE) with 0.
  rewrite Z.add_0_r. unfold u64. by rewrite Z.mod_small.
Qed.

Lemma rle_decode_app (a b : list Z) :
  rle_decode (a ++ b) = rle_decode a ++ rle_decode b.
Proof. unfold rle_decode. apply flat_map_app. Qed.

Lemma page_to_phys_range (pfn : Z) : 0 <= page_to_phys pfn < 2 ^ 64.
Proof. unfold page_to_phys, u64. apply Z.mod_pos_bound. lia. Qed.

Lemma rle_step_first (limit npages : Z) (pages : list Z) (used : Z) (p : Z)
    (c0 := {| rle_out := []; sysmem_pages_rle_used := used;
              base_page := 0; pages_seen := 0; page_in := O |}) :
  1 <= npages < 2 ^ 32 -> pages !! O = Some p -> page_to_phys p <> 0 ->
  (rle_step limit npages pages 0 c0).1 = 0 /\
  rle_rt npages 1 pages (rle_step limit npages pages 0 c0).2.
Proof.
  intros Hnp Hp Hnz. subst c0. unfold rle_step, rle_flush.
  cbn [page_in base_page pages_seen rle_out sysmem_pages_rle_used].
  rewrite Hp. cbn [default from_option id].
  change (0 =? 0) with true. change (0 =? PAGE_SIZE) with false.
  cbn [negb andb orb].
  rewrite (proj2 (Z.eqb_neq 0 npages)) by lia.
  split; [done |]. cbn [snd].
  rewrite !u32_small by lia.
  pose proof (page_to_phys_range p).
  assert (HPS : PAGE_SIZE = 4096) by reflexivity.
  split; cbn [page_in base_page pages_seen rle_out].
  - done.
  - done.
  - apply page_to_phys_aligned.
  - lia.
  - destruct (Z.ltb_spec 0 (npages - 1)); lia.
  - cbn [rle_decode flat_map app]. change (0 + 1) with 1.
    rewrite rle_run_one by done.
    change (Z.to_nat 1) with 1%nat.
    destruct pages as [| p' pages']; [done |].
    cbn in Hp. injection Hp as ->. cbn [take map]. by rewrite take_0.
Qed.

Lemma rle_step_rt (limit npages k : Z) (pages : list Z) (c c' : rle_cursor) :
  1 <= npages < 2 ^ 32 -> 1 <= k <= npages ->
  Z.of_nat (length pages) = npages ->
  Forall (fun p => page_to_phys p <> 0) pages ->
  rle_rt npages k pages c ->
  rle_step limit npages pages k c = (0, c') ->
  (k < npages -> rle_rt npages (k + 1) pages c') /\
  (k = npages -> rle_decode (rle_out c') = map page_to_phys pages).
Proof.
  intros Hnp Hk Hlen Hnz [Hb0 Hbr Hal Hseen Hin Hdec]. unfold rle_step.
  rewrite (proj2 (Z.eqb_neq (base_page c) 0)) by done.
  rewrite (u32_small (npages - 1)) by lia.
  assert (HPS : PAGE_SIZE = 4096) by reflexivity.
  assert (Hrec : rle_decode [Z.lor (base_page c) (pages_seen c - 1)]
                 = rle_run (base_page c) (pages_seen c)).
  { unfold rle_decode. cbn [flat_map]. rewrite app_nil_r.
    rewrite rle_record_base_lor, rle_record_pages_lor by (try done; lia).
    by replace (pages_seen c - 1 + 1) with (pages_seen c) by lia. }
  destruct (Z.lt_ge_cases k npages) as [Hlt | Hge].
  - assert (Hpin : page_in c = Z.to_nat k) by lia.
    destruct (lookup_lt_is_Some_2 pages (Z.to_nat k) ltac:(lia)) as [p Hp].
    rewrite Hpin, Hp. cbn [default from_option id].
    assert (Hpnz : page_to_phys p <> 0).
    { eapply (proj1 (Forall_lookup _ _) Hnz); done. }
    pose proof (page_to_phys_range p) as Hpr.
    assert (Htake : take (Z.to_nat (k + 1)) pages
                    = take (Z.to_nat k) pages ++ [p]).
    { replace (Z.to_nat (k + 1)) with (S (Z.to_nat k)) by lia.
      by apply take_S_r. }
    assert (Hnext : Z.of_nat (if k <? npages - 1 then S (Z.to_nat k)
                              else Z.to_nat k) = Z.min (k + 1) (npages - 1)).
    { destruct (Z.ltb_spec k (npages - 1)); lia. }
    unfold rle_flush.
    rewrite (proj2 (Z.eqb_neq k 0)), (proj2 (Z.eqb_neq k npages)) by lia.
    cbn [negb andb]. rewrite orb_false_r.
    destruct (negb (page_to_phys p =? u64 (base_page c + pages_seen c * PAGE_SIZE))
              || (pages_seen c =? PAGE_SIZE))%bool eqn:Hfl.
    + destruct (limit <=? sysmem_pages_rle_used c); [intros [=] |].
      intros [= <-]. split; [| lia]. intros _.
      split; cbn [page_in base_page pages_seen rle_out].
      * done.
      * done.
      * apply page_to_phys_aligned.
      * lia.
      * done.
      * rewrite u32_small by lia.
        rewrite rle_decode_app, Hrec, Hdec, rle_run_one, Htake by done.
        by rewrite map_app.
    + intros [= <-]. split; [| lia]. intros _.
      apply orb_false_iff in Hfl as [Hcur Hcap].
      apply negb_false_iff, Z.eqb_eq in Hcur. apply Z.eqb_neq in Hcap.
      rewrite u32_small by lia.
      split; cbn [page_in base_page pages_seen rle_out].
      * done.
      * done.
      * done.
      * lia.
      * done.
      * rewrite rle_run_S by lia. rewrite app_assoc, Hdec, Htake.
        rewrite map_app. cbn [map]. by rewrite Hcur.
  - assert (k = npages) as -> by lia.
    unfold rle_flush. rewrite Z.eqb_refl, orb_true_r.
    destruct (limit <=? sysmem_pages_rle_used c); [intros [=] |].
    intros [= <-]. split; [lia |]. intros _.
    cbn [rle_out]. rewrite u32_small by lia.
    rewrite rle_decode_app, Hrec, Hdec.
    by rewrite take_ge by lia.
Qed.

Lemma rle_loop_rt (limit npages : Z) (pages : list Z) (n : nat) (k : Z)
    (c c' : rle_cursor) :
  1 <= npages < 2 ^ 32 -> 1 <= k ->
  k + Z.of_nat n = npages + 1 ->
  Z.of_nat (length pages) = npages ->
  Forall (fun p => page_to_phys p <> 0) pages ->
  (n <> O -> rle_rt npages k pages c) ->
  (n = O -> rle_decode (rle_out c) = map page_to_phys pages) ->
  rle_loop limit npages pages n k c = (0, c') ->
  rle_decode (rle_out c') = map page_to_phys pages.
Proof.
  intros Hnp Hk Hkn Hlen Hnz. revert k c Hk Hkn.
  induction n as [| n IH]; intros k c Hk Hkn Hinv Hend.
  - cbn. intros [= <-]. by apply Hend.
  - cbn [rle_loop].
    destruct (rle_step limit npages pages k c) as [ret c1] eqn:Hstep.
    destruct (Z.eqb_spec ret 0) as [-> | Hne]; [| intros [=]; done].
    destruct (rle_step_rt limit npages k pages c c1 Hnp ltac:(lia) Hlen Hnz
                (Hinv ltac:(done)) Hstep) as [Hnext Hlast].
    apply IH; [lia | lia | |].
    + intros Hn. apply Hnext. lia.
    + intros ->. apply Hlast. lia.
Qed.

Section AllocationRuns.
Variable E : env.

(** One allocation of [copy_sysmem_pages_rle_data]: the call returns, the
    running count of records grows by the records stored and stays within
    the budget, and a zero return means that the records announce the page
    count of the allocation. *)
Lemma rle_alloc_run (i : nat) (limit used : Z) (a : d3dddi_allocationinfo)
    (size : Z) (w : world) :
  0 <= used <= limit -> limit < 2 ^ 32 ->
  exists ret recs t,
    rle_alloc E i limit a size used w
    = (Some (ret, recs, used + Z.of_nat (length recs)), w_emit w t) /\
    used + Z.of_nat (length recs) <= limit /\
    (ret = 0 \/ ret = - ENOMEM \/ ret = - EOVERFLOW) /\
    (ret = 0 -> rle_total_pages recs = alloc_npages (a, size)) /\
    (ret = - EOVERFLOW -> used + Z.of_nat (length recs) = limit) /\
    rle_total_pages recs <= alloc_npages (a, size).
Proof.
  intros Hused Hlim. unfold rle_alloc, alloc_npages. cbn [fst snd].
  destruct (negb (priv_drv_data_size a =? 0) && (0 <? size))%bool.
  2: { exists 0, [], []. rewrite w_emit_nil. cbn.
       rewrite Z.add_0_r. split_and!; try done; try lia. }
  set (npages := u32 (size ≫ PAGE_SHIFT)).
  assert (Hnp0 : 0 <= npages < 2 ^ 32).
  { unfold npages, u32. apply Z.mod_pos_bound. lia. }
  unfold vzalloc, mbind, mret, emit. cbn [fst snd].
  destruct (Z.ltb_spec 0 (npages * 8)) as [Hpos | Hzero]; cbn [andb negb].
  2: { eexists (- ENOMEM), [], _. unfold w_emit. cbn.
       rewrite Z.add_0_r. split_and!; first [done | lia | by right; left]. }
  destruct (vzalloc_ok E (npages * 8)); cbn [negb].
  2: { eexists (- ENOMEM), [], _. unfold w_emit. cbn.
       rewrite Z.add_0_r. split_and!; first [done | lia | by right; left]. }
  match goal with
  | |- context [if negb (?b) then _ else _] => destruct b
  end; cbn [negb].
  2: { eexists (- ENOMEM), [], _. unfold w_emit. cbn.
       rewrite <- !app_assoc. rewrite Z.add_0_r.
       split_and!; first [done | lia | by right; left]. }
  set (c0 := {| rle_out := []; sysmem_pages_rle_used := used;
                base_page := 0; pages_seen := 0; page_in := O |}).
  assert (Hinv : Z.to_nat (npages + 1) <> O -> rle_inv limit used 0 c0).
  { intros _. split; cbn; try done; lia. }
  assert (Hend : Z.to_nat (npages + 1) = O ->
                 rle_total_pages (rle_out c0) = npages /\
                 sysmem_pages_rle_used c0 = used + Z.of_nat (length (rle_out c0)) /\
                 sysmem_pages_rle_used c0 <= limit) by lia.
  pose proof (rle_loop_inv limit used npages
                (default [] (get_user_pages_fast_ret E i npages))
                (Z.to_nat (npages + 1)) 0 c0
                ltac:(lia) Hlim ltac:(lia) ltac:(lia) ltac:(lia)
                Hinv Hend) as Hloop.
  cbv zeta in Hloop.
  destruct (rle_loop _ _ _ _ _ _) as [ret c].
  cbn [fst snd] in Hloop.
  destruct Hloop as (Hu & Hb & Hret & Hok & Hov & Hle).
  eexists ret, (rle_out c), _. unfold w_emit. cbn.
  rewrite <- !app_assoc. rewrite Hu.
  split_and!; try done; lia.
Qed.

(** The allocation loop of [copy_sysmem_pages_rle_data]. *)
Lemma rle_allocs_run (limit : Z) (l : list (d3dddi_allocationinfo * Z)) :
  limit < 2 ^ 32 ->
  forall (i : nat) (used : Z) (w : world),
  0 <= used <= limit ->
  exists ret out t,
    rle_allocs E i limit l used w = (Some (ret, out), w_emit w t) /\
    used + Z.of_nat (length (concat out)) <= limit /\
    (ret = 0 \/ ret = - ENOMEM \/ ret = - EOVERFLOW) /\
    (ret = 0 -> map rle_total_pages out = map alloc_npages l) /\
    (ret = - EOVERFLOW -> used + Z.of_nat (length (concat out)) = limit) /\
    rle_total_pages (concat out) <= foldr Z.add 0 (map alloc_npages l).
Proof.
  intros Hlim. induction l as [| [a size] l IH]; intros i used w Hused.
  - exists 0, [], []. rewrite w_emit_nil. cbn.
    split_and!; try done; try lia.
  - cbn [rle_allocs]. unfold mbind at 1.
    destruct (rle_alloc_run i limit used a size w Hused Hlim)
      as (ret & recs & t & -> & Hb & Hret & Hok & Hov & Hle).
    destruct (Z.eqb_spec ret 0) as [-> | Hne].
    + destruct (IH (S i) (used + Z.of_nat (length recs)) (w_emit w t)
                  ltac:(lia))
        as (ret' & out & t' & Hrun & Hb' & Hret' & Hok' & Hov' & Hle').
      unfold mbind, mret. rewrite Hrun. rewrite w_emit_app.
      exists ret', (recs :: out), (t ++ t').
      cbn [concat map foldr]. rewrite length_app, rle_total_pages_app.
      split_and!; try done; try lia.
      intros ->. by rewrite Hok, Hok'.
    + exists ret, [recs], t. unfold mret. cbn [concat map foldr].
      rewrite app_nil_r.
      assert (0 <= foldr Z.add 0 (map alloc_npages l)).
      { clear. induction l as [| [a s] l IH]; cbn [map foldr]; [done |].
        assert (0 <= alloc_npages (a, s)); [| lia].
        unfold alloc_npages, u32. case_match; [| done].
        apply Z.mod_pos_bound. lia. }
      split_and!; try done; lia.
Qed.

(** Reading back the records of one allocation: with every page at a
    non-zero physical address, they stand for the pinned pages, in order. *)
Lemma rle_alloc_round_trip (i : nat) (limit used : Z)
    (a : d3dddi_allocationinfo) (size : Z) (w w' : world) (recs : list Z)
    (used' : Z) (pages : list Z) :
  rle_alloc E i limit a size used w = (Some (0, recs, used'), w') ->
  priv_drv_data_size a <> 0 -> 0 < size ->
  get_user_pages_fast_ret E i (u32 (Z.shiftr size PAGE_SHIFT)) = Some pages ->
  blen pages <= INT_MAX ->
  Forall (fun p => page_to_phys p <> 0) pages ->
  rle_decode recs = map page_to_phys pages.
Proof.
  intros Hrun Ha Hsize Hgot Hint Hnz. unfold rle_alloc in Hrun.
  rewrite (proj2 (Z.eqb_neq _ _) Ha), (proj2 (Z.ltb_lt _ _) Hsize) in Hrun.
  cbn [negb andb] in Hrun.
  set (npages := u32 (size ≫ PAGE_SHIFT)) in *.
  assert (Hnp0 : 0 <= npages < 2 ^ 32).
  { unfold npages, u32. apply Z.mod_pos_bound. lia. }
  unfold vzalloc, mbind, mret, emit in Hrun. cbn [fst snd] in Hrun.
  destruct (Z.ltb_spec 0 (npages * 8)) as [Hpos | Hzero];
    cbn [andb negb] in Hrun; [| by injection Hrun].
  destruct (vzalloc_ok E (npages * 8)); cbn [negb] in Hrun;
    [| by injection Hrun].
  rewrite Hgot in Hrun. cbn [default from_option id] in Hrun.
  rewrite (proj2 (Z.leb_le _ _) Hint) in Hrun.
  assert (Hbl : 0 <= blen pages) by (unfold blen; lia).
  unfold INT_MAX in Hint.
  rewrite (u32_small (blen pages)) in Hrun by lia.
  destruct (Z.eqb_spec (blen pages) npages) as [Hlen | Hne];
    cbn [negb] in Hrun; [| by injection Hrun].
  replace (Z.to_nat (npages + 1)) with (S (Z.to_nat npages)) in Hrun by lia.
  cbn [rle_loop] in Hrun.
  destruct pages as [| p pages']; [unfold blen in Hlen; cbn in Hlen; lia |].
  pose proof (rle_step_first limit npages (p :: pages') used p
                ltac:(lia) eq_refl
                ltac:(by apply Forall_cons_1 in Hnz as [? _])) as Hfirst.
  cbv zeta in Hfirst.
  destruct (rle_step limit npages (p :: pages') 0 _) as [ret1 c1].
  cbn [fst snd] in Hfirst. destruct Hfirst as [-> Hrt].
  change (0 =? 0) with true in Hrun. cbv iota in Hrun.
  change (0 + 1) with 1 in Hrun.
  destruct (rle_loop limit npages (p :: pages') (Z.to_nat npages) 1 c1)
    as [ret c] eqn:Hloop.
  injection Hrun as -> <- _ _.
  apply (rle_loop_rt limit npages (p :: pages') (Z.to_nat npages) 1 c1 c);
    try done; try lia.
Qed.

Lemma rle_allocs_round_trip (limit : Z)
    (l : list (d3dddi_allocationinfo * Z)) :
  forall (i : nat) (used : Z) (w w' : world) (out : list (list Z)),
  rle_allocs E i limit l used w = (Some (0, out), w') ->
  forall (j : nat) (a : d3dddi_allocationinfo) (size : Z) (recs pages : list Z),
  l !! j = Some (a, size) -> out !! j = Some recs ->
  priv_drv_data_size a <> 0 -> 0 < size ->
  get_user_pages_fast_ret E (i + j) (u32 (Z.shiftr size PAGE_SHIFT))
  = Some pages ->
  blen pages <= INT_MAX ->
  Forall (fun p => page_to_phys p <> 0) pages ->
  rle_decode recs = map page_to_phys pages.
Proof.
  induction l as [| [a0 size0] l IH]; intros i used w w' out Hrun j a size
    recs pages Hl Ho Ha Hsize Hgot Hint Hnz; [done |].
  cbn [rle_allocs] in Hrun. unfold mbind at 1 in Hrun.
  destruct (rle_alloc E i limit a0 size0 used w) as [[[[ret recs0] used0] |] w1]
    eqn:Halloc; [| done].
  destruct (Z.eqb_spec ret 0) as [-> | Hne];
    [| unfold mret in Hrun; by injection Hrun].
  unfold mbind, mret in Hrun.
  destruct (rle_allocs E (S i) limit l used0 w1) as [[[ret' out'] |] w2]
    eqn:Hrest; [| done].
  injection Hrun as -> <- _.
  destruct j as [| j].
  - cbn in Hl, Ho. injection Hl as -> ->. injection Ho as ->.
    rewrite Nat.add_0_r in Hgot.
    by eapply rle_alloc_round_trip.
  - cbn in Hl, Ho.
    eapply (IH (S i) used0 w1 w2 out' Hrest j a size recs pages); try done.
    by replace (S i + j)%nat with (i + S j)%nat by lia.
Qed.

End AllocationRuns.

(** X1: a zero return of [copy_sysmem_pages_rle_data] means that, for every
    allocation, the records stored for it announce exactly its page count:
    the sum of (count field + 1) over its records is the number of pages of
    the allocation, and zero for an allocation that is skipped. *)
Theorem copy_sysmem_pages_rle_data_covers_pages (E : env)
    (args : d3dkmt_createallocation)
    (input_alloc_info : list d3dddi_allocationinfo)
    (allocation_sizes : list Z) (limit : Z) (w : world)
    (out : list (list Z)) :
  0 <= limit < 2 ^ 32 ->
  (copy_sysmem_pages_rle_data E args input_alloc_info allocation_sizes limit
     w).1 = Some (0, out) ->
  map rle_total_pages out
  = map alloc_npages
      (take (Z.to_nat (alloc_count args))
         (zip input_alloc_info allocation_sizes)).
Proof.
  intros Hlim Hrun. unfold copy_sysmem_pages_rle_data in Hrun.
  destruct (rle_allocs_run E limit
              (take (Z.to_nat (alloc_count args))
                 (zip input_alloc_info allocation_sizes))
              ltac:(lia) O 0 w ltac:(lia))
    as (ret & out' & t & Heq & _ & _ & Hok & _ & _).
  rewrite Heq in Hrun. cbn in Hrun. injection Hrun as -> ->.
  by apply Hok.
Qed.

(** X2: [copy_sysmem_pages_rle_data] always returns; it returns 0, -ENOMEM
    or -EOVERFLOW; the records it stores never outnumber the budget, and
    at -EOVERFLOW the budget is used up exactly. *)
Theorem copy_sysmem_pages_rle_data_within_budget (E : env)
    (args : d3dkmt_createallocation)
    (input_alloc_info : list d3dddi_allocationinfo)
    (allocation_sizes : list Z) (limit : Z) (w : world) :
  0 <= limit < 2 ^ 32 ->
  exists ret out,
    (copy_sysmem_pages_rle_data E args input_alloc_info allocation_sizes
       limit w).1 = Some (ret, out) /\
    (ret = 0 \/ ret = - ENOMEM \/ ret = - EOVERFLOW) /\
    Z.of_nat (length (concat out)) <= limit /\
    (ret = - EOVERFLOW -> Z.of_nat (length (concat out)) = limit).
Proof.
  intros Hlim. unfold copy_sysmem_pages_rle_data.
  destruct (rle_allocs_run E limit
              (take (Z.to_nat (alloc_count args))
                 (zip input_alloc_info allocation_sizes))
              ltac:(lia) O 0 w ltac:(lia))
    as (ret & out & t & Heq & Hb & Hret & _ & Hov & _).
  exists ret, out. rewrite Heq. cbn [fst].
  split_and!; try done; lia.
Qed.

(** X3: the records of [copy_sysmem_pages_rle_data] read back to the pages
    that were pinned: after a zero return, for every allocation that was
    encoded and whose pages all have a non-zero physical address, expanding
    each record into [count + 1] consecutive page addresses from its base
    gives the physical addresses of the allocation's pages, in order. *)
Theorem copy_sysmem_pages_rle_data_round_trip (E : env)
    (args : d3dkmt_createallocation)
    (input_alloc_info : list d3dddi_allocationinfo)
    (allocation_sizes : list Z) (limit : Z) (w : world)
    (out : list (list Z)) (j : nat) (a : d3dddi_allocationinfo) (size : Z)
    (recs pages : list Z) :
  (copy_sysmem_pages_rle_data E args input_alloc_info allocation_sizes limit
     w).1 = Some (0, out) ->
  take (Z.to_nat (alloc_count args)) (zip input_alloc_info allocation_sizes)
    !! j = Some (a, size) ->
  out !! j = Some recs ->
  priv_drv_data_size a <> 0 -> 0 < size ->
  get_user_pages_fast_ret E j (u32 (Z.shiftr size PAGE_SHIFT)) = Some pages ->
  blen pages <= INT_MAX ->
  Forall (fun p => page_to_phys p <> 0) pages ->
  rle_decode recs = map page_to_phys pages.
Proof.
  intros Hrun Hl Ho Ha Hsize Hgot Hint Hnz.
  unfold copy_sysmem_pages_rle_data in Hrun.
  destruct (rle_allocs E 0 limit _ 0 w) as [o w'] eqn:Hallocs.
  cbn [fst] in Hrun. subst o.
  by eapply (rle_allocs_round_trip E limit _ O 0 w w' out Hallocs j a size
               recs pages).
Qed.

(** *** The records of an allocation, the flush rule and the budget *)



(** *** Physically contiguous pages *)

Lemma contiguous_pages_lookup (p0 n : Z) (j : nat) :
  Z.of_nat j < n -> contiguous_pages p0 n !! j = Some (p0 + Z.of_nat j).
Proof.
  intros Hj. unfold contiguous_pages.
  rewrite list_lookup_fmap, lookup_seq_lt by lia. done.
Qed.

Lemma page_to_phys_small (pfn : Z) :
  0 <= pfn < 2 ^ 52 -> page_to_phys pfn = pfn * PAGE_SIZE.
Proof.
  intros Hp. unfold page_to_phys, u64, PAGE_SIZE, PAGE_SHIFT.
  apply Z.mod_small. lia.
Qed.

Lemma rle_loop_contiguous (limit used0 npages p0 : Z) :
  1 <= npages <= PAGE_SIZE -> 1 <= p0 -> p0 + npages <= 2 ^ 52 ->
  0 <= used0 < limit -> limit < 2 ^ 32 ->
  forall (n : nat) (k : Z),
  1 <= k <= npages -> k + Z.of_nat n = npages + 1 ->
  let r := rle_loop limit npages (contiguous_pages p0 npages) n k
             {| rle_out := []; sysmem_pages_rle_used := used0;
                base_page := page_to_phys p0; pages_seen := k;
                page_in := Z.to_nat (Z.min k (npages - 1)) |} in
  r.1 = 0 /\
  rle_out r.2 = [Z.lor (page_to_phys p0) (npages - 1)] /\
  sysmem_pages_rle_used r.2 = used0 + 1.
Proof.
  intros Hnp Hp0 Hp52 Hused Hlim.
  assert (HPS : PAGE_SIZE = 4096) by reflexivity.
  assert (Hbase : page_to_phys p0 = p0 * PAGE_SIZE)
    by (apply page_to_phys_small; lia).
  induction n as [| n IH]; intros k Hk Hkn r; subst r; [lia |].
  cbn [rle_loop]. unfold rle_step.
  cbn [page_in base_page pages_seen rle_out sysmem_pages_rle_used].
  rewrite contiguous_pages_lookup by lia. cbn [default from_option id].
  rewrite Z2Nat.id by lia.
  rewrite (proj2 (Z.eqb_neq (page_to_phys p0) 0)) by lia.
  rewrite (u32_small (npages - 1)) by lia.
  unfold rle_flush.
  rewrite (proj2 (Z.eqb_neq k 0)) by lia. cbn [negb andb].
  destruct (Z.eq_dec k npages) as [-> | Hne].
  - rewrite Z.eqb_refl, orb_true_r.
    rewrite (proj2 (Z.leb_gt _ _)) by lia.
    assert (n = O) as -> by lia.
    rewrite !u32_small by lia.
    cbn. split_and!; done.
  - rewrite (proj2 (Z.eqb_neq k npages)) by done. rewrite orb_false_r.
    rewrite (proj2 (Z.eqb_neq k PAGE_SIZE)) by lia. rewrite orb_false_r.
    rewrite Z.min_l by lia.
    rewrite (page_to_phys_small (p0 + k)) by lia.
    rewrite Hbase.
    assert (Hcur : u64 (p0 * PAGE_SIZE + k * PAGE_SIZE)
                   = (p0 + k) * PAGE_SIZE).
    { unfold u64. rewrite Z.mod_small by lia. lia. }
    rewrite Hcur, Z.eqb_refl. cbn [negb].
    rewrite (u32_small (k + 1)) by lia.
    change (0 =? 0) with true. cbv iota.
    specialize (IH (k + 1) ltac:(lia) ltac:(lia)). cbv zeta in IH.
    rewrite Hbase in IH.
    assert (Hin : (if k <? npages - 1 then S (Z.to_nat k) else Z.to_nat k)
                  = Z.to_nat (Z.min (k + 1) (npages - 1))).
    { destruct (Z.ltb_spec k (npages - 1)); lia. }
    rewrite Hin. exact IH.
Qed.

(** X4: physically contiguous pages are merged: an allocation of at most
    [PAGE_SIZE] pages that follow each other in physical memory is encoded
    by [copy_sysmem_pages_rle_data] as a single record, the address of the
    first page with the page count minus one in its low bits. *)
Theorem copy_sysmem_pages_rle_data_merges_contiguous (E : env)
    (args : d3dkmt_createallocation) (a : d3dddi_allocationinfo)
    (limit p0 n : Z) (w : world) :
  alloc_count args = 1 -> priv_drv_data_size a <> 0 ->
  1 <= n <= PAGE_SIZE -> 1 <= p0 -> p0 + n <= 2 ^ 52 ->
  1 <= limit < 2 ^ 32 ->
  vzalloc_ok E (n * 8) = true ->
  get_user_pages_fast_ret E O n = Some (contiguous_pages p0 n) ->
  (copy_sysmem_pages_rle_data E args [a] [n * PAGE_SIZE] limit w).1
  = Some (0, [[Z.lor (page_to_phys p0) (n - 1)]]).
Proof.
  intros Hcount Ha Hn Hp0 Hp52 Hlim Hvz Hgot.
  assert (HPS : PAGE_SIZE = 4096) by reflexivity.
  unfold copy_sysmem_pages_rle_data. rewrite Hcount.
  change (Z.to_nat 1) with 1%nat. cbn [zip zip_with take rle_allocs].
  unfold mbind at 1. unfold rle_alloc.
  rewrite (proj2 (Z.eqb_neq _ _) Ha).
  rewrite (proj2 (Z.ltb_lt 0 (n * PAGE_SIZE))) by lia. cbn [negb andb].
  assert (Hnp : u32 (Z.shiftr (n * PAGE_SIZE) PAGE_SHIFT) = n).
  { rewrite Z.shiftr_div_pow2 by (unfold PAGE_SHIFT; lia).
    change (2 ^ PAGE_SHIFT) with PAGE_SIZE.
    rewrite Z.div_mul by lia. apply u32_small. lia. }
  rewrite Hnp.
  unfold vzalloc, mbind, mret, emit. cbn [fst snd].
  rewrite (proj2 (Z.ltb_lt 0 (n * 8))) by lia. rewrite Hvz. cbn [andb negb].
  rewrite Hgot. cbn [default from_option id].
  assert (Hlen : blen (contiguous_pages p0 n) = n).
  { unfold blen, contiguous_pages. rewrite length_map, length_seq. lia. }
  rewrite Hlen. unfold INT_MAX.
  rewrite (proj2 (Z.leb_le n (2 ^ 31 - 1))) by lia.
  rewrite (u32_small n) by lia. rewrite Z.eqb_refl. cbn [negb].
  replace (Z.to_nat (n + 1)) with (S (Z.to_nat n)) by lia.
  cbn [rle_loop]. unfold rle_step at 1.
  cbn [page_in base_page pages_seen rle_out sysmem_pages_rle_used].
  rewrite (contiguous_pages_lookup p0 n O) by lia.
  cbn [default from_option id]. change (Z.of_nat 0) with 0.
  rewrite Z.add_0_r. change (0 =? 0) with true. cbv iota.
  unfold rle_flush. change (0 =? 0) with true.
  change (0 =? PAGE_SIZE) with false.
  rewrite (proj2 (Z.eqb_neq 0 n)) by lia. cbn [negb andb orb].
  change (u32 (0 + 1)) with 1. change (0 + 1) with 1.
  rewrite (u32_small (n - 1)) by lia.
  pose proof (rle_loop_contiguous limit 0 n p0 ltac:(lia) Hp0 Hp52
                ltac:(lia) ltac:(lia) (Z.to_nat n) 1 ltac:(lia) ltac:(lia))
    as Hloop.
  cbv zeta in Hloop.
  assert (Hin : (if 0 <? n - 1 then 1%nat else 0%nat)
                = Z.to_nat (Z.min 1 (n - 1))).
  { destruct (Z.ltb_spec 0 (n - 1)); lia. }
  rewrite Hin.
  destruct (rle_loop limit n (contiguous_pages p0 n) (Z.to_nat n) 1 _)
    as [ret c].
  cbn [fst snd] in Hloop. destruct Hloop as (-> & Hout & _).
  cbn. by rewrite Hout.
Qed.

Lemma copy_sysmem_pages_rle_data_merges_contiguous_witness :
  (copy_sysmem_pages_rle_data (sample_env (fun _ => true) [5; 6; 7])
     (sample_create_args 1) [sample_sysmem_alloc] [3 * PAGE_SIZE] 16
     world0).1
  = Some (0, [[Z.lor (page_to_phys 5) (3 - 1)]]).
Proof.
  apply (copy_sysmem_pages_rle_data_merges_contiguous
           (sample_env (fun _ => true) [5; 6; 7]) (sample_create_args 1)
           sample_sysmem_alloc 16 5 3 world0).
  - reflexivity.
  - discriminate.
  - by vm_compute.
  - lia.
  - by vm_compute.
  - lia.
  - reflexivity.
  - reflexivity.
Defined.

(** *** The region reserved for the records *)

Lemma length_le_rle_total_pages (rs : list Z) :
  Z.of_nat (length rs) <= rle_total_pages rs.
Proof.
  unfold rle_total_pages. induction rs as [| r rs IH]; cbn [foldr length]; [done |].
  assert (1 <= rle_record_pages r); [| lia].
  unfold rle_record_pages.
  assert (0 <= Z.land r (PAGE_SIZE - 1)); [| lia].
  apply Z.land_nonneg. right. unfold PAGE_SIZE, PAGE_SHIFT. lia.
Qed.

Lemma alloc_npages_le_pages (a : d3dddi_allocationinfo) (sz : Z) :
  0 <= sz -> alloc_npages (a, sz) <= (sz + PAGE_SIZE - 1) / PAGE_SIZE.
Proof.
  intros Hsz. unfold alloc_npages, u32, PAGE_SIZE, PAGE_SHIFT. cbn [fst snd].
  assert (0 <= (sz + 2 ^ 12 - 1) / 2 ^ 12) by (apply Z.div_pos; lia).
  case_match; [| done].
  rewrite Z.shiftr_div_pow2 by lia.
  assert (0 <= sz / 2 ^ 12) by (apply Z.div_pos; lia).
  pose proof (Z.mod_le (sz / 2 ^ 12) (2 ^ 32) ltac:(lia) ltac:(lia)).
  pose proof (Z.div_le_mono sz (sz + 2 ^ 12 - 1) (2 ^ 12) ltac:(lia) ltac:(lia)).
  lia.
Qed.

Lemma alloc_npages_sum_le (sizes : list Z) :
  Forall (fun sz => 0 <= sz) sizes ->
  forall (n : nat) (infos : list d3dddi_allocationinfo),
  foldr Z.add 0 (map alloc_npages (take n (zip infos sizes)))
  <= foldr Z.add 0
       (map (fun sz => (sz + PAGE_SIZE - 1) / PAGE_SIZE) (take n sizes)).
Proof.
  induction 1 as [| sz sizes Hsz Hall IH]; intros n infos.
  - destruct infos; cbn; by rewrite ?take_nil.
  - assert (0 <= foldr Z.add 0
                   (map (fun sz => (sz + PAGE_SIZE - 1) / PAGE_SIZE)
                      (take n (sz :: sizes)))) as Hnn.
    { clear IH infos. revert n.
      assert (Hall' : Forall (fun sz => 0 <= sz) (sz :: sizes))
        by by constructor.
      revert Hall'. generalize (sz :: sizes). clear.
      intros l Hl n. revert n.
      induction Hl as [| x l Hx Hl IH]; intros [| n]; cbn; try done.
      specialize (IH n).
      assert (0 <= (x + PAGE_SIZE - 1) / PAGE_SIZE); [| lia].
      apply Z.div_pos; unfold PAGE_SIZE, PAGE_SHIFT; lia. }
    destruct infos as [| a infos]; [by destruct n |].
    destruct n as [| n]; [done |].
    cbn [zip zip_with take map foldr].
    specialize (IH n infos).
    pose proof (alloc_npages_le_pages a sz Hsz). cbv beta. lia.
Qed.

Lemma calculate_max_rle_data_size_exact (count : Z) (sizes : list Z) :
  Forall (fun sz => 0 <= sz < 2 ^ 40) sizes ->
  Z.of_nat (length sizes) <= 2 ^ 16 ->
  calculate_max_rle_data_size count sizes
  = sizeof_u64
    * foldr Z.add 0
        (map (fun sz => (sz + PAGE_SIZE - 1) / PAGE_SIZE)
           (take (Z.to_nat count) sizes)).
Proof.
  intros Hall Hlen. unfold calculate_max_rle_data_size.
  set (l := take (Z.to_nat count) sizes).
  assert (Hl : Forall (fun sz => 0 <= sz < 2 ^ 40) l)
    by (by apply Forall_take).
  assert (Hll : Z.of_nat (length l) <= 2 ^ 16).
  { unfold l. rewrite length_take. lia. }
  clearbody l. clear Hall Hlen.
  assert (Hgen : forall acc, 0 <= acc ->
            acc + Z.of_nat (length l) * 2 ^ 28 < 2 ^ 64 ->
            foldl (fun acc sz => u64 (acc + u64 (sz + PAGE_SIZE - 1) / PAGE_SIZE))
              acc l
            = acc + foldr Z.add 0
                      (map (fun sz => (sz + PAGE_SIZE - 1) / PAGE_SIZE) l)
            /\ 0 <= foldr Z.add 0
                      (map (fun sz => (sz + PAGE_SIZE - 1) / PAGE_SIZE) l)
               <= Z.of_nat (length l) * 2 ^ 28).
  { clear Hll. induction Hl as [| sz l Hsz Hl IH]; intros acc Hacc Hb.
    - cbn. lia.
    - cbn [foldl map foldr length] in *.
      assert (Hc : 0 <= (sz + PAGE_SIZE - 1) / PAGE_SIZE <= 2 ^ 28).
      { unfold PAGE_SIZE, PAGE_SHIFT. split; [apply Z.div_pos; lia |].
        apply Z.lt_succ_r. apply Z.div_lt_upper_bound; lia. }
      assert (Hu : u64 (sz + PAGE_SIZE - 1) = sz + PAGE_SIZE - 1).
      { unfold u64, PAGE_SIZE, PAGE_SHIFT. apply Z.mod_small. lia. }
      rewrite Hu.
      assert (Hu' : u64 (acc + (sz + PAGE_SIZE - 1) / PAGE_SIZE)
                    = acc + (sz + PAGE_SIZE - 1) / PAGE_SIZE).
      { unfold u64. apply Z.mod_small. lia. }
      rewrite Hu'.
      destruct (IH (acc + (sz + PAGE_SIZE - 1) / PAGE_SIZE) ltac:(lia)
                  ltac:(lia)) as [-> Hs].
      lia. }
  destruct (Hgen 0 ltac:(lia) ltac:(lia)) as [-> Hs].
  unfold u64, sizeof_u64. rewrite Z.mod_small by lia. lia.
Qed.

(** X5: the records that [copy_sysmem_pages_rle_data] stores fit the region
    that [dxgvmb_send_create_allocation] reserves for them with
    [calculate_max_rle_data_size], whenever that byte count is passed on
    without truncation (it is stored in a [u32]): 8 bytes per record never
    add up to more than the bytes reserved, whatever the pages are. *)
Theorem copy_sysmem_pages_rle_data_fits_reserved_region (E : env)
    (args : d3dkmt_createallocation)
    (input_alloc_info : list d3dddi_allocationinfo)
    (allocation_sizes : list Z) (w : world) :
  Forall (fun sz => 0 <= sz < 2 ^ 40) allocation_sizes ->
  Z.of_nat (length allocation_sizes) <= 2 ^ 16 ->
  let reserved :=
    calculate_max_rle_data_size (alloc_count args) allocation_sizes in
  reserved < 2 ^ 32 ->
  exists ret out,
    (copy_sysmem_pages_rle_data E args input_alloc_info allocation_sizes
       (u32 reserved) w).1 = Some (ret, out) /\
    sizeof_u64 * Z.of_nat (length (concat out)) <= u32 reserved.
Proof.
  intros Hall Hlen reserved Hres. subst reserved.
  rewrite calculate_max_rle_data_size_exact in * by done.
  set (pages := foldr Z.add 0 _) in *.
  unfold copy_sysmem_pages_rle_data.
  assert (Hp : 0 <= u32 (sizeof_u64 * pages) < 2 ^ 32).
  { unfold u32. apply Z.mod_pos_bound. lia. }
  assert (Hpos : 0 <= pages).
  { subst pages. clear -Hall. generalize (Z.to_nat (alloc_count args)). intros n.
    revert n. induction Hall as [| x l Hx Hl IH]; intros [| n]; cbn; try done.
    specialize (IH n).
    assert (0 <= (x + PAGE_SIZE - 1) / PAGE_SIZE); [| lia].
    apply Z.div_pos; unfold PAGE_SIZE, PAGE_SHIFT; lia. }
  assert (Hexact : u32 (sizeof_u64 * pages) = sizeof_u64 * pages).
  { apply u32_small. unfold sizeof_u64 in *. lia. }
  destruct (rle_allocs_run E (u32 (sizeof_u64 * pages))
              (take (Z.to_nat (alloc_count args))
                 (zip input_alloc_info allocation_sizes))
              ltac:(lia) O 0 w ltac:(lia))
    as (ret & out & t & Heq & _ & _ & _ & _ & Hle).
  exists ret, out. rewrite Heq. cbn [fst]. split; [done |].
  pose proof (length_le_rle_total_pages (concat out)).
  pose proof (alloc_npages_sum_le allocation_sizes
                ltac:(eapply Forall_impl; [exact Hall | cbv beta; lia])
                (Z.to_nat (alloc_count args)) input_alloc_info).
  rewrite Hexact. unfold sizeof_u64 in *. subst pages. lia.
Qed.

Lemma copy_sysmem_pages_rle_data_covers_pages_witness :
  map rle_total_pages [[Z.lor (page_to_phys 5) 1; page_to_phys 9]]
  = map alloc_npages
      (take (Z.to_nat (alloc_count (sample_create_args 1)))
         (zip [sample_sysmem_alloc] [3 * PAGE_SIZE])).
Proof.
  apply (copy_sysmem_pages_rle_data_covers_pages
           (sample_env (fun _ => true) [5; 6; 9]) (sample_create_args 1)
           [sample_sysmem_alloc] [3 * PAGE_SIZE] 16 world0).
  - lia.
  - vm_compute. reflexivity.
Defined.

Lemma copy_sysmem_pages_rle_data_within_budget_witness :
  exists ret out,
    (copy_sysmem_pages_rle_data (sample_env (fun _ => true) [5; 6; 9])
       (sample_create_args 1) [sample_sysmem_alloc] [3 * PAGE_SIZE] 1
       world0).1 = Some (ret, out) /\
    (ret = 0 \/ ret = - ENOMEM \/ ret = - EOVERFLOW) /\
    Z.of_nat (length (concat out)) <= 1 /\
    (ret = - EOVERFLOW -> Z.of_nat (length (concat out)) = 1).
Proof.
  apply (copy_sysmem_pages_rle_data_within_budget
           (sample_env (fun _ => true) [5; 6; 9]) (sample_create_args 1)
           [sample_sysmem_alloc] [3 * PAGE_SIZE] 1 world0).
  lia.
Defined.

Lemma copy_sysmem_pages_rle_data_round_trip_witness :
  rle_decode [Z.lor (page_to_phys 5) 1; page_to_phys 9]
  = map page_to_phys [5; 6; 9].
Proof.
  apply (copy_sysmem_pages_rle_data_round_trip
           (sample_env (fun _ => true) [5; 6; 9]) (sample_create_args 1)
           [sample_sysmem_alloc] [3 * PAGE_SIZE] 16 world0
           [[Z.lor (page_to_phys 5) 1; page_to_phys 9]] O
           sample_sysmem_alloc (3 * PAGE_SIZE)).
  - vm_compute. reflexivity.
  - reflexivity.
  - reflexivity.
  - vm_compute. discriminate.
  - vm_compute. reflexivity.
  - reflexivity.
  - vm_compute. discriminate.
  - repeat constructor; vm_compute; discriminate.
Defined.

Lemma copy_sysmem_pages_rle_data_fits_reserved_region_witness :
  exists ret out,
    (copy_sysmem_pages_rle_data (sample_env (fun _ => true) [5; 6; 9])
       (sample_create_args 1) [sample_sysmem_alloc] [3 * PAGE_SIZE]
       (u32 (calculate_max_rle_data_size
               (alloc_count (sample_create_args 1)) [3 * PAGE_SIZE]))
       world0).1 = Some (ret, out) /\
    sizeof_u64 * Z.of_nat (length (concat out))
    <= u32 (calculate_max_rle_data_size
              (alloc_count (sample_create_args 1)) [3 * PAGE_SIZE]).
Proof.
  apply (copy_sysmem_pages_rle_data_fits_reserved_region
           (sample_env (fun _ => true) [5; 6; 9]) (sample_create_args 1)
           [sample_sysmem_alloc] [3 * PAGE_SIZE] world0).
  - repeat constructor; vm_compute; done.
  - vm_compute. discriminate.
  - vm_compute. reflexivity.
Defined.

(** ** Private data sizes *)

Lemma total_priv_drv_data_size_sum (max : Z)
    (l : list d3dddi_allocationinfo) :
  max <= 2 ^ 31 ->
  Forall (fun a => 0 <= priv_drv_data_size a) l ->
  forall acc s,
  0 <= acc < 2 ^ 31 ->
  total_priv_drv_data_size max l acc = inr s ->
  s = acc + foldr Z.add 0 (map priv_drv_data_size l) /\
  Forall (fun a => priv_drv_data_size a < max) l /\
  (l <> [] -> s < max).
Proof.
  intros Hmax Hall. induction Hall as [| a l Ha Hall IH]; intros acc s Hacc.
  - cbn. intros [= <-]. split_and!; [lia | done | done].
  - cbn [total_priv_drv_data_size map foldr].
    destruct (Z.leb_spec max (priv_drv_data_size a)) as [| Hlt]; [done |].
    rewrite u32_small by lia.
    destruct (Z.leb_spec max (acc + priv_drv_data_size a)) as [| Hlt'];
      [done |].
    intros Hrun.
    destruct (IH (acc + priv_drv_data_size a) s ltac:(lia) Hrun)
      as (-> & Hf & Hs).
    split_and!; [lia | by constructor |].
    intros _. destruct l as [| b l]; [cbn; lia |].
    apply Hs. done.
Qed.

(** X6: when the loop that adds up the per-allocation private data sizes
    accepts, its total is their exact sum: with a packet limit of at most
    2^31 the 32-bit running sum cannot wrap around, every size is below the
    limit and so is the total. *)
Theorem total_priv_drv_data_size_exact (max : Z)
    (l : list d3dddi_allocationinfo) (s : Z) :
  max <= 2 ^ 31 ->
  Forall (fun a => 0 <= priv_drv_data_size a) l ->
  total_priv_drv_data_size max l 0 = inr s ->
  s = foldr Z.add 0 (map priv_drv_data_size l) /\
  Forall (fun a => priv_drv_data_size a < max) l /\
  (l <> [] -> s < max).
Proof.
  intros Hmax Hall Hrun.
  destruct (total_priv_drv_data_size_sum max l Hmax Hall 0 s ltac:(lia) Hrun)
    as (-> & Hf & Hs).
  split_and!; [lia | done | done].
Qed.

Lemma total_priv_drv_data_size_exact_witness :
  16 = foldr Z.add 0 (map priv_drv_data_size
                        [sample_sysmem_alloc; sample_sysmem_alloc]) /\
  Forall (fun a => priv_drv_data_size a
                   < DXG_MAX_VM_BUS_PACKET_SIZE sample_header)
    [sample_sysmem_alloc; sample_sysmem_alloc] /\
  ([sample_sysmem_alloc; sample_sysmem_alloc] <> [] ->
   16 < DXG_MAX_VM_BUS_PACKET_SIZE sample_header).
Proof.
  apply (total_priv_drv_data_size_exact
           (DXG_MAX_VM_BUS_PACKET_SIZE sample_header)
           [sample_sysmem_alloc; sample_sysmem_alloc] 16).
  - vm_compute. discriminate.
  - repeat constructor; vm_compute; discriminate.
  - vm_compute. reflexivity.
Defined.

(** ** Status translation: failures stay failures *)

(** X7: a status that [NT_SUCCESS] rejects is never turned into a success:
    [ntstatus2int] maps it to a negative error number, whatever the values
    of the status constants are. *)
Theorem ntstatus2int_failure_negative (K : header) (status : Z) :
  NT_SUCCESS K status = false -> ntstatus2int K status < 0.
Proof.
  intros Hf. unfold ntstatus2int. rewrite Hf.
  repeat case_match;
    unfold EEXIST, ENOMEM, EINVAL, ENOENT, EAGAIN, EOVERFLOW, ENODEV, EACCES,
      EPERM, EOPNOTSUPP, EBADF, EINPROGRESS, EPROTOTYPE; lia.
Qed.

Lemma ntstatus2int_failure_negative_witness :
  ntstatus2int sample_header (-100) < 0.
Proof.
  apply (ntstatus2int_failure_negative sample_header (-100)).
  reflexivity.
Defined.

(** ** Messages: allocation and release *)

(** X8: [init_message] followed by [free_message] leaves no heap buffer
    behind and never frees the on-stack buffer: the pair either touches
    the heap not at all, or allocates once and frees once, or fails to
    allocate, frees nothing and reports -ENOMEM. *)
Theorem init_message_free_message_balanced (K : header) (E : env)
    (g : dxgglobal_t) (adapter : option dxgadapter) (size : Z) (w : world) :
  let r := (rm <- init_message K E g adapter size ;;
            free_message rm.2 ;;; mret rm.1) w in
  exists t,
    r.2 = w_emit w t /\
    ((r.1 = Some 0 /\ (t = [] \/ exists sz, t = [EvKzalloc sz; EvKfree])) \/
     (r.1 = Some (- ENOMEM) /\
      exists sz, t = [EvKzalloc sz] /\ kzalloc_ok E sz = false)).
Proof.
  cbv zeta. unfold init_message, free_message, kzalloc, mbind, mret, emit.
  destruct (_ <=? VMBUSMESSAGEONSTACK K).
  - exists []. rewrite w_emit_nil. cbn. split; [done |]. left. by split; [| left].
  - cbn. destruct (kzalloc_ok E _) eqn:Hok; cbn.
    + eexists. unfold w_emit. cbn. rewrite <- app_assoc. cbn.
      split; [reflexivity |]. left. split; [done |]. right. by eexists.
    + eexists. unfold w_emit. cbn.
      split; [reflexivity |]. right. split; [done |]. by eexists.
Qed.

(** Clearing the low [n] bits with a [w]-bit mask. *)
Lemma land_mask_low (wd n x : Z) :
  0 <= n <= wd -> 0 <= x < 2 ^ wd ->
  Z.land x ((- 2 ^ n) mod 2 ^ wd) = x - x mod 2 ^ n.
Proof.
  intros Hn Hx.
  rewrite <- (Z.land_ones (- 2 ^ n)) by lia.
  replace (- 2 ^ n) with (Z.lnot (Z.ones n))
    by (rewrite Z.ones_equiv; unfold Z.lnot; lia).
  rewrite (Z.land_comm (Z.lnot _)), Z.land_assoc.
  rewrite (Z.land_ones x) by lia. rewrite (Z.mod_small x) by lia.
  rewrite <- Z.ldiff_land, Z.ldiff_ones_r by lia.
  rewrite Z.shiftl_mul_pow2, Z.shiftr_div_pow2 by lia.
  pose proof (Z.div_mod x (2 ^ n) ltac:(lia)). lia.
Qed.

(** X9: [init_message_res] reserves the result area rounded up to a
    multiple of eight bytes, and asks the heap once for the command and the
    result area together. *)
Theorem init_message_res_result_size (K : header) (E : env)
    (g : dxgglobal_t) (adapter : option dxgadapter) (size result_size : Z)
    (w : world) (ret : Z) (msg : dxgvmbusmsg) :
  0 <= result_size <= 2 ^ 32 - 8 ->
  (init_message_res K E g 0 adapter size result_size w).1 = Some (ret, msg) ->
  msg_res_size msg mod 8 = 0 /\
  result_size <= msg_res_size msg < result_size + 8 /\
  w_trace (init_message_res K E g 0 adapter size result_size w).2
  = w_trace w ++ [EvKzalloc (u32 (msg_size msg + msg_res_size msg))].
Proof.
  intros Hrs. unfold init_message_res.
  assert (Hres : u32 (0 + Z.land (u32 (result_size + 7)) (u32 (Z.lnot 7)))
                 = result_size + 7 - (result_size + 7) mod 8).
  { rewrite u32_small with (x := result_size + 7) by lia.
    change (u32 (Z.lnot 7)) with ((- 2 ^ 3) mod 2 ^ 32).
    rewrite (land_mask_low 32 3) by lia.
    change (2 ^ 3) with 8. rewrite Z.add_0_l.
    pose proof (Z.mod_pos_bound (result_size + 7) 8 ltac:(lia)).
    apply u32_small. lia. }
  rewrite Hres.
  pose proof (Z.mod_pos_bound (result_size + 7) 8 ltac:(lia)) as Hm.
  pose proof (Z.div_mod (result_size + 7) 8 ltac:(lia)) as Hdm.
  assert (Hmul : (result_size + 7 - (result_size + 7) mod 8) mod 8 = 0).
  { replace (result_size + 7 - (result_size + 7) mod 8)
      with ((result_size + 7) / 8 * 8) by lia.
    apply Z.mod_mul. lia. }
  unfold kzalloc, mbind, mret, emit, fault. cbn [fst snd].
  repeat case_match; simplify_eq; cbn [fst snd w_trace];
    intros [= <- <-]; cbn [msg_res_size msg_size];
    (split_and!; [done | lia | lia | done]).
Qed.

Lemma init_message_res_result_size_witness :
  16 mod 8 = 0 /\
  10 <= 16 < 10 + 8 /\
  w_trace (init_message_res sample_header (sample_env (fun _ => true) [])
             (sample_global false) 0 (Some sample_adapter) 40 10 world0).2
  = w_trace world0 ++ [EvKzalloc (u32 (72 + 16))].
Proof.
  apply (init_message_res_result_size sample_header
           (sample_env (fun _ => true) []) (sample_global false)
           (Some sample_adapter) 40 10 world0 0
           {| msg_hdr := hdr_heap;
              msg_ext := Some {| command_offset := 32; vgpu_luid := 0x1234 |};
              msg_size := 72; msg_res_size := 16;
              msg_channel := Some (adapter_channel sample_adapter) |}).
  - lia.
  - vm_compute. reflexivity.
Defined.

(** ** IO-space mappings *)

Lemma filter_fst_ne_fresh (va : Z) (maps : list (Z * Z)) :
  va ∉ maps.*1 -> filter (fun m : Z * Z => m.1 ≠ va) maps = maps.
Proof.
  induction maps as [| [a len] maps IH]; [done |].
  cbn [fmap list_fmap fst]. rewrite not_elem_of_cons. intros [Hne Hnot].
  rewrite filter_cons_True by (cbn; congruence).
  by rewrite IH.
Qed.

Lemma page_mask_clears_offset (x : Z) :
  0 <= x < 2 ^ 64 -> Z.land x PAGE_MASK = x - x mod PAGE_SIZE.
Proof.
  intros Hx. unfold PAGE_MASK, PAGE_SIZE, PAGE_SHIFT, u64.
  apply (land_mask_low 64 12); lia.
Qed.

(** X10: when [dxg_map_iospace] fails after [vm_mmap] succeeded (no VMA is
    found or the remapping is refused), it unmaps what it mapped and
    returns NULL: no mapping is left behind. *)
Theorem dxg_map_iospace_failure_unmaps (E : env) (g : dxgglobal_t)
    (addr size : Z) (cached : bool) (w : world) :
  let va := vm_mmap_ret E size in
  check_iospace_address g addr size = 0 ->
  0 < va < 2 ^ 64 -> va mod PAGE_SIZE = 0 ->
  (find_vma_ok E va = false \/
   io_remap_pfn_range_ret E va (Z.shiftr addr PAGE_SHIFT) <> 0) ->
  current_mm E = true -> vm_munmap_ret E va size = 0 ->
  va ∉ (w_maps w).*1 ->
  dxg_map_iospace E g addr size cached w
  = (Some 0, w_emit w [EvMmap size va; EvMunmap va size]).
Proof.
  intros va Hchk Hva Hal Hfail Hmm Hun Hfresh. subst va.
  unfold dxg_map_iospace. rewrite Hchk. change (0 <? 0) with false. cbv iota.
  unfold mbind, mret, emit, add_map. cbn [fst snd].
  rewrite (proj2 (Z.leb_gt _ _)) by lia.
  assert (Hret : negb ((if find_vma_ok E (vm_mmap_ret E size)
                        then io_remap_pfn_range_ret E (vm_mmap_ret E size)
                               (Z.shiftr addr PAGE_SHIFT)
                        else - ENOMEM) =? 0) = true).
  { destruct Hfail as [-> | Hne]; [done |].
    destruct (find_vma_ok E _); [| done].
    by rewrite (proj2 (Z.eqb_neq _ _) Hne). }
  rewrite Hret.
  unfold dxg_unmap_iospace, mbind, mret, emit, del_map. rewrite Hmm.
  rewrite page_mask_clears_offset, Hal, Z.sub_0_r by lia.
  rewrite Hun. cbn [Z.eqb negb fst snd w_trace w_maps w_handles].
  unfold w_emit. rewrite <- app_assoc. cbn [app].
  rewrite filter_cons_False by (cbn; intros H; by apply H).
  by rewrite filter_fst_ne_fresh.
Qed.

Lemma dxg_map_iospace_failure_unmaps_witness :
  dxg_map_iospace sample_env_no_vma (sample_global false) 0x10002000
    PAGE_SIZE true world0
  = (Some 0,
     w_emit world0
       [EvMmap PAGE_SIZE 0x7f0000001000; EvMunmap 0x7f0000001000 PAGE_SIZE]).
Proof.
  apply (dxg_map_iospace_failure_unmaps sample_env_no_vma
           (sample_global false) 0x10002000 PAGE_SIZE true world0).
  - reflexivity.
  - cbn. lia.
  - reflexivity.
  - by left.
  - reflexivity.
  - reflexivity.
  - cbn. apply not_elem_of_nil.
Defined.

(** Unmapping what [dxg_map_iospace] returned. *)
Lemma dxg_unmap_after_map (E : env) (g : dxgglobal_t)
    (addr size : Z) (cached : bool) (w w1 : world) (p : Z) :
  let va := vm_mmap_ret E size in
  dxg_map_iospace E g addr size cached w = (Some p, w1) -> p <> 0 ->
  va < 2 ^ 64 - PAGE_SIZE -> va mod PAGE_SIZE = 0 ->
  current_mm E = true -> vm_munmap_ret E va size = 0 ->
  va ∉ (w_maps w).*1 ->
  dxg_unmap_iospace E p size w1
  = (Some 0, w_emit w [EvMmap size va; EvMunmap va size]).
Proof.
  intros va Hmap Hp Hva Hal Hmm Hun Hfresh. subst va.
  unfold dxg_map_iospace in Hmap.
  destruct (check_iospace_address g addr size <? 0);
    [by injection Hmap as <- _ |].
  unfold mbind, mret, emit, add_map in Hmap. cbn [fst snd] in Hmap.
  destruct (Z.leb_spec (vm_mmap_ret E size) 0) as [| Hpos];
    [by injection Hmap as <- _ |].
  destruct (negb _) eqn:Hret in Hmap.
  { unfold dxg_unmap_iospace, mbind, mret, emit, del_map in Hmap.
    repeat case_match; by simplify_eq. }
  injection Hmap as <- <-.
  pose proof (Z.mod_pos_bound addr PAGE_SIZE ltac:(done)) as Ho.
  assert (HPS : PAGE_SIZE = 4096) by reflexivity.
  assert (Hpv : u64 (vm_mmap_ret E size + addr mod PAGE_SIZE)
                = vm_mmap_ret E size + addr mod PAGE_SIZE).
  { unfold u64. apply Z.mod_small. lia. }
  rewrite Hpv in *.
  unfold dxg_unmap_iospace, mbind, mret, emit, del_map. rewrite Hmm.
  rewrite page_mask_clears_offset by lia.
  assert (Hoff : (vm_mmap_ret E size + addr mod PAGE_SIZE) mod PAGE_SIZE
                 = addr mod PAGE_SIZE).
  { rewrite Z.add_mod, Hal, Z.add_0_l, Z.mod_mod by lia.
    apply Z.mod_small. lia. }
  rewrite Hoff.
  replace (vm_mmap_ret E size + addr mod PAGE_SIZE - addr mod PAGE_SIZE)
    with (vm_mmap_ret E size) by lia.
  rewrite Hun. cbn [Z.eqb negb fst snd w_trace w_maps w_handles].
  unfold w_emit. rewrite <- app_assoc. cbn [app].
  rewrite filter_cons_False by (cbn; intros H; by apply H).
  by rewrite filter_fst_ne_fresh.
Qed.

(** X11: unmapping the pointer that [dxg_map_iospace] returned undoes the
    mapping: [dxg_unmap_iospace] strips the offset within the page that
    [dxg_map_iospace] added, unmaps the very address that [vm_mmap] gave,
    and the mappings are as before the two calls. *)
Theorem dxg_map_unmap_iospace_round_trip (E : env) (g : dxgglobal_t)
    (addr size : Z) (cached : bool) (w w1 : world) (p : Z) :
  let va := vm_mmap_ret E size in
  dxg_map_iospace E g addr size cached w = (Some p, w1) -> p <> 0 ->
  va < 2 ^ 64 - PAGE_SIZE -> va mod PAGE_SIZE = 0 ->
  current_mm E = true -> vm_munmap_ret E va size = 0 ->
  va ∉ (w_maps w).*1 ->
  dxg_unmap_iospace E p size w1
  = (Some 0, w_emit w [EvMmap size va; EvMunmap va size]).
Proof.
  intros va. by apply dxg_unmap_after_map.
Qed.

Lemma dxg_map_unmap_iospace_round_trip_witness :
  dxg_unmap_iospace (sample_env (fun _ => true) []) 0x7f0000001040 PAGE_SIZE
    {| w_trace := [EvMmap PAGE_SIZE 0x7f0000001000];
       w_handles := ∅;
       w_maps := [(0x7f0000001000, PAGE_SIZE)] |}
  = (Some 0,
     w_emit world0
       [EvMmap PAGE_SIZE 0x7f0000001000; EvMunmap 0x7f0000001000 PAGE_SIZE]).
Proof.
  apply (dxg_map_unmap_iospace_round_trip (sample_env (fun _ => true) [])
           (sample_global false) 0x10002040 PAGE_SIZE true world0).
  - reflexivity.
  - discriminate.
  - reflexivity.
  - reflexivity.
  - reflexivity.
  - reflexivity.
  - cbn. apply not_elem_of_nil.
Defined.

(** X12: a pointer that [dxg_map_iospace] returns stands for a range inside
    the IO-space window: the range starts at or after the window base and
    ends before the window end. *)
Theorem dxg_map_iospace_inside_window (E : env) (g : dxgglobal_t)
    (addr size : Z) (cached : bool) (w : world) (p : Z) :
  0 <= mmiospace_base g -> 0 <= size ->
  mmiospace_base g + mmiospace_size g < 2 ^ 64 ->
  (dxg_map_iospace E g addr size cached w).1 = Some p -> p <> 0 ->
  mmiospace_base g <= addr /\
  addr + size < mmiospace_base g + mmiospace_size g.
Proof.
  intros Hb Hs Hw Hmap Hp.
  assert (Hchk : check_iospace_address g addr size = 0).
  { unfold dxg_map_iospace in Hmap.
    unfold check_iospace_address in *.
    destruct (_ || _)%bool; [| done].
    cbn in Hmap. by injection Hmap as <-. }
  apply (check_iospace_address_accepts g addr size Hb Hs Hw) in Hchk.
  lia.
Qed.

Lemma dxg_map_iospace_inside_window_witness :
  mmiospace_base (sample_global false) <= 0x10002040 /\
  0x10002040 + PAGE_SIZE
  < mmiospace_base (sample_global false) + mmiospace_size (sample_global false).
Proof.
  apply (dxg_map_iospace_inside_window (sample_env (fun _ => true) [])
           (sample_global false) 0x10002040 PAGE_SIZE true world0
           0x7f0000001040).
  - by vm_compute.
  - by vm_compute.
  - by vm_compute.
  - reflexivity.
  - discriminate.
Defined.

(** ** Signalling: a user array that cannot be read *)

(** X13: when the object handles of [dxgvmb_send_signal_sync_object] come
    from user memory and the user array is shorter than [object_count]
    handles, the encoder sends nothing: it returns -EINVAL, or -ENOMEM when
    the message could not be allocated in the first place. *)
Theorem signal_sync_object_user_copy_failure (K : header) (E : env)
    (g : dxgglobal_t) (h : Z) (adapter : option dxgadapter) (ece : bool)
    (lfv ctx oc : Z) (objs : list Z) (cc : Z) (ctxs : list Z) (fc : Z)
    (fences : option (list Z)) (ceh dev : Z) (w : world) :
  header_sane K ->
  0 <= oc < 2 ^ 20 -> 0 <= cc < 2 ^ 20 -> 0 <= fc < 2 ^ 20 ->
  blen (handles_image objs) < oc * sizeof_d3dkmthandle ->
  let run := dxgvmb_send_signal_sync_object K E g h adapter ece lfv ctx
               oc objs cc ctxs fc fences ceh dev true w in
  exists t,
    w_trace run.2 = w_trace w ++ t /\
    sends t = [] /\
    (run.1 = Some (- EINVAL) \/ run.1 = Some (- ENOMEM)).
Proof.
  intros [Hext Hstack Hsig _ _ _ _] Hoc Hcc Hfc Hshort run. subst run.
  unfold small, sizeof_d3dkmthandle, sizeof_u64 in *.
  unfold dxgvmb_send_signal_sync_object.
  unfold sizeof_d3dkmthandle, sizeof_u64.
  rewrite (u32_small (oc * 4)), (u32_small (cc * 4)) by lia.
  set (fence_size := match fences with
                     | Some _ => u32 (fc * 8)
                     | None => 0
                     end).
  assert (Hfs : 0 <= fence_size <= fc * 8).
  { unfold fence_size. destruct fences; [| lia].
    rewrite u32_small by lia. lia. }
  rewrite (u32_small (sizeof_command_signalsyncobject K + oc * 4 + cc * 4
                      + fence_size)) by lia.
  set (cmd_size := if negb (ctx =? 0) then _ else _).
  assert (Hcs : sizeof_command_signalsyncobject K + oc * 4 <= cmd_size
                < 2 ^ 30).
  { unfold cmd_size. destruct (negb (ctx =? 0)).
    - rewrite u32_small by lia. lia.
    - lia. }
  unfold init_message.
  set (size := if use_ext_header K g then _ else cmd_size).
  assert (Hsize : size - (if use_ext_header K g
                          then sizeof_dxgvmb_ext_header K else 0)
                  = cmd_size).
  { unfold size. destruct (use_ext_header K g); [| lia].
    rewrite u32_small by lia. lia. }
  assert (Hcopy : copy_from_user (handles_image objs) (oc * 4) = None).
  { unfold copy_from_user. by rewrite (proj2 (Z.leb_gt _ _)) by lia. }
  assert (Harea : forall st ch w0,
            area_after
              {| msg_hdr := st;
                 msg_ext := if use_ext_header K g
                            then Some {| command_offset := sizeof_dxgvmb_ext_header K;
                                         vgpu_luid := match adapter with
                                                      | Some a => host_vgpu_luid a
                                                      | None => 0
                                                      end |}
                            else None;
                 msg_size := size; msg_res_size := 0; msg_channel := ch |}
              (sizeof_command_signalsyncobject K) w0
            = (Some (replicate
                       (Z.to_nat (cmd_size - sizeof_command_signalsyncobject K))
                       0), w0)).
  { intros st ch w0. unfold area_after. cbn [msg_ext msg_size].
    replace (size - _ - _)
      with (cmd_size - sizeof_command_signalsyncobject K)
      by (destruct (use_ext_header K g); cbn [command_offset]; lia).
    by rewrite (proj2 (Z.leb_le _ _)) by lia. }
  destruct (size <=? VMBUSMESSAGEONSTACK K).
  - exists []. unfold mbind, mret. cbn [negb Z.eqb].
    rewrite Harea. unfold signal_copy. rewrite Hcopy.
    unfold free_message. cbn. rewrite app_nil_r. split_and!; [done | done | by left].
  - unfold kzalloc, mbind, mret, emit. cbn [fst snd].
    destruct (kzalloc_ok E size).
    + exists [EvKzalloc size; EvKfree]. cbn [negb Z.eqb].
      rewrite Harea. unfold signal_copy. rewrite Hcopy.
      unfold free_message, emit. cbn. rewrite <- app_assoc.
      split_and!; [done | done | by left].
    + exists [EvKzalloc size]. cbn.
      split_and!; [done | done | by right].
Qed.

Lemma signal_sync_object_user_copy_failure_witness :
  exists t,
    w_trace (dxgvmb_send_signal_sync_object sample_header
               (sample_env (fun _ => true) []) (sample_global false) 1
               (Some sample_adapter) false 0 0 2 [0x40000005] 0 [] 0 None
               0 7 true world0).2 = w_trace world0 ++ t /\
    sends t = [] /\
    ((dxgvmb_send_signal_sync_object sample_header
        (sample_env (fun _ => true) []) (sample_global false) 1
        (Some sample_adapter) false 0 0 2 [0x40000005] 0 [] 0 None
        0 7 true world0).1 = Some (- EINVAL) \/
     (dxgvmb_send_signal_sync_object sample_header
        (sample_env (fun _ => true) []) (sample_global false) 1
        (Some sample_adapter) false 0 0 2 [0x40000005] 0 [] 0 None
        0 7 true world0).1 = Some (- ENOMEM)).
Proof.
  apply (signal_sync_object_user_copy_failure sample_header
           (sample_env (fun _ => true) []) (sample_global false) 1
           (Some sample_adapter) false 0 0 2 [0x40000005] 0 [] 0 None 0 7
           world0).
  - split; unfold small; cbn; lia.
  - lia.
  - lia.
  - lia.
  - by vm_compute.
Defined.

(** ** Hardware queue creation: the successful path *)

Lemma create_hwqueue_cleanup_ret (K : header) (E : env) (g : dxgglobal_t)
    (ph : Z) (adapter : option dxgadapter) (msg : dxgvmbusmsg)
    (ch : option Z) (retX : Z) (hqX : dxghwqueue) (w : world) (ret : Z)
    (hq' : dxghwqueue) :
  (create_hwqueue_cleanup K E g ph adapter msg ch retX hqX w).1
  = Some (ret, hq') ->
  ret = retX.
Proof.
  unfold create_hwqueue_cleanup. unfold mbind at 1.
  match goal with
  | |- context [let (_, _) := ?X in _] => destruct X as [[hq1 |] w1]
  end; [| done].
  unfold mbind, mret.
  destruct (free_message_run msg w1) as (t & -> & _). cbn.
  by intros [= <- <-].
Qed.

Lemma create_hwqueue_cleanup_ok (K : header) (E : env) (g : dxgglobal_t)
    (ph : Z) (adapter : option dxgadapter) (msg : dxgvmbusmsg)
    (ch : option Z) (hq : dxghwqueue) (w : world) :
  exists t,
    create_hwqueue_cleanup K E g ph adapter msg ch 0 hq w
    = (Some (0, hq), w_emit w t) /\ sends t = [].
Proof.
  unfold create_hwqueue_cleanup. change (0 <? 0) with false. cbv iota.
  unfold mbind at 1. unfold mret at 1. unfold mbind, mret.
  destruct (free_message_run msg w) as (t & -> & Hs).
  by exists t.
Qed.

(** X14: when [dxgvmb_send_create_hwqueue] succeeds after the host has
    answered, it returns exactly 0, the queue object holds the host's
    queue handle, the progress fence handle and a non-NULL mapping, both
    handles are in the handle table, the mapping is recorded, and nothing
    further is sent: no destroy message follows a success. *)
Theorem create_hwqueue_success (K : header) (E : env) (g : dxgglobal_t)
    (ph : Z) (adapter : option dxgadapter) (msg : dxgvmbusmsg)
    (priv_size : Z) (rp : reply) (hq : dxghwqueue) (w : world) (ret : Z)
    (hq' : dxghwqueue) :
  let r := create_hwqueue_result K E g ph adapter msg priv_size rp hq w in
  r.1 = Some (ret, hq') -> 0 <= ret ->
  ret = 0 /\
  hwq_handle hq' = rp_hwqueue rp /\
  progress_fence_sync_object hq' = rp_hwqueue_progress_fence rp /\
  progress_fence_mapped_address hq' <> 0 /\
  exists t,
    w_trace r.2 = w_trace w ++ t /\
    sends t = [] /\
    w_handles r.2
    = <[rp_hwqueue_progress_fence rp := HMGRENTRY_TYPE_MONITOREDFENCE]>
        (<[rp_hwqueue rp := HMGRENTRY_TYPE_DXGHWQUEUE]> (w_handles w)) /\
    w_maps r.2 = (vm_mmap_ret E PAGE_SIZE, PAGE_SIZE) :: w_maps w.
Proof.
  intros r Hr Hret. subst r.
  destruct (create_hwqueue_result K E g ph adapter msg priv_size rp hq w)
    as [o w1] eqn:Hrun.
  cbn [fst snd] in *. subst o.
  assert (Hneg : forall ch retX hqX wX,
            retX < 0 ->
            create_hwqueue_cleanup K E g ph adapter msg ch retX hqX wX
            = (Some (ret, hq'), w1) -> False).
  { intros ch retX hqX wX HX HrunX.
    pose proof (create_hwqueue_cleanup_ret K E g ph adapter msg ch retX hqX wX
                  ret hq') as Hc.
    rewrite HrunX in Hc. specialize (Hc eq_refl). lia. }
  unfold create_hwqueue_result in Hrun. cbv zeta in Hrun.
  destruct (Z.ltb_spec (rp_ret rp) 0) as [H1 | H1];
    [exfalso; by eapply Hneg |].
  destruct (Z.ltb_spec (ntstatus2int K (rp_status rp)) 0) as [H2 | H2];
    [exfalso; by eapply Hneg |].
  unfold mbind at 1 in Hrun. rewrite assign_handle_run in Hrun.
  set (r1 := hmgrtable_assign_handle_ret E HMGRENTRY_TYPE_DXGHWQUEUE
               (rp_hwqueue rp)) in *.
  destruct (Z.ltb_spec r1 0) as [H3 | H3]; [exfalso; by eapply Hneg |].
  unfold mbind at 1 in Hrun. rewrite assign_handle_run in Hrun.
  cbn [w_trace w_handles w_maps] in Hrun.
  set (r2 := hmgrtable_assign_handle_ret E HMGRENTRY_TYPE_MONITOREDFENCE
               (rp_hwqueue_progress_fence rp)) in *.
  destruct (Z.ltb_spec r2 0) as [H4 | H4]; [exfalso; by eapply Hneg |].
  rewrite (proj2 (Z.leb_le 0 r1)), (proj2 (Z.leb_le 0 r2)) in Hrun by done.
  unfold mbind at 1 in Hrun.
  match type of Hrun with
  | context [dxg_map_iospace E g ?a ?s ?c ?wA] =>
      pose proof (dxg_map_iospace_run E g a s c wA) as Hmap;
      destruct (dxg_map_iospace E g a s c wA) as [ov wM] eqn:HmapE
  end.
  cbv zeta in Hmap. cbn [fst snd w_trace w_handles w_maps] in Hmap.
  destruct Hmap as (va & tm & -> & HtM & HhM & HsM & HfM & HvaM).
  cbv beta iota in Hrun.
  destruct (Z.eqb_spec va 0) as [Hva | Hva];
    [exfalso; eapply Hneg; [| exact Hrun]; unfold ENOMEM; lia |].
  destruct (HvaM Hva) as [HmapsM _].
  assert (Hinval : - EINVAL < 0) by (unfold EINVAL; lia).
  assert (Hemit : forall t1 t2, w_emit (w_emit wM t1) t2 = w_emit wM (t1 ++ t2))
    by (intros; apply w_emit_app).
  repeat (unfold mbind at 1 in Hrun; rewrite copy_to_user_run in Hrun;
          match type of Hrun with
          | context [copy_to_user_ok E ?f] =>
              destruct (copy_to_user_ok E f); cbn [negb] in Hrun
          end;
          [| exfalso; by eapply Hneg]).
  rewrite ?Hemit in Hrun.
  assert (Hfin : forall tc,
            sends tc = [] ->
            create_hwqueue_cleanup K E g ph adapter msg
              (Some (rp_hwqueue rp)) 0
              {| hwq_handle := rp_hwqueue rp;
                 progress_fence_sync_object := rp_hwqueue_progress_fence rp;
                 progress_fence_mapped_address := va |} (w_emit wM tc)
            = (Some (ret, hq'), w1) ->
            ret = 0 /\
            hwq_handle hq' = rp_hwqueue rp /\
            progress_fence_sync_object hq' = rp_hwqueue_progress_fence rp /\
            progress_fence_mapped_address hq' <> 0 /\
            exists t,
              w_trace w1 = w_trace w ++ t /\
              sends t = [] /\
              w_handles w1
              = <[rp_hwqueue_progress_fence rp := HMGRENTRY_TYPE_MONITOREDFENCE]>
                  (<[rp_hwqueue rp := HMGRENTRY_TYPE_DXGHWQUEUE]> (w_handles w)) /\
              w_maps w1 = (vm_mmap_ret E PAGE_SIZE, PAGE_SIZE) :: w_maps w).
  { intros tc Hsc HrunX.
    destruct (create_hwqueue_cleanup_ok K E g ph adapter msg
                (Some (rp_hwqueue rp))
                {| hwq_handle := rp_hwqueue rp;
                   progress_fence_sync_object := rp_hwqueue_progress_fence rp;
                   progress_fence_mapped_address := va |} (w_emit wM tc))
      as (tf & Hok & Hsf).
    rewrite Hok in HrunX. injection HrunX as <- <- <-.
    cbn [hwq_handle progress_fence_sync_object progress_fence_mapped_address].
    split_and!; try done.
    eexists. cbn [w_emit w_trace w_handles w_maps].
    rewrite HtM, HhM, HmapsM. cbn [w_trace].
    rewrite <- !app_assoc.
    split_and!; [reflexivity | | done | done].
    cbn. by rewrite !sends_app, HsM, Hsc, Hsf. }
  destruct (priv_size =? 0); cbn [negb] in Hrun.
  - match type of Hrun with
    | context [w_emit wM ?tc] => by apply (Hfin tc eq_refl) in Hrun
    end.
  - unfold mbind at 1 in Hrun. rewrite copy_to_user_run in Hrun.
    rewrite ?Hemit in Hrun.
    destruct (copy_to_user_ok E uf_priv_drv_data);
      [| exfalso; by eapply Hneg].
    match type of Hrun with
    | context [w_emit wM ?tc] => by apply (Hfin tc eq_refl) in Hrun
    end.
Qed.

Lemma create_hwqueue_success_witness :
  0 = 0 /\
  0x40000001 = rp_hwqueue sample_reply /\
  0x40000002 = rp_hwqueue_progress_fence sample_reply /\
  0x7f0000001000 <> 0 /\
  exists t,
    w_trace (create_hwqueue_result sample_header
               (sample_env (fun _ => true) []) (sample_global false) 1
               (Some sample_adapter) msg_empty 0 sample_reply
               {| hwq_handle := 0; progress_fence_sync_object := 0;
                  progress_fence_mapped_address := 0 |} world0).2
    = w_trace world0 ++ t /\
    sends t = [] /\
    w_handles (create_hwqueue_result sample_header
                 (sample_env (fun _ => true) []) (sample_global false) 1
                 (Some sample_adapter) msg_empty 0 sample_reply
                 {| hwq_handle := 0; progress_fence_sync_object := 0;
                    progress_fence_mapped_address := 0 |} world0).2
    = <[rp_hwqueue_progress_fence sample_reply
        := HMGRENTRY_TYPE_MONITOREDFENCE]>
        (<[rp_hwqueue sample_reply := HMGRENTRY_TYPE_DXGHWQUEUE]>
           (w_handles world0)) /\
    w_maps (create_hwqueue_result sample_header
              (sample_env (fun _ => true) []) (sample_global false) 1
              (Some sample_adapter) msg_empty 0 sample_reply
              {| hwq_handle := 0; progress_fence_sync_object := 0;
                 progress_fence_mapped_address := 0 |} world0).2
    = (vm_mmap_ret (sample_env (fun _ => true) []) PAGE_SIZE, PAGE_SIZE)
      :: w_maps world0.
Proof.
  apply (create_hwqueue_success sample_header (sample_env (fun _ => true) [])
           (sample_global false) 1 (Some sample_adapter) msg_empty 0
           sample_reply
           {| hwq_handle := 0; progress_fence_sync_object := 0;
              progress_fence_mapped_address := 0 |} world0 0
           {| hwq_handle := 0x40000001;
              progress_fence_sync_object := 0x40000002;
              progress_fence_mapped_address := 0x7f0000001000 |}).
  - vm_compute. reflexivity.
  - lia.
Defined.

(** ** Allocation sizes from the host *)

Lemma get_allocation_size_private_data_copy_ret
    (l : list d3dddi_allocationinfo) :
  get_allocation_size_private_data_copy l = 0 \/
  get_allocation_size_private_data_copy l = - EINVAL.
Proof.
  induction l as [| a l IH]; cbn; [by left |].
  repeat case_match; auto.
Qed.

Lemma init_message_outcome (K : header) (E : env) (g : dxgglobal_t)
    (adapter : option dxgadapter) (size : Z) (w : world) :
  exists ret msg t,
    init_message K E g adapter size w = (Some (ret, msg), w_emit w t) /\
    sends t = [] /\
    (ret = 0 /\ is_Some (msg_channel msg) \/ ret = - ENOMEM).
Proof.
  unfold init_message, kzalloc, mbind, mret, emit.
  destruct (_ <=? VMBUSMESSAGEONSTACK K).
  - eexists _, _, []. rewrite w_emit_nil.
    split_and!; [done | done | left; split; [done | by eexists]].
  - cbn. destruct (kzalloc_ok E _).
    + eexists _, _, [_]. split_and!; [done | done |].
      left; split; [done | by eexists].
    + eexists _, _, [_]. split_and!; [done | done | by right].
Qed.

(** X15: a non-negative return of [dxgvmb_send_get_allocation_size] means
    that the host answered for exactly the allocations asked about: the
    count in the result buffer equals [args->alloc_count], one message was
    sent, and the return value is the translated host status. *)
Theorem get_allocation_size_count_checked (K : header) (E : env)
    (g : dxgglobal_t) (h : Z) (adapter : option dxgadapter)
    (args : d3dkmt_createallocation) (alloc_info : list d3dddi_allocationinfo)
    (result_size : Z) (w : world) (ret count : Z) (sizes : list Z) :
  let r := dxgvmb_send_get_allocation_size K E g h adapter args alloc_info
             result_size w in
  r.1 = Some (ret, (count, sizes)) -> 0 <= ret ->
  count = alloc_count args /\
  exists t ch p,
    w_trace r.2 = w_trace w ++ t /\
    sends t = [(ch, p)] /\
    ret = ntstatus2int K
            (rp_status (dxgvmb_send_sync_msg_reply E ch p result_size)) /\
    (count, sizes)
    = (rp_alloc_count (dxgvmb_send_sync_msg_reply E ch p result_size),
       rp_allocation_sizes (dxgvmb_send_sync_msg_reply E ch p result_size)).
Proof.
  intros r Hr Hret. subst r.
  destruct (dxgvmb_send_get_allocation_size K E g h adapter args alloc_info
              result_size w) as [o w1] eqn:Hrun.
  cbn [fst snd] in *. subst o.
  unfold dxgvmb_send_get_allocation_size in Hrun. cbv zeta in Hrun.
  assert (HEO : - EOVERFLOW < 0) by (unfold EOVERFLOW; lia).
  assert (HEI : - EINVAL < 0) by (unfold EINVAL; lia).
  assert (HEN : - ENOMEM < 0) by (unfold ENOMEM; lia).
  destruct (total_priv_drv_data_size _ _ 0) as [e | priv_size] eqn:Htot.
  { apply total_priv_drv_data_size_error in Htot. subst e.
    unfold mbind, mret, free_message in Hrun. cbn in Hrun. simplify_eq; lia. }
  destruct (_ <? u32 _).
  { unfold mbind, mret, free_message in Hrun. cbn in Hrun. simplify_eq; lia. }
  unfold mbind at 1 in Hrun.
  match type of Hrun with
  | context [init_message K E g adapter ?sz w] =>
      destruct (init_message_outcome K E g adapter sz w)
        as (ret0 & msg & ti & Hinit & Hsi & Hi)
  end.
  rewrite Hinit in Hrun. cbv beta iota in Hrun.
  set (w0 := w_emit w ti) in *.
  destruct (free_message_run msg w0) as (tf & Hfree & Hsf).
  destruct (Z.eqb_spec ret0 0) as [-> | Hne]; cbn [negb] in Hrun.
  2: { unfold mbind, mret in Hrun. rewrite Hfree in Hrun.
       simplify_eq; destruct Hi as [[? _] | ?]; [done | lia]. }
  destruct (get_allocation_size_private_data_copy_ret
              (take (Z.to_nat (alloc_count args)) alloc_info)) as [Hc | Hc];
    rewrite Hc in Hrun.
  2: { change (- EINVAL <? 0) with true in Hrun. cbv iota in Hrun.
       unfold mbind, mret in Hrun. rewrite Hfree in Hrun.
       simplify_eq; lia. }
  change (0 <? 0) with false in Hrun. cbv iota in Hrun.
  assert (Hch : exists ch, msg_channel msg = Some ch).
  { destruct Hi as [[_ [ch ?]] | ?]; [by exists ch | done]. }
  destruct Hch as [ch Hch].
  unfold mbind at 1 in Hrun. unfold msg_chan at 1 in Hrun.
  rewrite Hch in Hrun. unfold mret at 1 in Hrun.
  unfold mbind at 1 in Hrun.
  unfold dxgvmb_send_sync_msg, mbind, mret, emit in Hrun.
  cbn [fst snd] in Hrun.
  set (p := mk_packet msg _) in *.
  set (rp := dxgvmb_send_sync_msg_reply E ch p result_size) in *.
  set (w2 := {| w_trace := w_trace w0 ++ [EvSendSync ch p result_size];
                w_handles := w_handles w0; w_maps := w_maps w0 |}) in *.
  destruct (free_message_run msg w2) as (tf2 & Hfree2 & Hsf2).
  unfold free_message in Hfree2.
  assert (Hw2 : exists t0, w_trace w2 = w_trace w ++ t0
                           /\ sends t0 = [(ch, p)]).
  { unfold w2, w0. cbn [w_trace w_emit]. rewrite <- app_assoc.
    eexists. split; [reflexivity |]. by rewrite sends_app, Hsi. }
  destruct Hw2 as (t0 & Ht0 & Hs0).
  unfold free_message in Hrun.
  destruct (rp_ret rp <? 0) eqn:Hneg.
  { rewrite Hfree2 in Hrun. simplify_eq; apply Z.ltb_lt in Hneg; lia. }
  destruct (Z.eqb_spec (rp_alloc_count rp) (alloc_count args)) as [Heq | Hneq];
    cbn [negb] in Hrun.
  2: { rewrite Hfree2 in Hrun. simplify_eq; lia. }
  rewrite Hfree2 in Hrun. cbn [fst snd] in Hrun.
  injection Hrun as <- <- <- <-.
  split; [done |].
  exists (t0 ++ tf2), ch, p. cbn [w_emit w_trace].
  rewrite Ht0, <- app_assoc, sends_app, Hs0, Hsf2.
  split_and!; done.
Qed.

Lemma get_allocation_size_count_checked_witness :
  0 = alloc_count (sample_create_args 0) /\
  exists t ch p,
    w_trace (dxgvmb_send_get_allocation_size sample_header
               (sample_env (fun _ => true) []) (sample_global false) 1
               (Some sample_adapter) (sample_create_args 0) [] 8 world0).2
    = w_trace world0 ++ t /\
    sends t = [(ch, p)] /\
    0 = ntstatus2int sample_header
          (rp_status (dxgvmb_send_sync_msg_reply
                        (sample_env (fun _ => true) []) ch p 8)) /\
    (0, [])
    = (rp_alloc_count (dxgvmb_send_sync_msg_reply
                         (sample_env (fun _ => true) []) ch p 8),
       rp_allocation_sizes (dxgvmb_send_sync_msg_reply
                              (sample_env (fun _ => true) []) ch p 8)).
Proof.
  apply (get_allocation_size_count_checked sample_header
           (sample_env (fun _ => true) []) (sample_global false) 1
           (Some sample_adapter) (sample_create_args 0) [] 8 world0 0 0 []).
  - vm_compute. reflexivity.
  - lia.
Defined.

(** ** Existing system memory: chunks of page frame numbers *)

Lemma set_existing_sysmem_pages_run (max_pfns npages : Z)
    (send : set_pages_message -> Z) :
  1 <= max_pfns -> npages < 2 ^ 32 ->
  forall (fuel : nat) (page_in : list Z) (off ret0 : Z),
  0 <= off <= npages ->
  Z.of_nat (length page_in) = npages - off ->
  npages - off <= Z.of_nat fuel ->
  exists r ms,
    set_existing_sysmem_pages fuel max_pfns npages send page_in off ret0
    = Some (r, ms) /\
    Forall (fun m => 1 <= sp_num_pages m <= max_pfns /\
                     sp_num_pages m = Z.of_nat (length (sp_pfns m))) ms /\
    offsets_from off ms /\
    concat (map sp_pfns ms) `prefix_of` page_in /\
    (0 <= r -> ret0 < 0 -> ms <> []) /\
    (0 <= r -> concat (map sp_pfns ms) = page_in) /\
    (r < 0 -> ms <> [] -> exists m, last ms = Some m /\ send m = r) /\
    (ms = [] -> r = ret0).
Proof.
  intros Hmax Hnp. induction fuel as [| fuel IH];
    intros page_in off ret0 Hoff Hlen Hfuel.
  - assert (off = npages) as -> by lia.
    cbn. rewrite Z.ltb_irrefl.
    destruct page_in; [| cbn in Hlen; lia].
    exists ret0, []. cbn.
    split_and!; try done; try (intros; lia).
  - cbn [set_existing_sysmem_pages].
    destruct (Z.ltb_spec off npages) as [Hlt | Hge].
    2: { assert (off = npages) as -> by lia.
         destruct page_in; [| cbn in Hlen; lia].
         exists ret0, []. cbn. split_and!; try done; try (intros; lia). }
    rewrite (u32_small (npages - off)) by lia.
    set (n := Z.min (npages - off) max_pfns).
    assert (Hn : 1 <= n <= npages - off) by lia.
    set (m := {| sp_num_pages := n; sp_alloc_offset_in_pages := off;
                 sp_pfns := take (Z.to_nat n) page_in |}).
    assert (Hm : 1 <= sp_num_pages m <= max_pfns /\
                 sp_num_pages m = Z.of_nat (length (sp_pfns m))).
    { cbn. rewrite length_take. lia. }
    destruct (Z.ltb_spec (send m) 0) as [Hneg | Hpos].
    + exists (send m), [m]. cbn [map concat offsets_from last].
      rewrite app_nil_r.
      split; [reflexivity |].
      split; [apply Forall_cons; split; [exact Hm | apply Forall_nil_2] |].
      split; [done |]. split; [apply prefix_take |]. split; [done |].
      split; [intros; lia |]. split; [intros _ _; by exists m | done].
    + rewrite (u32_small (off + n)) by lia.
      destruct (IH (drop (Z.to_nat n) page_in) (off + n) (send m)
                  ltac:(lia) ltac:(rewrite length_drop; lia) ltac:(lia))
        as (r & ms & -> & Hall & Hoffs & Hpre & Hne & Hfull & Hlast & Hnil).
      exists r, (m :: ms). cbn [map concat offsets_from].
      split; [reflexivity |].
      split; [apply Forall_cons; split; [exact Hm | exact Hall] |].
      split; [done |]. split.
      { cbn [sp_pfns m].
        rewrite <- (take_drop (Z.to_nat n) page_in) at 2.
        by apply prefix_app. }
      split; [done |]. split.
      { intros Hr. cbn [sp_pfns m]. rewrite (Hfull Hr).
        apply take_drop. }
      split; [| done].
      intros Hr _. destruct ms as [| m' ms'].
      * specialize (Hnil eq_refl). lia.
      * destruct (Hlast Hr ltac:(done)) as (ml & Hl & Hs).
        exists ml. split; [| done]. by rewrite last_cons, Hl.
Qed.

(** X16: the loop of [create_existing_sysmem] that sends the page frame
    numbers ends after at most one message per page when a message has
    room for at least one number; every message carries between one and
    [max_pfns_in_message] numbers, the offsets continue each other from 0,
    the numbers sent are a prefix of the page list, and the whole list when
    the loop ends without an error; an error is that of the last message
    sent. *)
Theorem set_existing_sysmem_pages_chunks (max_pfns : Z)
    (send : set_pages_message -> Z) (pages : list Z) :
  1 <= max_pfns -> Z.of_nat (length pages) < 2 ^ 32 ->
  exists r ms,
    set_existing_sysmem_pages (length pages) max_pfns
      (Z.of_nat (length pages)) send pages 0 0 = Some (r, ms) /\
    Forall (fun m => 1 <= sp_num_pages m <= max_pfns /\
                     sp_num_pages m = Z.of_nat (length (sp_pfns m))) ms /\
    offsets_from 0 ms /\
    concat (map sp_pfns ms) `prefix_of` pages /\
    (0 <= r -> concat (map sp_pfns ms) = pages) /\
    (r < 0 -> exists m, last ms = Some m /\ send m = r).
Proof.
  intros Hmax Hnp.
  destruct (set_existing_sysmem_pages_run max_pfns (Z.of_nat (length pages))
              send Hmax Hnp (length pages) pages 0 0
              ltac:(lia) ltac:(lia) ltac:(lia))
    as (r & ms & Hrun & Hall & Hoffs & Hpre & _ & Hfull & Hlast & Hnil).
  exists r, ms.
  split; [done |]. split; [done |]. split; [done |]. split; [done |].
  split; [done |].
  intros Hr. apply Hlast; [done |]. intros ->. specialize (Hnil eq_refl). lia.
Qed.

Lemma set_existing_sysmem_pages_chunks_witness :
  exists r ms,
    set_existing_sysmem_pages (length [5; 6; 9]) 2
      (Z.of_nat (length [5; 6; 9])) (fun _ => 0) [5; 6; 9] 0 0
    = Some (r, ms) /\
    Forall (fun m => 1 <= sp_num_pages m <= 2 /\
                     sp_num_pages m = Z.of_nat (length (sp_pfns m))) ms /\
    offsets_from 0 ms /\
    concat (map sp_pfns ms) `prefix_of` [5; 6; 9] /\
    (0 <= r -> concat (map sp_pfns ms) = [5; 6; 9]) /\
    (r < 0 -> exists m, last ms = Some m /\ (fun _ => 0) m = r).
Proof.
  apply (set_existing_sysmem_pages_chunks 2 (fun _ => 0) [5; 6; 9]).
  - lia.
  - by vm_compute.
Defined.

(** X17: when a message has no room for a page frame number
    ([max_pfns_in_message] is 0) and there are pages to send, the loop of
    [create_existing_sysmem] never ends as long as the host accepts the
    messages: every iteration sends an empty message and leaves the offset
    where it was. *)
Theorem set_existing_sysmem_pages_no_progress (npages : Z)
    (send : set_pages_message -> Z) (pages : list Z) (ret0 : Z)
    (fuel : nat) :
  0 < npages < 2 ^ 32 -> (forall m, 0 <= send m) ->
  set_existing_sysmem_pages fuel 0 npages send pages 0 ret0 = None.
Proof.
  intros Hnp Hsend. revert pages ret0.
  induction fuel as [| fuel IH]; intros pages ret0.
  - cbn. by rewrite (proj2 (Z.ltb_lt 0 npages)) by lia.
  - cbn [set_existing_sysmem_pages].
    rewrite (proj2 (Z.ltb_lt 0 npages)) by lia.
    rewrite Z.sub_0_r, u32_small by lia.
    rewrite Z.min_r by lia.
    rewrite (proj2 (Z.ltb_ge _ 0)) by apply Hsend.
    change (u32 (0 + 0)) with 0. change (Z.to_nat 0) with O.
    rewrite drop_0. by rewrite IH.
Qed.

Lemma set_existing_sysmem_pages_no_progress_witness :
  set_existing_sysmem_pages 1000 0 3 (fun _ => 0) [5; 6; 9] 0 0 = None.
Proof.
  apply (set_existing_sysmem_pages_no_progress 3 (fun _ => 0) [5; 6; 9] 0
           1000).
  - lia.
  - intros _. lia.
Defined.

(** X18: when the packet limit leaves room for the fixed part of the
    message, a page and one page frame number, [max_pfns_in_message] is at
    least 1 and the message that [create_existing_sysmem] allocates for it
    stays a page below the packet limit. *)
Theorem max_pfns_in_message_room (K : header) (sizeof_set_pages_command : Z) :
  0 <= sizeof_set_pages_command ->
  sizeof_set_pages_command + PAGE_SIZE + sizeof_u64
  <= DXG_MAX_VM_BUS_PACKET_SIZE K < 2 ^ 32 ->
  1 <= max_pfns_in_message K sizeof_set_pages_command /\
  sizeof_set_pages_command
  + max_pfns_in_message K sizeof_set_pages_command * sizeof_u64
  <= DXG_MAX_VM_BUS_PACKET_SIZE K - PAGE_SIZE.
Proof.
  intros Hsz Hmax. unfold max_pfns_in_message, sizeof_u64 in *.
  assert (HPS : PAGE_SIZE = 4096) by reflexivity. rewrite HPS in *.
  set (room := DXG_MAX_VM_BUS_PACKET_SIZE K - sizeof_set_pages_command - 4096).
  assert (Hroom : 8 <= room < 2 ^ 32) by (unfold room; lia).
  unfold u64. rewrite (Z.mod_small room) by lia.
  assert (Hq : 1 <= room / 8 < 2 ^ 32).
  { split.
    - apply Z.div_le_lower_bound; lia.
    - apply Z.div_lt_upper_bound; lia. }
  rewrite u32_small by lia.
  pose proof (Z.mul_div_le room 8 ltac:(lia)). unfold room in *. lia.
Qed.

Lemma max_pfns_in_message_room_witness :
  1 <= max_pfns_in_message sample_header 24 /\
  24 + max_pfns_in_message sample_header 24 * sizeof_u64
  <= DXG_MAX_VM_BUS_PACKET_SIZE sample_header - PAGE_SIZE.
Proof.
  apply (max_pfns_in_message_room sample_header 24).
  - lia.
  - by vm_compute.
Defined.

(** ** Local handles of new allocations *)

Section ProcessAllocationHandlesFacts.
Context {hmgrtable : Type}.
Variable assign : hmgrtable -> alloc_entry_type -> Z -> Z * hmgrtable.

Lemma assign_alloc_handles_run (tb : hmgrtable) (host_allocs : list Z)
    (dxgalloc : list dxgallocation) (ret0 : Z) :
  length host_allocs = length dxgalloc ->
  let r := assign_alloc_handles hmgrtable assign tb host_allocs dxgalloc ret0 in
  length r.2 = length dxgalloc /\
  (host_allocs = [] -> r.1.1 = ret0) /\
  (0 <= r.1.1 -> host_allocs <> [] ->
   r.2 = map (fun h => {| alloc_handle := h; alloc_handle_valid := true |})
           host_allocs) /\
  (r.1.1 < 0 -> host_allocs <> [] ->
   exists k, (k < length host_allocs)%nat /\
     take k r.2
     = map (fun h => {| alloc_handle := h; alloc_handle_valid := true |})
         (take k host_allocs) /\
     drop k r.2 = drop k dxgalloc).
Proof.
  revert tb dxgalloc ret0.
  induction host_allocs as [| h hs IH]; intros tb dxgalloc ret0 Hlen r;
    subst r.
  - destruct dxgalloc; [| done]. cbn. split_and!; try done.
  - destruct dxgalloc as [| a dxgalloc]; [done |].
    cbn [assign_alloc_handles].
    destruct (assign tb HMGRENTRY_TYPE_DXGALLOCATION h) as [ret1 tb1].
    destruct (Z.ltb_spec ret1 0) as [Hneg | Hpos].
    + cbn [fst snd]. split; [done |]. split; [done |].
      split; [intros; lia |]. intros _ _. exists O. cbn. split; [lia | done].
    + specialize (IH tb1 dxgalloc ret1 ltac:(by injection Hlen)).
      cbv zeta in IH.
      destruct (assign_alloc_handles hmgrtable assign tb1 hs dxgalloc ret1)
        as [[r tb2] rest].
      cbn [fst snd] in *.
      destruct IH as (Hl & Hnil & Hok & Hfail).
      split; [cbn; by rewrite Hl |]. split; [done |]. split.
      * intros Hr _. cbn [map]. f_equal.
        destruct hs as [| h' hs'].
        -- destruct dxgalloc; [| done]. destruct rest; [done | done].
        -- by apply Hok.
      * intros Hr _.
        destruct hs as [| h' hs']; [specialize (Hnil eq_refl); lia |].
        destruct (Hfail Hr ltac:(done)) as (k & Hk & Ht & Hd).
        exists (S k). cbn [take drop map length] in Hk |- *. split; [lia |].
        split; [by rewrite Ht | done].
Qed.

End ProcessAllocationHandlesFacts.

(** X19: a non-negative return of [process_allocation_handles] when there
    are allocations means that every one of them got the handle that the
    host chose and is marked valid; it does not mean that the resource got
    its handle. *)
Theorem process_allocation_handles_success {hmgrtable : Type}
    (assign : hmgrtable -> alloc_entry_type -> Z -> Z * hmgrtable)
    (tb : hmgrtable) (create_resource : bool) (res_resource : Z)
    (host_allocs : list Z) (dxgalloc : list dxgallocation)
    (resource : dxgresource) :
  host_allocs <> [] -> length host_allocs = length dxgalloc ->
  let r := process_allocation_handles hmgrtable assign tb create_resource
             (Z.of_nat (length host_allocs)) res_resource host_allocs
             dxgalloc resource in
  0 <= r.1.1.1 ->
  r.2 = map (fun h => {| alloc_handle := h; alloc_handle_valid := true |})
          host_allocs.
Proof.
  intros Hne Hlen r Hret. subst r.
  unfold process_allocation_handles in *.
  destruct (if create_resource then _ else _) as [[ret0 tb0] resource'].
  rewrite !Nat2Z.id, !firstn_all, !(take_ge dxgalloc), !(drop_ge dxgalloc)
    in * by lia.
  pose proof (assign_alloc_handles_run assign tb0 host_allocs dxgalloc ret0
                Hlen) as Hrun.
  cbv zeta in Hrun.
  destruct (assign_alloc_handles hmgrtable assign tb0 host_allocs dxgalloc
              ret0) as [[ret tb1] rest].
  cbn [fst snd] in *. rewrite app_nil_r.
  destruct Hrun as (_ & _ & Hok & _). by apply Hok.
Qed.

Lemma process_allocation_handles_success_witness :
  (process_allocation_handles unit (sample_assign 0) tt true
     (Z.of_nat (length [0x40000010; 0x40000011])) 0x40000020
     [0x40000010; 0x40000011] sample_dxgalloc
     {| resource_handle := 0; resource_handle_valid := false |}).2
  = map (fun h => {| alloc_handle := h; alloc_handle_valid := true |})
      [0x40000010; 0x40000011].
Proof.
  apply (process_allocation_handles_success (sample_assign 0) tt true
           0x40000020 [0x40000010; 0x40000011] sample_dxgalloc
           {| resource_handle := 0; resource_handle_valid := false |}).
  - discriminate.
  - reflexivity.
  - by vm_compute.
Defined.

(** X20: the result of registering the resource is overwritten by the
    loop over the allocations: when the handle table refuses the resource
    handle but accepts the allocation handles, [process_allocation_handles]
    reports success although the resource has no valid handle. *)
Theorem process_allocation_handles_forgets_resource {hmgrtable : Type}
    (assign : hmgrtable -> alloc_entry_type -> Z -> Z * hmgrtable)
    (tb : hmgrtable) (res_resource : Z) (host_allocs : list Z)
    (dxgalloc : list dxgallocation) (resource : dxgresource) :
  host_allocs <> [] -> length host_allocs = length dxgalloc ->
  (assign tb HMGRENTRY_TYPE_DXGRESOURCE res_resource).1 < 0 ->
  (forall tb' h, 0 <= (assign tb' HMGRENTRY_TYPE_DXGALLOCATION h).1) ->
  let r := process_allocation_handles hmgrtable assign tb true
             (Z.of_nat (length host_allocs)) res_resource host_allocs
             dxgalloc resource in
  0 <= r.1.1.1 /\ r.1.2 = resource.
Proof.
  intros Hne Hlen Hres Hallocs r. subst r.
  unfold process_allocation_handles.
  destruct (assign tb HMGRENTRY_TYPE_DXGRESOURCE res_resource) as [ret0 tb0].
  cbn [fst] in Hres. rewrite (proj2 (Z.ltb_lt _ _) Hres).
  rewrite !Nat2Z.id, !firstn_all, !(take_ge dxgalloc) by lia.
  assert (Hgen : forall hs tb1 da r0,
            hs <> [] ->
            0 <= (assign_alloc_handles hmgrtable assign tb1 hs da r0).1.1
            \/ da = []).
  { clear -Hallocs. induction hs as [| h hs IH]; intros tb1 da r0 Hhs;
      [done |].
    destruct da as [| a da]; [by right |]. left.
    cbn [assign_alloc_handles].
    pose proof (Hallocs tb1 h) as Hh.
    destruct (assign tb1 HMGRENTRY_TYPE_DXGALLOCATION h) as [ret1 tb2].
    cbn [fst] in Hh. rewrite (proj2 (Z.ltb_ge _ _) Hh).
    destruct hs as [| h' hs'].
    - destruct da; cbn; done.
    - destruct (IH tb2 da ret1 ltac:(done)) as [Hok | ->].
      + destruct (assign_alloc_handles hmgrtable assign tb2 (h' :: hs') da
                    ret1) as [[r tb3] rest]. done.
      + cbn. done. }
  destruct (Hgen host_allocs tb0 dxgalloc ret0 Hne) as [Hok | ->].
  - destruct (assign_alloc_handles hmgrtable assign tb0 host_allocs dxgalloc
                ret0) as [[ret tb1] rest]. cbn [fst snd] in *. done.
  - by destruct host_allocs.
Qed.

Lemma process_allocation_handles_forgets_resource_witness :
  0 <= (process_allocation_handles unit (sample_assign (- ENOMEM)) tt true
          (Z.of_nat (length [0x40000010; 0x40000011])) 0x40000020
          [0x40000010; 0x40000011] sample_dxgalloc
          {| resource_handle := 0; resource_handle_valid := false |}).1.1.1 /\
  (process_allocation_handles unit (sample_assign (- ENOMEM)) tt true
     (Z.of_nat (length [0x40000010; 0x40000011])) 0x40000020
     [0x40000010; 0x40000011] sample_dxgalloc
     {| resource_handle := 0; resource_handle_valid := false |}).1.2
  = {| resource_handle := 0; resource_handle_valid := false |}.
Proof.
  apply (process_allocation_handles_forgets_resource
           (sample_assign (- ENOMEM)) tt 0x40000020 [0x40000010; 0x40000011]
           sample_dxgalloc
           {| resource_handle := 0; resource_handle_valid := false |}).
  - discriminate.
  - reflexivity.
  - by vm_compute.
  - intros tb' h. cbn. lia.
Defined.

(** ** CPU access to an allocation *)

(** What [dxg_map_iospace] does when every step succeeds. *)
Lemma dxg_map_iospace_success (E : env) (g : dxgglobal_t)
    (addr size : Z) (cached : bool) (w : world) :
  let va := vm_mmap_ret E size in
  check_iospace_address g addr size = 0 ->
  0 < va ->
  find_vma_ok E va = true ->
  io_remap_pfn_range_ret E va (Z.shiftr addr PAGE_SHIFT) = 0 ->
  dxg_map_iospace E g addr size cached w
  = (Some (u64 (va + addr mod PAGE_SIZE)),
     {| w_trace := w_trace w ++ [EvMmap size va];
        w_handles := w_handles w;
        w_maps := (va, size) :: w_maps w |}).
Proof.
  intros va Hchk Hva Hvma Hremap. subst va.
  unfold dxg_map_iospace. rewrite Hchk. change (0 <? 0) with false. cbv iota.
  unfold mbind, mret, emit, add_map. cbn [fst snd].
  rewrite (proj2 (Z.leb_gt _ _)) by lia.
  by rewrite Hvma, Hremap.
Qed.

(** X21: when [dxgvmb_send_lock2] has mapped the allocation for this call
    and cannot hand the address to the caller, it takes the mapping back:
    the allocation is unmapped again, its address is cleared and its
    counter is zero, and -EINVAL is returned. *)
Theorem lock2_failed_copy_unmaps (E : env) (g : dxgglobal_t)
    (refcount_t : Z -> Z) (a : dxgallocation_cpu) (data offset : Z)
    (w : world) :
  let size := u32 (num_pages a * PAGE_SIZE) in
  let va := vm_mmap_ret E size in
  cpu_address a = 0 ->
  refcount_t 0 = 0 ->
  check_iospace_address g (u64 offset) size = 0 ->
  0 < va < 2 ^ 64 - PAGE_SIZE -> va mod PAGE_SIZE = 0 ->
  find_vma_ok E va = true ->
  io_remap_pfn_range_ret E va (Z.shiftr (u64 offset) PAGE_SHIFT) = 0 ->
  current_mm E = true -> vm_munmap_ret E va size = 0 ->
  va ∉ (w_maps w).*1 ->
  lock2_locked E g refcount_t (Some a) data offset false w
  = (Some (- EINVAL,
           Some {| cpu_address := 0; cpu_address_mapped := false;
                   cpu_address_refcount := 0;
                   num_pages := num_pages a; cached := cached a |},
           u64 (va + u64 offset mod PAGE_SIZE)),
     w_emit w [EvMmap size va; EvMunmap va size]).
Proof.
  intros size va Ha Hrc Hchk Hva Hal Hvma Hremap Hmm Hun Hfresh.
  unfold lock2_locked. fold size. rewrite Ha. change (0 =? 0) with true.
  cbn [negb]. unfold mbind at 1. unfold mbind at 1.
  pose proof (dxg_map_iospace_success E g (u64 offset) size (cached a) w
                Hchk ltac:(lia) Hvma Hremap) as Hmap.
  fold va in Hmap. rewrite Hmap.
  pose proof (Z.mod_pos_bound (u64 offset) PAGE_SIZE ltac:(done)) as Ho.
  assert (HPS : PAGE_SIZE = 4096) by reflexivity.
  assert (Hp : u64 (va + u64 offset mod PAGE_SIZE)
               = va + u64 offset mod PAGE_SIZE).
  { unfold u64 at 1. apply Z.mod_small. lia. }
  assert (Hpnz : u64 (va + u64 offset mod PAGE_SIZE) <> 0) by lia.
  rewrite (proj2 (Z.eqb_neq _ _) Hpnz). cbn [negb]. unfold mret at 1.
  rewrite (proj2 (Z.eqb_neq _ _) Hpnz).
  cbn [cpu_address_refcount cpu_address num_pages cached].
  change (1 - 1) with 0. rewrite Hrc. change (0 =? 0) with true. cbv iota.
  unfold mbind.
  rewrite (dxg_unmap_after_map E g (u64 offset) size (cached a) w _ _ Hmap
             Hpnz ltac:(fold va; lia) Hal Hmm Hun Hfresh).
  reflexivity.
Qed.

(** X22: for an allocation that is already mapped, [dxgvmb_send_lock2]
    counts the lock and hands out the mapped address without mapping
    anything; when the address cannot be copied to the caller the count is
    taken back and the allocation is as it was. *)
Theorem lock2_mapped_refcount (E : env) (g : dxgglobal_t)
    (refcount_t : Z -> Z) (a : dxgallocation_cpu) (data offset : Z)
    (copy_ok : bool) (w : world) :
  cpu_address a <> 0 -> cpu_address_mapped a = true ->
  1 <= cpu_address_refcount a ->
  refcount_t (cpu_address_refcount a) = cpu_address_refcount a ->
  refcount_t (cpu_address_refcount a + 1) = cpu_address_refcount a + 1 ->
  lock2_locked E g refcount_t (Some a) data offset copy_ok w
  = (Some (if copy_ok then 0 else - EINVAL,
           Some (if copy_ok
                 then {| cpu_address := cpu_address a;
                         cpu_address_mapped := true;
                         cpu_address_refcount := cpu_address_refcount a + 1;
                         num_pages := num_pages a; cached := cached a |}
                 else a),
           cpu_address a), w).
Proof.
  intros Ha Hm Hr Hrc Hrc1. unfold lock2_locked. rewrite Hrc1.
  rewrite (proj2 (Z.eqb_neq _ _) Ha), Hm. cbn [negb].
  unfold mbind, mret.
  rewrite (proj2 (Z.eqb_neq _ _) Ha).
  destruct copy_ok; [done |].
  cbn [cpu_address_refcount cpu_address cpu_address_mapped num_pages cached].
  replace (cpu_address_refcount a + 1 - 1) with (cpu_address_refcount a)
    by lia.
  rewrite Hrc. rewrite (proj2 (Z.eqb_neq _ 0)) by lia.
  destruct a. cbn in *. by subst.
Qed.

(** X23: for an allocation that lives in existing system memory (it has a
    CPU address that is not a mapping), a failed copy to the caller makes
    [dxgvmb_send_lock2] decrement the counter that it did not increment;
    nothing is unmapped and the address stays. *)
Theorem lock2_sysmem_failed_copy (E : env) (g : dxgglobal_t)
    (refcount_t : Z -> Z) (a : dxgallocation_cpu) (data offset : Z)
    (w : world) :
  cpu_address a <> 0 -> cpu_address_mapped a = false ->
  refcount_t (cpu_address_refcount a - 1) <> 0 ->
  lock2_locked E g refcount_t (Some a) data offset false w
  = (Some (- EINVAL,
           Some {| cpu_address := cpu_address a;
                   cpu_address_mapped := false;
                   cpu_address_refcount :=
                     refcount_t (cpu_address_refcount a - 1);
                   num_pages := num_pages a; cached := cached a |},
           cpu_address a), w).
Proof.
  intros Ha Hm Hr. unfold lock2_locked.
  rewrite (proj2 (Z.eqb_neq _ _) Ha), Hm. cbn [negb].
  unfold mbind, mret.
  rewrite (proj2 (Z.eqb_neq _ _) Ha), (proj2 (Z.eqb_neq _ _) Hr).
  by rewrite Hm.
Qed.

Lemma lock2_failed_copy_unmaps_witness :
  lock2_locked (sample_env (fun _ => true) []) (sample_global false) u32
    (Some (sample_alloc_cpu 0 false 0)) 0 0x10002040 false world0
  = (Some (- EINVAL, Some (sample_alloc_cpu 0 false 0), 0x7f0000001040),
     w_emit world0
       [EvMmap PAGE_SIZE 0x7f0000001000; EvMunmap 0x7f0000001000 PAGE_SIZE]).
Proof.
  apply (lock2_failed_copy_unmaps (sample_env (fun _ => true) [])
           (sample_global false) u32 (sample_alloc_cpu 0 false 0) 0
           0x10002040 world0).
  - reflexivity.
  - reflexivity.
  - reflexivity.
  - by vm_compute.
  - reflexivity.
  - reflexivity.
  - reflexivity.
  - reflexivity.
  - reflexivity.
  - cbn. apply not_elem_of_nil.
Defined.

Lemma lock2_mapped_refcount_witness :
  lock2_locked (sample_env (fun _ => true) []) (sample_global false) u32
    (Some (sample_alloc_cpu 0x7f0000001040 true 1)) 0 0x10002040 false world0
  = (Some (- EINVAL, Some (sample_alloc_cpu 0x7f0000001040 true 1),
           0x7f0000001040), world0).
Proof.
  apply (lock2_mapped_refcount (sample_env (fun _ => true) [])
           (sample_global false) u32 (sample_alloc_cpu 0x7f0000001040 true 1)
           0 0x10002040 false world0).
  - discriminate.
  - reflexivity.
  - by vm_compute.
  - reflexivity.
  - reflexivity.
Defined.

Lemma lock2_sysmem_failed_copy_witness :
  lock2_locked (sample_env (fun _ => true) []) (sample_global false) u32
    (Some (sample_alloc_cpu 0x7000 false 0)) 0 0x10002040 false world0
  = (Some (- EINVAL, Some (sample_alloc_cpu 0x7000 false (2 ^ 32 - 1)),
           0x7000), world0).
Proof.
  apply (lock2_sysmem_failed_copy (sample_env (fun _ => true) [])
           (sample_global false) u32 (sample_alloc_cpu 0x7000 false 0) 0
           0x10002040 world0).
  - discriminate.
  - reflexivity.
  - by vm_compute.
Defined.

(** ** Private data of a create-allocation command *)

Lemma copy_from_user_length (src : bytes) (n : Z) (d : bytes) :
  0 <= n -> copy_from_user src n = Some d -> blen d = n.
Proof.
  intros Hn. unfold copy_from_user, blen.
  destruct (Z.leb_spec n (Z.of_nat (length src))); [| done].
  intros [= <-]. rewrite length_take. lia.
Qed.

Lemma copy_alloc_private_data_length (l : list d3dddi_allocationinfo)
    (d : bytes) :
  Forall (fun a => 0 <= priv_drv_data_size a) l ->
  copy_alloc_private_data l = (0, d) ->
  blen d = foldr Z.add 0 (map priv_drv_data_size l).
Proof.
  intros Hall. revert d.
  induction Hall as [| a l Ha Hall IH]; intros d; cbn [copy_alloc_private_data map foldr].
  - by intros [= <-].
  - destruct (Z.eqb_spec (priv_drv_data_size a) 0) as [Hz | Hnz]; cbn [negb].
    + intros Hrun. rewrite (IH d Hrun). lia.
    + destruct (copy_from_user _ _) as [d0 |] eqn:Hcopy; [| by intros [=]].
      destruct (copy_alloc_private_data l) as [ret rest].
      intros [= -> <-]. rewrite blen_app, (IH rest eq_refl).
      by rewrite (copy_from_user_length _ _ _ Ha Hcopy).
Qed.

(** X24: without a standard allocation, a successful [copy_private_data]
    stores exactly the bytes that [dxgvmb_send_create_allocation] added to
    the command size for private data: the runtime data, the driver data
    and the private data of every allocation, whose sizes the size loop
    has added up. *)
Theorem copy_private_data_fills_reserved (K : header)
    (sizeof_createstandardallocation : Z) (args : d3dkmt_createallocation)
    (private_runtime_data priv_drv_data standard_alloc : bytes)
    (input_alloc_info : list d3dddi_allocationinfo) (s : Z)
    (written : bytes) (size1 : Z) :
  let infos := take (Z.to_nat (alloc_count args)) input_alloc_info in
  DXG_MAX_VM_BUS_PACKET_SIZE K <= 2 ^ 31 ->
  0 <= private_runtime_data_size args -> 0 <= args_priv_drv_data_size args ->
  Forall (fun a => 0 <= priv_drv_data_size a) infos ->
  total_priv_drv_data_size (DXG_MAX_VM_BUS_PACKET_SIZE K) infos 0 = inr s ->
  copy_private_data sizeof_createstandardallocation args
    private_runtime_data priv_drv_data false standard_alloc input_alloc_info
  = (0, written, size1) ->
  blen written
  = private_runtime_data_size args + (s + args_priv_drv_data_size args) /\
  size1 = args_priv_drv_data_size args.
Proof.
  intros infos Hmax Hrt Hdrv Hall Htot Hrun.
  destruct (total_priv_drv_data_size_sum _ infos Hmax Hall 0 s ltac:(lia) Htot)
    as (-> & _ & _).
  unfold copy_private_data in Hrun. fold infos in Hrun.
  assert (H1 : forall d1,
            (if negb (private_runtime_data_size args =? 0)
             then copy_from_user private_runtime_data
                    (private_runtime_data_size args)
             else Some []) = Some d1 ->
            blen d1 = private_runtime_data_size args).
  { intros d1. destruct (Z.eqb_spec (private_runtime_data_size args) 0)
      as [-> | _]; cbn [negb].
    - by intros [= <-].
    - by apply copy_from_user_length. }
  destruct (if negb (private_runtime_data_size args =? 0) then _ else _)
    as [d1 |]; [| by injection Hrun].
  specialize (H1 d1 eq_refl).
  assert (H2 : forall d2 sz,
            (if negb (args_priv_drv_data_size args =? 0)
             then match copy_from_user priv_drv_data
                          (args_priv_drv_data_size args) with
                  | Some d => Some (d, args_priv_drv_data_size args)
                  | None => None
                  end
             else Some ([], args_priv_drv_data_size args)) = Some (d2, sz) ->
            blen d2 = args_priv_drv_data_size args /\
            sz = args_priv_drv_data_size args).
  { intros d2 sz. destruct (Z.eqb_spec (args_priv_drv_data_size args) 0)
      as [Hz | _]; cbn [negb].
    - rewrite Hz. by intros [= <- <-].
    - destruct (copy_from_user _ _) as [d |] eqn:Hc; [| done].
      intros [= <- <-]. split; [| done].
      by apply (copy_from_user_length _ _ _ Hdrv Hc). }
  destruct (if negb (args_priv_drv_data_size args =? 0) then _ else _)
    as [[d2 sz] |]; [| by injection Hrun].
  destruct (H2 d2 sz eq_refl) as [Hd2 ->].
  destruct (copy_alloc_private_data infos) as [ret d3] eqn:Hd3.
  injection Hrun as -> <- <-.
  rewrite !blen_app, H1, Hd2.
  rewrite (copy_alloc_private_data_length infos d3 Hall Hd3).
  split; [lia | done].
Qed.

Lemma copy_private_data_fills_reserved_witness :
  blen (replicate 8 0 ++ replicate 8 0)
  = private_runtime_data_size (sample_create_args 2)
    + (16 + args_priv_drv_data_size (sample_create_args 2)) /\
  0 = args_priv_drv_data_size (sample_create_args 2).
Proof.
  apply (copy_private_data_fills_reserved sample_header 64
           (sample_create_args 2) [] [] []
           [sample_sysmem_alloc; sample_sysmem_alloc] 16
           (replicate 8 0 ++ replicate 8 0) 0).
  - by vm_compute.
  - by vm_compute.
  - by vm_compute.
  - repeat constructor; by vm_compute.
  - vm_compute. reflexivity.
  - vm_compute. reflexivity.
Defined.

(** X25: with a standard allocation, [copy_private_data] stores the whole
    standard allocation structure in place of the driver data and sets
    [args->priv_drv_data_size] to its size, whatever size the caller had
    given: the bytes stored are the runtime data, the structure and the
    private data of every allocation. *)
Theorem copy_private_data_standard_allocation
    (sizeof_createstandardallocation : Z) (args : d3dkmt_createallocation)
    (private_runtime_data priv_drv_data standard_alloc : bytes)
    (input_alloc_info : list d3dddi_allocationinfo)
    (written : bytes) (size1 : Z) :
  let infos := take (Z.to_nat (alloc_count args)) input_alloc_info in
  blen standard_alloc = sizeof_createstandardallocation ->
  0 <= private_runtime_data_size args ->
  Forall (fun a => 0 <= priv_drv_data_size a) infos ->
  copy_private_data sizeof_createstandardallocation args
    private_runtime_data priv_drv_data true standard_alloc input_alloc_info
  = (0, written, size1) ->
  blen written
  = private_runtime_data_size args + sizeof_createstandardallocation
    + foldr Z.add 0 (map priv_drv_data_size infos) /\
  size1 = sizeof_createstandardallocation.
Proof.
  intros infos Hstd Hrt Hall Hrun.
  unfold copy_private_data in Hrun. fold infos in Hrun.
  assert (H1 : forall d1,
            (if negb (private_runtime_data_size args =? 0)
             then copy_from_user private_runtime_data
                    (private_runtime_data_size args)
             else Some []) = Some d1 ->
            blen d1 = private_runtime_data_size args).
  { intros d1. destruct (Z.eqb_spec (private_runtime_data_size args) 0)
      as [-> | _]; cbn [negb].
    - by intros [= <-].
    - by apply copy_from_user_length. }
  destruct (if negb (private_runtime_data_size args =? 0) then _ else _)
    as [d1 |]; [| by injection Hrun].
  specialize (H1 d1 eq_refl).
  destruct (copy_alloc_private_data infos) as [ret d3] eqn:Hd3.
  injection Hrun as -> <- <-.
  rewrite !blen_app, H1, Hstd.
  rewrite (copy_alloc_private_data_length infos d3 Hall Hd3).
  split; [lia | done].
Qed.

Lemma copy_private_data_standard_allocation_witness :
  blen (replicate 64 1 ++ replicate 8 0)
  = private_runtime_data_size (sample_create_args 1) + 64
    + foldr Z.add 0
        (map priv_drv_data_size
           (take (Z.to_nat (alloc_count (sample_create_args 1)))
              [sample_sysmem_alloc])) /\
  64 = 64.
Proof.
  apply (copy_private_data_standard_allocation 64 (sample_create_args 1)
           [] [] (replicate 64 1) [sample_sysmem_alloc]
           (replicate 64 1 ++ replicate 8 0) 64).
  - reflexivity.
  - by vm_compute.
  - repeat constructor; by vm_compute.
  - vm_compute. reflexivity.
Defined.

(** ** Allocation creation: the size of what is sent *)

Lemma u32_le (x : Z) : 0 <= x -> 0 <= u32 x <= x.
Proof.
  intros Hx. unfold u32. split; [apply Z.mod_pos_bound; lia |].
  apply Z.mod_le; lia.
Qed.

Lemma msg_size_within (K : header) (g : dxgglobal_t) (size cmd_size : Z) :
  0 <= sizeof_dxgvmb_ext_header K -> 0 <= cmd_size ->
  cmd_size <= DXG_MAX_VM_BUS_PACKET_SIZE K ->
  size = (if use_ext_header K g
          then u32 (cmd_size + sizeof_dxgvmb_ext_header K) else cmd_size) ->
  size <= DXG_MAX_VM_BUS_PACKET_SIZE K + sizeof_dxgvmb_ext_header K.
Proof.
  intros Hext Hc Hle ->. destruct (use_ext_header K g); [| lia].
  pose proof (u32_le (cmd_size + sizeof_dxgvmb_ext_header K) ltac:(lia)). lia.
Qed.

Lemma emits_within_get_allocation_size (K : header) (E : env)
    (g : dxgglobal_t) (h : Z) (adapter : option dxgadapter)
    (args : d3dkmt_createallocation) (alloc_info : list d3dddi_allocationinfo)
    (result_size destroy_size : Z) :
  0 <= sizeof_dxgvmb_ext_header K ->
  emits (create_allocation_packet
           (DXG_MAX_VM_BUS_PACKET_SIZE K + sizeof_dxgvmb_ext_header K)
           destroy_size)
    (dxgvmb_send_get_allocation_size K E g h adapter args alloc_info
       result_size).
Proof.
  intros Hext. unfold dxgvmb_send_get_allocation_size. cbv zeta.
  assert (Hq : forall e, is_send e = false ->
                 create_allocation_packet
                   (DXG_MAX_VM_BUS_PACKET_SIZE K + sizeof_dxgvmb_ext_header K)
                   destroy_size e)
    by (by intros []).
  destruct (total_priv_drv_data_size _ _ 0) as [e | priv_size].
  { apply emits_bind; [by apply emits_within_free_message |].
    intros; apply emits_mret. }
  set (cmd_size := u32 _).
  assert (Hc : 0 <= cmd_size) by (apply Z.mod_pos_bound; lia).
  destruct (Z.ltb_spec (DXG_MAX_VM_BUS_PACKET_SIZE K) cmd_size) as [| Hle].
  { apply emits_bind; [by apply emits_within_free_message |].
    intros; apply emits_mret. }
  eapply emits_bind_post;
    [intros w rm; apply init_message_size
    | by apply emits_within_init_message |].
  intros [ret msg] Hsize. cbn [snd] in Hsize.
  pose proof (msg_size_within K g _ cmd_size Hext Hc Hle Hsize) as Hb.
  repeat first [apply emits_mret | by apply emits_within_free_message
               | apply emits_within_send_sync; exact Hb
               | apply emits_bind; [| intros ?]
               | match goal with
                 | |- emits _ (if ?c then _ else _) => destruct c
                 | |- emits _ (msg_chan ?m) =>
                     unfold msg_chan; destruct (msg_channel m);
                     [apply emits_mret | apply emits_fault]
                 end].
Qed.

(** [create_local_allocations] sends at most its destroy command, in a
    message of the size it was given. *)
Lemma emits_within_create_local_allocations (K : header) (E : env)
    (g : dxgglobal_t) (h : Z) (adapter : option dxgadapter)
    (args : d3dkmt_createallocation) (allocations : list Z)
    (destroy_buffer_size bound : Z) :
  emits (create_allocation_packet bound
           (if use_ext_header K g
            then u32 (destroy_buffer_size + sizeof_dxgvmb_ext_header K)
            else destroy_buffer_size))
    (create_local_allocations K E g h adapter args allocations
       destroy_buffer_size).
Proof.
  unfold create_local_allocations. cbv zeta.
  set (P := create_allocation_packet _ _).
  assert (Hq : forall e, is_send e = false -> P e) by (by intros []).
  eapply emits_bind_post;
    [intros w rm; apply init_message_size
    | by apply emits_within_init_message |].
  intros [ret msg] Hsize. cbn [snd] in Hsize.
  repeat first [apply emits_mret | by apply emits_within_free_message
               | by apply emits_emit, Hq
               | apply emits_within_send_sync_ntstatus; [exact Hq | exact Hsize]
               | apply emits_bind; [| intros ?]
               | match goal with
                 | |- emits _ (if ?c then _ else _) => destruct c
                 | |- emits _ (msg_chan ?m) =>
                     unfold msg_chan; destruct (msg_channel m);
                     [apply emits_mret | apply emits_fault]
                 end].
Qed.

(** X26: of the messages that [dxgvmb_send_create_allocation] sends, its
    own and the one of [dxgvmb_send_get_allocation_size] that it calls have
    at most [DXG_MAX_VM_BUS_PACKET_SIZE] bytes after the extension header:
    the final check of [cmd_size] holds for what goes on the wire.  The
    compensating destroy command of [create_local_allocations] travels in
    a message of the size computed from [alloc_count] alone, which no check
    bounds.  Nothing else is sent, and the function does nothing but append
    to the trace. *)
Theorem create_allocation_messages_within_limit (K : header) (E : env)
    (g : dxgglobal_t) (h : Z) (adapter : option dxgadapter)
    (args : d3dkmt_createallocation)
    (alloc_info : list d3dddi_allocationinfo) :
  0 <= sizeof_dxgvmb_ext_header K ->
  let destroy_buffer_size :=
    u32 (sizeof_command_destroyallocation K
         + alloc_count args * sizeof_d3dkmthandle) in
  emits (create_allocation_packet
           (DXG_MAX_VM_BUS_PACKET_SIZE K + sizeof_dxgvmb_ext_header K)
           (if use_ext_header K g
            then u32 (destroy_buffer_size + sizeof_dxgvmb_ext_header K)
            else destroy_buffer_size))
    (dxgvmb_send_create_allocation K E g h adapter args alloc_info).
Proof.
  intros Hext destroy_buffer_size.
  set (P := create_allocation_packet _ _).
  assert (Hq : forall e, is_send e = false -> P e) by (by intros []).
  unfold dxgvmb_send_create_allocation. cbv zeta.
  destruct (_ || _)%bool; [by apply emits_within_cleanup |].
  destruct (total_priv_drv_data_size _ _ 0) as [e | priv_size0];
    [by apply emits_within_cleanup |].
  destruct (existsb _ _); [by apply emits_within_cleanup |].
  apply emits_bind; [by apply emits_within_vzalloc | intros ok1].
  destruct (negb ok1); [by apply emits_within_cleanup |].
  apply emits_bind; [by apply emits_within_vzalloc | intros ok2].
  destruct (negb ok2); [by apply emits_within_cleanup |].
  apply emits_bind.
  { destruct (_ && _)%bool;
      [by apply emits_within_get_allocation_size | apply emits_mret]. }
  intros [ret [res_count allocation_sizes]].
  destruct (_ && (ret <? 0))%bool; [by apply emits_within_cleanup |].
  set (cmd_size := if (_ && _)%bool then u32 _ else u32 _).
  assert (Hc : 0 <= cmd_size).
  { unfold cmd_size. destruct (_ && _)%bool; apply Z.mod_pos_bound; lia. }
  destruct (Z.ltb_spec (DXG_MAX_VM_BUS_PACKET_SIZE K) cmd_size) as [| Hle];
    [by apply emits_within_cleanup |].
  eapply emits_bind_post;
    [intros w rm; apply init_message_size
    | by apply emits_within_init_message |].
  intros [ret0 msg] Hsize. cbn [snd] in Hsize.
  pose proof (msg_size_within K g _ cmd_size Hext Hc Hle Hsize) as Hb.
  destruct (negb (ret0 =? 0)); [by apply emits_within_cleanup |].
  apply emits_bind; [by apply emits_emit, Hq | intros _].
  destruct (copy_private_data_ret E <? 0); [by apply emits_within_cleanup |].
  apply emits_bind.
  { destruct (_ && _)%bool; [| apply emits_mret].
    unfold copy_sysmem_pages_rle_data. by apply emits_within_rle_allocs. }
  intros [ret1 rle].
  destruct (ret1 <? 0); [by apply emits_within_cleanup |].
  apply emits_bind.
  { unfold msg_chan. destruct (msg_channel msg);
      [apply emits_mret | apply emits_fault]. }
  intros ch.
  apply emits_bind; [apply emits_within_send_sync; exact Hb | intros rp].
  destruct (rp_ret rp <? 0); [by apply emits_within_cleanup |].
  destruct (ntstatus2int K (rp_status rp) <? 0);
    [by apply emits_within_cleanup |].
  apply emits_bind; [apply emits_within_create_local_allocations | intros ?].
  by apply emits_within_cleanup.
Qed.

Lemma create_allocation_messages_within_limit_witness :
  emits (create_allocation_packet
           (DXG_MAX_VM_BUS_PACKET_SIZE sample_header
            + sizeof_dxgvmb_ext_header sample_header) 76)
    (dxgvmb_send_create_allocation sample_header
       (sample_env (fun _ => true) [5; 6; 9]) (sample_global false) 1
       (Some sample_adapter) (sample_create_args 1) [sample_sysmem_alloc]).
Proof.
  apply (create_allocation_messages_within_limit sample_header
           (sample_env (fun _ => true) [5; 6; 9]) (sample_global false) 1
           (Some sample_adapter) (sample_create_args 1)
           [sample_sysmem_alloc]).
  by vm_compute.
Defined.

(** ** Messages are released on every path *)

Section HeapBalance.
Variable K : header.
Variable G : header_global.
Variable E : env.
Variable g : dxgglobal_t.

Lemma kheap_app (t1 t2 : list event) :
  kheap E (t1 ++ t2) = kheap E t1 + kheap E t2.
Proof.
  unfold kheap. induction t1 as [| e t1 IH]; cbn [app foldr]; [done |].
  rewrite IH. lia.
Qed.

Lemma kheap_by_mret {A} (d : A -> Z) (a : A) :
  d a = 0 -> kheap_by E d (mret a).
Proof.
  intros Hd w. exists []. cbn. rewrite app_nil_r.
  split; [done |]. by intros ? [= <-].
Qed.

Lemma kheap_by_fault {A} (d : A -> Z) : kheap_by E d (@fault A).
Proof. intros w. exists []. cbn. rewrite app_nil_r. done. Qed.

Lemma kheap_by_emit (d : unit -> Z) (e : event) :
  kheap_event E e = d tt -> kheap_by E d (emit e).
Proof.
  intros He w. exists [e]. cbn. split; [done |].
  intros [] _. rewrite <- He. lia.
Qed.

Lemma kheap_by_bind {A B} (d1 : A -> Z) (d : B -> Z) (m : M A)
    (k : A -> M B) :
  kheap_by E d1 m ->
  (forall a, kheap_by E (fun b => d b - d1 a) (k a)) ->
  kheap_by E d (mbind m k).
Proof.
  intros Hm Hk w. unfold mbind.
  destruct (Hm w) as (t1 & Ht1 & H1).
  destruct (m w) as [[a |] w1]; cbn in *.
  - destruct (Hk a w1) as (t2 & Ht2 & H2).
    exists (t1 ++ t2). rewrite Ht2, Ht1, app_assoc. split; [done |].
    intros b Hb. rewrite kheap_app, (H1 a eq_refl), (H2 b Hb). lia.
  - by exists t1.
Qed.

Lemma kheap_by_ext {A} (d d' : A -> Z) (m : M A) :
  (forall a, d a = d' a) -> kheap_by E d m -> kheap_by E d' m.
Proof.
  intros Hd Hm w. destruct (Hm w) as (t & Ht & H).
  exists t. split; [done |]. intros a Ha. rewrite <- Hd. by apply H.
Qed.

Lemma kheap_by_bind_post {A B} (Q : A -> Prop) (d1 : A -> Z) (d : B -> Z)
    (m : M A) (k : A -> M B) :
  (forall w a, (m w).1 = Some a -> Q a) ->
  kheap_by E d1 m ->
  (forall a, Q a -> kheap_by E (fun b => d b - d1 a) (k a)) ->
  kheap_by E d (mbind m k).
Proof.
  intros HQ Hm Hk w. unfold mbind.
  destruct (Hm w) as (t1 & Ht1 & H1). specialize (HQ w).
  destruct (m w) as [[a |] w1]; cbn in *.
  - destruct (Hk a (HQ a eq_refl) w1) as (t2 & Ht2 & H2).
    exists (t1 ++ t2). rewrite Ht2, Ht1, app_assoc. split; [done |].
    intros b Hb. rewrite kheap_app, (H1 a eq_refl), (H2 b Hb). lia.
  - by exists t1.
Qed.

(** Binding a computation that leaves the heap as it is. *)
Lemma kheap_by_bind0 {A B} (d : B -> Z) (m : M A) (k : A -> M B) :
  kheap_by E (fun _ => 0) m ->
  (forall a, kheap_by E d (k a)) ->
  kheap_by E d (mbind m k).
Proof.
  intros Hm Hk. eapply kheap_by_bind; [exact Hm |].
  intros a. eapply kheap_by_ext; [| apply Hk]. intros b. cbv beta. lia.
Qed.

Lemma kheap_by_init_message adapter n :
  kheap_by E (fun rm => msg_heap rm.2) (init_message K E g adapter n).
Proof.
  intros w. unfold init_message, kzalloc, mbind, mret, emit. cbv zeta.
  destruct (_ <=? VMBUSMESSAGEONSTACK K).
  - exists []. cbn. rewrite app_nil_r. split; [done |].
    by intros ? [= <-].
  - cbn. destruct (kzalloc_ok E _) eqn:Hok; cbn.
    + eexists [_]. split; [done |]. intros ? [= <-]. cbn. by rewrite Hok.
    + eexists [_]. split; [done |]. intros ? [= <-]. cbn. by rewrite Hok.
Qed.

Lemma kheap_by_free_message msg :
  kheap_by E (fun _ => - msg_heap msg) (free_message msg).
Proof.
  intros w. unfold free_message, msg_heap.
  destruct (msg_hdr msg); cbn.
  - exists []. by rewrite app_nil_r.
  - exists []. by rewrite app_nil_r.
  - exists [EvKfree]. done.
Qed.

(** Leaving an encoder: the message is freed and the result returned. *)
Lemma kheap_by_exit {A} (msg : dxgvmbusmsg) (a : A) :
  kheap_by E (fun _ => 0 - msg_heap msg) (free_message msg ;;; mret a).
Proof.
  eapply kheap_by_bind; [apply kheap_by_free_message |].
  intros ?. cbv beta. apply kheap_by_mret. lia.
Qed.

Lemma kheap_by_exit_empty {A} (a : A) :
  kheap_by E (fun _ => 0) (free_message msg_empty ;;; mret a).
Proof.
  eapply kheap_by_ext; [| apply (kheap_by_exit msg_empty a)].
  intros ?. reflexivity.
Qed.

(** Steps that make no [kzalloc] and no [kfree]. *)
Ltac kheap_zero :=
  repeat first
    [ apply kheap_by_mret; reflexivity
    | apply kheap_by_fault
    | apply kheap_by_emit; reflexivity
    | apply kheap_by_bind0; [| intros ?]
    | match goal with
      | |- kheap_by _ _ (if ?c then _ else _) => destruct c
      | |- kheap_by _ _ (match ?x with _ => _ end) => destruct x
      end ].

Lemma kheap_by_area_write off d a :
  kheap_by E (fun _ => 0) (area_write off d a).
Proof. unfold area_write. kheap_zero. Qed.

Lemma kheap_by_area_after msg n :
  kheap_by E (fun _ => 0) (area_after msg n).
Proof. unfold area_after. cbv zeta. kheap_zero. Qed.

Lemma kheap_by_memcpy_from src n :
  kheap_by E (fun _ => 0) (memcpy_from src n).
Proof. unfold memcpy_from. kheap_zero. Qed.

Lemma kheap_by_msg_chan msg : kheap_by E (fun _ => 0) (msg_chan msg).
Proof. unfold msg_chan. kheap_zero. Qed.

Lemma kheap_by_send_sync ch p n :
  kheap_by E (fun _ => 0) (dxgvmb_send_sync_msg E ch p n).
Proof. unfold dxgvmb_send_sync_msg. kheap_zero. Qed.

Lemma kheap_by_send_async ch p :
  kheap_by E (fun _ => 0) (dxgvmb_send_async_msg E ch p).
Proof. unfold dxgvmb_send_async_msg. kheap_zero. Qed.

Lemma kheap_by_send_sync_ntstatus ch p :
  kheap_by E (fun _ => 0) (dxgvmb_send_sync_msg_ntstatus K E ch p).
Proof.
  intros w.
  unfold dxgvmb_send_sync_msg_ntstatus, dxgvmb_send_sync_msg, kzalloc,
    mbind, mret, emit, fault.
  cbn. destruct (kzalloc_ok E (sizeof_ntstatus K)) eqn:Hok;
    destruct (0 <=? rp_ret _); cbn;
    eexists; (split; [rewrite <- ?app_assoc; reflexivity |]);
    try done; intros ? _; cbn; rewrite Hok; done.
Qed.

Lemma kheap_by_signal_copy ua src n off a :
  kheap_by E (fun _ => 0) (signal_copy ua src n off a).
Proof.
  unfold signal_copy.
  repeat first
    [ apply kheap_by_mret; reflexivity
    | apply kheap_by_area_write | apply kheap_by_memcpy_from
    | apply kheap_by_bind0; [| intros ?]
    | match goal with
      | |- kheap_by _ _ (if ?c then _ else _) => destruct c
      | |- kheap_by _ _ (match ?x with _ => _ end) => destruct x
      end ].
Qed.

Lemma kheap_by_vzalloc n : kheap_by E (fun _ => 0) (vzalloc E n).
Proof. unfold vzalloc. kheap_zero. Qed.

Lemma kheap_by_acquire :
  kheap_by E (fun _ => 0) (dxgglobal_acquire_channel_lock E).
Proof. unfold dxgglobal_acquire_channel_lock. kheap_zero. Qed.

Lemma kheap_by_release :
  kheap_by E (fun _ => 0) dxgglobal_release_channel_lock.
Proof. unfold dxgglobal_release_channel_lock. kheap_zero. Qed.

(** The common tail: send in one of the two ways, free, return. *)
Lemma kheap_by_send_and_exit (msg : dxgvmbusmsg) (ch : channel)
    (p1 p2 : packet) :
  kheap_by E (fun _ => 0 - msg_heap msg)
    (ret <- (if async_msg_enabled g
             then dxgvmb_send_async_msg E ch p1
             else dxgvmb_send_sync_msg_ntstatus K E ch p2) ;;
     free_message msg ;;; mret ret).
Proof.
  apply kheap_by_bind0.
  - destruct (async_msg_enabled g);
      [apply kheap_by_send_async | apply kheap_by_send_sync_ntstatus].
  - intros ret. apply kheap_by_exit.
Qed.

Lemma init_message_failure_no_heap adapter n w ret msg :
  (init_message K E g adapter n w).1 = Some (ret, msg) ->
  ret = 0 \/ msg_heap msg = 0.
Proof.
  unfold init_message, kzalloc, mbind, mret, emit.
  repeat case_match; cbn; intros [= <- <-]; auto.
Qed.

(** An encoder body after [init_message]: what is left to prove is that
    the continuation frees the message, if there is one. *)
Lemma kheap_by_with_message {A} (adapter : option dxgadapter) (n : Z)
    (k : Z * dxgvmbusmsg -> M A) :
  (forall ret msg, ret = 0 \/ msg_heap msg = 0 ->
                   kheap_by E (fun _ => 0 - msg_heap msg) (k (ret, msg))) ->
  kheap_by E (fun _ => 0) (mbind (init_message K E g adapter n) k).
Proof.
  intros Hk.
  eapply (kheap_by_bind_post
            (fun rm => rm.1 = 0 \/ msg_heap rm.2 = 0));
    [| apply kheap_by_init_message |].
  - intros w [ret msg]. apply init_message_failure_no_heap.
  - intros [ret msg]. apply Hk.
Qed.

(** Returning the error of [init_message] without freeing. *)
Lemma kheap_by_init_failed {A} (ret : Z) (msg : dxgvmbusmsg) (a : A) :
  ret = 0 \/ msg_heap msg = 0 -> negb (ret =? 0) = true ->
  kheap_by E (fun _ => 0 - msg_heap msg) (mret a).
Proof.
  intros [-> | Hm] Hne; [done |]. apply kheap_by_mret. lia.
Qed.

Ltac kheap_body :=
  repeat first
    [ apply kheap_by_exit
    | apply kheap_by_exit_empty
    | apply kheap_by_send_and_exit
    | apply kheap_by_bind0;
      [ first [ apply kheap_by_area_after | apply kheap_by_area_write
              | apply kheap_by_memcpy_from | apply kheap_by_msg_chan
              | apply kheap_by_signal_copy | apply kheap_by_send_sync
              | apply kheap_by_send_sync_ntstatus | apply kheap_by_vzalloc
              | apply kheap_by_acquire | apply kheap_by_release
              | apply kheap_by_mret; reflexivity
              | match goal with
                | |- kheap_by _ _ (if ?c then _ else _) =>
                    destruct c;
                    first [ apply kheap_by_area_write
                          | apply kheap_by_signal_copy
                          | apply kheap_by_mret; reflexivity ]
                end ]
      | intros ? ]
    | match goal with
      | |- kheap_by _ _ (if ?c then _ else _) => destruct c
      | |- kheap_by _ _ (match ?x with _ => _ end) => destruct x
      end ].

Lemma kheap_by_set_iospace_region start len gpadl :
  kheap_by E (fun _ => 0)
    (dxgvmb_send_set_iospace_region K E g start len gpadl).
Proof.
  unfold dxgvmb_send_set_iospace_region.
  apply kheap_by_with_message. intros ret msg Hinit.
  destruct (negb (ret =? 0)) eqn:Hret;
    [by eapply kheap_by_init_failed |].
  kheap_body.
Qed.







Lemma kheap_by_map_iospace addr size cached :
  kheap_by E (fun _ => 0) (dxg_map_iospace E g addr size cached).
Proof.
  intros w.
  unfold dxg_map_iospace, dxg_unmap_iospace, add_map, del_map, mbind, mret,
    emit.
  repeat case_match; simplify_eq; cbn;
    eexists; (split; [rewrite <- ?app_assoc; cbn; try reflexivity;
                      symmetry; apply app_nil_r |]);
    intros; reflexivity.
Qed.











(** The encoders of global messages return the error of [init_message]
    without [free_message]: nothing is allocated then. *)
Ltac kheap_global :=
  apply kheap_by_with_message; intros ?ret ?msg ?Hinit;
  match goal with
  | |- kheap_by _ _ (if negb (?r =? 0) then _ else _) =>
      destruct (negb (r =? 0)) eqn:?Hret;
      [by eapply kheap_by_init_failed |]
  end;
  kheap_body.

Lemma kheap_by_create_process process pid hh :
  kheap_by E (fun _ => 0) (dxgvmb_send_create_process K G E g process pid hh).
Proof. unfold dxgvmb_send_create_process. kheap_global. Qed.

Lemma kheap_by_destroy_process process :
  kheap_by E (fun _ => 0) (dxgvmb_send_destroy_process K G E g process).
Proof. unfold dxgvmb_send_destroy_process. kheap_global. Qed.

Lemma kheap_by_open_sync_object_nt h ch device flags affinity shared fence :
  kheap_by E (fun _ => 0)
    (dxgvmb_send_open_sync_object_nt K G E g h ch device flags affinity
       shared fence).
Proof.
  unfold dxgvmb_send_open_sync_object_nt. cbv zeta.
  apply kheap_by_with_message; intros ret msg Hinit.
  destruct (negb (ret =? 0)) eqn:Hret; [by eapply kheap_by_init_failed |].
  repeat first
    [ apply kheap_by_exit
    | apply kheap_by_bind0;
      [ first [ apply kheap_by_acquire | apply kheap_by_release
              | apply kheap_by_send_sync | apply kheap_by_map_iospace ]
      | intros ? ]
    | match goal with
      | |- kheap_by _ _ (if ?c then _ else _) => destruct c
      end ].
Qed.

Lemma kheap_by_create_nt_shared_object h object :
  kheap_by E (fun _ => 0)
    (dxgvmb_send_create_nt_shared_object K G E g h object).
Proof. unfold dxgvmb_send_create_nt_shared_object. kheap_global. Qed.

Lemma kheap_by_destroy_nt_shared_object shared_handle :
  kheap_by E (fun _ => 0)
    (dxgvmb_send_destroy_nt_shared_object K G E g shared_handle).
Proof. unfold dxgvmb_send_destroy_nt_shared_object. kheap_global. Qed.

Lemma kheap_by_destroy_sync_object h sync_object :
  kheap_by E (fun _ => 0)
    (dxgvmb_send_destroy_sync_object K G E g h sync_object).
Proof. unfold dxgvmb_send_destroy_sync_object. kheap_global. Qed.

Lemma kheap_by_share_object_with_host h device_handle object_handle :
  kheap_by E (fun _ => 0)
    (dxgvmb_send_share_object_with_host K G E g h device_handle
       object_handle).
Proof. unfold dxgvmb_send_share_object_with_host. kheap_global. Qed.

Lemma kheap_by_present_virtual h size data acquire release composition :
  kheap_by E (fun _ => 0)
    (dxgvmb_send_present_virtual K G E g h size data acquire release
       composition).
Proof.
  unfold dxgvmb_send_present_virtual. cbv zeta.
  apply kheap_by_with_message; intros ret msg Hinit.
  destruct (negb (ret =? 0)) eqn:Hret; [by eapply kheap_by_init_failed |].
  apply kheap_by_bind0; [apply kheap_by_area_after | intros area0].
  apply kheap_by_bind0.
  { destruct (negb (size =? 0)); [| by apply kheap_by_mret].
    destruct (copy_from_user data size); [| by apply kheap_by_mret].
    apply kheap_by_bind0; [apply kheap_by_area_write | intros ?].
    by apply kheap_by_mret. }
  intros [e | area1]; kheap_body.
Qed.

End HeapBalance.


(** ** Hardware queue creation: a fence handle that cannot be registered *)

(** X28: when the host has created the queue and the queue handle has been
    registered, but the registration of the progress fence handle fails,
    [dxgvmb_send_create_hwqueue] returns that error and sends the destroy
    message, yet leaves the queue's entry in the handle table: the queue
    object does not hold its handle yet at that point, so the cleanup has
    nothing to free. *)
Theorem create_hwqueue_fence_registration_failure (K : header) (E : env)
    (g : dxgglobal_t) (ph : Z) (adapter : option dxgadapter)
    (msg : dxgvmbusmsg) (priv_size : Z) (rp : reply) (hq : dxghwqueue)
    (w : world) (ret : Z) (hq' : dxghwqueue) :
  rp_hwqueue rp <> 0 -> hwq_handle hq = 0 ->
  (let size := if use_ext_header K g
               then u32 (sizeof_command_destroyhwqueue K
                         + sizeof_dxgvmb_ext_header K)
               else sizeof_command_destroyhwqueue K in
   size <= VMBUSMESSAGEONSTACK K \/ kzalloc_ok E size = true) ->
  0 <= rp_ret rp -> 0 <= ntstatus2int K (rp_status rp) ->
  0 <= hmgrtable_assign_handle_ret E HMGRENTRY_TYPE_DXGHWQUEUE
         (rp_hwqueue rp) ->
  hmgrtable_assign_handle_ret E HMGRENTRY_TYPE_MONITOREDFENCE
    (rp_hwqueue_progress_fence rp) < 0 ->
  let r := create_hwqueue_result K E g ph adapter msg priv_size rp hq w in
  r.1 = Some (ret, hq') ->
  ret = hmgrtable_assign_handle_ret E HMGRENTRY_TYPE_MONITOREDFENCE
          (rp_hwqueue_progress_fence rp) /\
  hwq_handle hq' = 0 /\
  w_handles r.2
  = <[rp_hwqueue rp := HMGRENTRY_TYPE_DXGHWQUEUE]> (w_handles w) /\
  exists t p hdr,
    w_trace r.2 = w_trace w ++ t /\
    sends t = [(channel_rule adapter (async_msg_enabled g), p)] /\
    pk_cmd p = command_destroyhwqueue hdr (rp_hwqueue rp).
Proof.
  intros Hh Hq0 Hok H1 H2 H3 H4 r Hr. subst r.
  destruct (create_hwqueue_result K E g ph adapter msg priv_size rp hq w)
    as [o w1] eqn:Hrun.
  cbn [fst snd] in *.
  unfold create_hwqueue_result in Hrun. cbv zeta in Hrun.
  rewrite (proj2 (Z.ltb_ge _ _) H1), (proj2 (Z.ltb_ge _ _) H2) in Hrun.
  unfold mbind at 1 in Hrun. rewrite assign_handle_run in Hrun.
  rewrite (proj2 (Z.ltb_ge _ _) H3), (proj2 (Z.leb_le _ _) H3) in Hrun.
  unfold mbind at 1 in Hrun. rewrite assign_handle_run in Hrun.
  cbn [w_trace w_handles w_maps] in Hrun.
  rewrite (proj2 (Z.ltb_lt _ _) H4), (proj2 (Z.leb_gt _ _) H4) in Hrun.
  set (r1 := hmgrtable_assign_handle_ret E HMGRENTRY_TYPE_DXGHWQUEUE
               (rp_hwqueue rp)) in *.
  set (r2 := hmgrtable_assign_handle_ret E HMGRENTRY_TYPE_MONITOREDFENCE
               (rp_hwqueue_progress_fence rp)) in *.
  set (e1 := EvAssignHandle HMGRENTRY_TYPE_DXGHWQUEUE (rp_hwqueue rp) r1) in *.
  set (e2 := EvAssignHandle HMGRENTRY_TYPE_MONITOREDFENCE
               (rp_hwqueue_progress_fence rp) r2) in *.
  match type of Hrun with
  | create_hwqueue_cleanup _ _ _ _ _ _ _ _ _ ?wX = _ =>
      pose proof (create_hwqueue_cleanup_ret K E g ph adapter msg
                    (Some (rp_hwqueue rp)) r2 hq wX ret hq') as Hret
  end.
  rewrite Hrun in Hret. specialize (Hret Hr). subst ret.
  edestruct (create_hwqueue_exit K E g ph adapter msg _ _ _ w _ [e1; e2] o
               w1 r2 hq' Hh Hok Hrun Hr H4)
    as (t & p & hdr & Ht & Hs & Hc & HF & Hh0 & Hma & Hmaps & Hhs & Hin & Hmu);
    [cbn; by rewrite <- app_assoc | done | by repeat constructor |].
  split; [done |]. split; [done |]. split.
  - rewrite Hhs, Hq0. cbn. done.
  - by exists t, p, hdr.
Qed.

Lemma create_hwqueue_fence_registration_failure_witness :
  - ENOMEM
  = hmgrtable_assign_handle_ret sample_env_fence_refused
      HMGRENTRY_TYPE_MONITOREDFENCE (rp_hwqueue_progress_fence sample_reply) /\
  hwq_handle {| hwq_handle := 0; progress_fence_sync_object := 0;
                progress_fence_mapped_address := 0 |} = 0 /\
  w_handles (create_hwqueue_result sample_header sample_env_fence_refused
               (sample_global false) 1 (Some sample_adapter) msg_empty 0
               sample_reply
               {| hwq_handle := 0; progress_fence_sync_object := 0;
                  progress_fence_mapped_address := 0 |} world0).2
  = <[rp_hwqueue sample_reply := HMGRENTRY_TYPE_DXGHWQUEUE]>
      (w_handles world0) /\
  exists t p hdr,
    w_trace (create_hwqueue_result sample_header sample_env_fence_refused
               (sample_global false) 1 (Some sample_adapter) msg_empty 0
               sample_reply
               {| hwq_handle := 0; progress_fence_sync_object := 0;
                  progress_fence_mapped_address := 0 |} world0).2
    = w_trace world0 ++ t /\
    sends t = [(channel_rule (Some sample_adapter)
                  (async_msg_enabled (sample_global false)), p)] /\
    pk_cmd p = command_destroyhwqueue hdr (rp_hwqueue sample_reply).
Proof.
  apply (create_hwqueue_fence_registration_failure sample_header
           sample_env_fence_refused (sample_global false) 1
           (Some sample_adapter) msg_empty 0 sample_reply
           {| hwq_handle := 0; progress_fence_sync_object := 0;
              progress_fence_mapped_address := 0 |} world0 (- ENOMEM)
           {| hwq_handle := 0; progress_fence_sync_object := 0;
              progress_fence_mapped_address := 0 |}).
  - discriminate.
  - reflexivity.
  - left. by vm_compute.
  - by vm_compute.
  - by vm_compute.
  - by vm_compute.
  - by vm_compute.
  - vm_compute. reflexivity.
Defined.

(** ** Global messages: the channel lock *)

Lemma sends_under_lock_app (held : bool) (t1 t2 : list event) :
  sends_under_lock held (t1 ++ t2)
  = sends_under_lock held t1 && sends_under_lock (lock_after held t1) t2.
Proof.
  revert held. induction t1 as [| e t1 IH]; intros held; [done |].
  destruct e; cbn [app sends_under_lock lock_after]; rewrite ?IH;
    try done; by rewrite andb_assoc.
Qed.

Lemma lock_after_app (held : bool) (t1 t2 : list event) :
  lock_after held (t1 ++ t2) = lock_after (lock_after held t1) t2.
Proof.
  revert held. induction t1 as [| e t1 IH]; intros held; [done |].
  destruct e; cbn [app lock_after]; by rewrite ?IH.
Qed.

Lemma lock_by_mret {A} (held : bool) (post : A -> bool) (a : A) :
  post a = held -> lock_by held post (mret a).
Proof.
  intros Hp w. exists []. cbn. rewrite app_nil_r.
  split; [done |]. split; [done |]. by intros ? [= <-].
Qed.

Lemma lock_by_fault {A} (held : bool) (post : A -> bool) :
  lock_by held post (@fault A).
Proof. intros w. exists []. cbn. rewrite app_nil_r. done. Qed.

Lemma lock_by_bind {A B} (held : bool) (p1 : A -> bool) (post : B -> bool)
    (m : M A) (k : A -> M B) :
  lock_by held p1 m -> (forall a, lock_by (p1 a) post (k a)) ->
  lock_by held post (mbind m k).
Proof.
  intros Hm Hk w. unfold mbind.
  destruct (Hm w) as (t1 & Ht1 & Hs1 & H1).
  destruct (m w) as [[a |] w1]; cbn in *.
  - destruct (Hk a w1) as (t2 & Ht2 & Hs2 & H2).
    exists (t1 ++ t2). rewrite Ht2, Ht1, app_assoc. split; [done |].
    rewrite sends_under_lock_app, lock_after_app, Hs1, (H1 a eq_refl).
    split; [done |]. exact H2.
  - exists t1. by rewrite Hs1.
Qed.

(** A computation that neither sends nor touches the lock. *)
Lemma lock_by_quiet {A} (held : bool) (m : M A) :
  emits quiet_event m ->
  lock_by held (fun _ => held) m.
Proof.
  intros Hm w. destruct (Hm w) as (t & Ht & HP).
  exists t. split; [done |].
  assert (H : sends_under_lock held t = true /\ lock_after held t = held).
  { clear Ht. induction HP as [| e t [He1 He2] HP IH]; [done |].
    destruct e; try done. }
  destruct H. done.
Qed.

Lemma lock_by_bind_quiet {A B} (held : bool) (post : B -> bool)
    (m : M A) (k : A -> M B) :
  emits quiet_event m ->
  (forall a, lock_by held post (k a)) ->
  lock_by held post (mbind m k).
Proof.
  intros Hm Hk. eapply lock_by_bind; [by apply lock_by_quiet | exact Hk].
Qed.

Section LockPrimitives.
Variable K : header.
Variable E : env.
Variable g : dxgglobal_t.

Lemma quiet_init_message adapter n : emits quiet_event (init_message K E g adapter n).
Proof. by apply emits_init_message. Qed.

Lemma quiet_free_message msg : emits quiet_event (free_message msg).
Proof. by apply emits_free_message. Qed.

Lemma quiet_map_iospace addr size cached :
  emits quiet_event (dxg_map_iospace E g addr size cached).
Proof.
  intros w.
  unfold dxg_map_iospace, dxg_unmap_iospace, add_map, del_map, mbind, mret,
    emit.
  repeat case_match; simplify_eq; cbn;
    eexists; (split; [rewrite <- ?app_assoc; cbn; try reflexivity;
                      symmetry; apply app_nil_r |]);
    repeat constructor.
Qed.

Lemma lock_by_acquire (held : bool) :
  lock_by held (fun ret => if 0 <=? ret then true else held)
    (dxgglobal_acquire_channel_lock E).
Proof.
  intros w. eexists [_]. cbn. split; [done |]. split; [done |].
  by intros ? [= <-].
Qed.

Lemma lock_by_release (held : bool) :
  lock_by held (fun _ => false) dxgglobal_release_channel_lock.
Proof. intros w. eexists [_]. cbn. done. Qed.

Lemma lock_by_send_sync ch p n :
  lock_by true (fun _ => true) (dxgvmb_send_sync_msg E ch p n).
Proof. intros w. eexists [_]. cbn. done. Qed.

Lemma lock_by_send_sync_ntstatus ch p :
  lock_by true (fun _ => true) (dxgvmb_send_sync_msg_ntstatus K E ch p).
Proof.
  intros w.
  unfold dxgvmb_send_sync_msg_ntstatus, dxgvmb_send_sync_msg, kzalloc,
    mbind, mret, emit, fault.
  cbn. destruct (kzalloc_ok E (sizeof_ntstatus K));
    destruct (0 <=? rp_ret _); cbn;
    eexists; (split; [rewrite <- ?app_assoc; reflexivity |]); done.
Qed.

(** Leaving with the lock free. *)
Lemma lock_by_exit {A} (msg : dxgvmbusmsg) (a : A) :
  lock_by false (fun _ => false) (free_message msg ;;; mret a).
Proof.
  apply lock_by_bind_quiet; [apply quiet_free_message |].
  intros ?. by apply lock_by_mret.
Qed.

(** The critical section of the status-only encoders. *)
Lemma lock_by_locked_ntstatus (msg : dxgvmbusmsg) (ch : channel) (p : packet) :
  lock_by false (fun _ => false)
    (ret <- dxgglobal_acquire_channel_lock E ;;
     if ret <? 0 then free_message msg ;;; mret ret
     else
       ret <- dxgvmb_send_sync_msg_ntstatus K E ch p ;;
       dxgglobal_release_channel_lock ;;;
       free_message msg ;;;
       mret ret).
Proof.
  eapply lock_by_bind; [apply lock_by_acquire |].
  intros ret. cbv beta.
  destruct (Z.ltb_spec ret 0).
  - rewrite (proj2 (Z.leb_gt 0 ret)) by lia. apply lock_by_exit.
  - rewrite (proj2 (Z.leb_le 0 ret)) by lia.
    eapply lock_by_bind; [apply lock_by_send_sync_ntstatus |].
    intros ret'. cbv beta.
    eapply lock_by_bind; [apply lock_by_release |].
    intros ?. cbv beta. apply lock_by_exit.
Qed.

(** The critical section of the encoders that read a result: [k] is what
    follows the release of the lock. *)
Lemma lock_by_locked_sync {A} (msg : dxgvmbusmsg) (ch : channel)
    (p : packet) (n : Z) (a : Z -> A) (k : reply -> M A) :
  (forall rp, lock_by false (fun _ => false) (k rp)) ->
  lock_by false (fun _ => false)
    (ret <- dxgglobal_acquire_channel_lock E ;;
     if ret <? 0 then free_message msg ;;; mret (a ret)
     else
       rp <- dxgvmb_send_sync_msg E ch p n ;;
       dxgglobal_release_channel_lock ;;;
       k rp).
Proof.
  intros Hk.
  eapply lock_by_bind; [apply lock_by_acquire |].
  intros ret. cbv beta.
  destruct (Z.ltb_spec ret 0).
  - rewrite (proj2 (Z.leb_gt 0 ret)) by lia. apply lock_by_exit.
  - rewrite (proj2 (Z.leb_le 0 ret)) by lia.
    eapply lock_by_bind; [apply lock_by_send_sync |].
    intros rp. cbv beta.
    eapply lock_by_bind; [apply lock_by_release |].
    intros ?. cbv beta. apply Hk.
Qed.

End LockPrimitives.

Section GlobalEncoders.
Variable K : header.
Variable G : header_global.
Variable E : env.
Variable g : dxgglobal_t.

Lemma sends_on_quiet (c : channel) (e : event) :
  is_send e = false -> sends_on c e.
Proof. by destruct e. Qed.

Lemma emits_sends_on_quiet {A} (c : channel) (m : M A) :
  emits quiet_event m -> emits (sends_on c) m.
Proof.
  apply emits_weaken. intros e [He _]. by apply sends_on_quiet.
Qed.

(** The steps of an encoder, for the channel of its transport calls. *)
Ltac sends_on_steps :=
  repeat first
    [ apply emits_mret | apply emits_fault
    | apply emits_within_free_message; apply sends_on_quiet
    | apply emits_within_init_message; apply sends_on_quiet
    | apply emits_area_after | apply emits_area_write
    | apply emits_within_send_sync; reflexivity
    | apply emits_within_send_sync_ntstatus;
      [apply sends_on_quiet | reflexivity]
    | apply emits_sends_on_quiet, quiet_map_iospace
    | match goal with
      | |- emits _ (dxgglobal_acquire_channel_lock _) =>
          unfold dxgglobal_acquire_channel_lock
      | |- emits _ dxgglobal_release_channel_lock =>
          unfold dxgglobal_release_channel_lock
      | |- emits _ (emit _) => apply emits_emit; exact I
      end
    | apply emits_bind; [| intros ?]
    | match goal with
      | |- emits _ (if ?c then _ else _) => destruct c
      | |- emits _ (match ?x with _ => _ end) => destruct x
      end ].

Lemma global_encoder_set_iospace_region start len gpadl :
  global_encoder E global_channel
    (dxgvmb_send_set_iospace_region K E g start len gpadl).
Proof.
  split; [split |].
  - unfold dxgvmb_send_set_iospace_region.
    apply lock_by_bind_quiet; [apply quiet_init_message |].
    intros [ret msg]. destruct (negb (ret =? 0)); [by apply lock_by_mret |].
    apply lock_by_locked_ntstatus.
  - unfold dxgvmb_send_set_iospace_region. sends_on_steps.
  - apply kheap_by_set_iospace_region.
Qed.

Lemma global_encoder_create_process process pid hh :
  global_encoder E global_channel
    (dxgvmb_send_create_process K G E g process pid hh).
Proof.
  split; [split |].
  - unfold dxgvmb_send_create_process. cbv zeta.
    apply lock_by_bind_quiet; [apply quiet_init_message |].
    intros [ret msg]. destruct (negb (ret =? 0)); [by apply lock_by_mret |].
    apply (lock_by_locked_sync E msg _ _ _ (fun ret => (ret, hh))).
    intros rp. apply lock_by_exit.
  - unfold dxgvmb_send_create_process. cbv zeta. sends_on_steps.
  - apply kheap_by_create_process.
Qed.

Lemma global_encoder_destroy_process process :
  global_encoder E global_channel
    (dxgvmb_send_destroy_process K G E g process).
Proof.
  split; [split |].
  - unfold dxgvmb_send_destroy_process.
    apply lock_by_bind_quiet; [apply quiet_init_message |].
    intros [ret msg]. destruct (negb (ret =? 0)); [by apply lock_by_mret |].
    apply lock_by_locked_ntstatus.
  - unfold dxgvmb_send_destroy_process. sends_on_steps.
  - apply kheap_by_destroy_process.
Qed.

Lemma global_encoder_open_sync_object_nt h ch device flags affinity shared
    fence :
  global_encoder E ch
    (dxgvmb_send_open_sync_object_nt K G E g h ch device flags affinity
       shared fence).
Proof.
  split; [split |].
  - unfold dxgvmb_send_open_sync_object_nt. cbv zeta.
    apply lock_by_bind_quiet; [apply quiet_init_message |].
    intros [ret msg]. destruct (negb (ret =? 0)); [by apply lock_by_mret |].
    apply (lock_by_locked_sync E msg _ _ _
             (fun ret => (ret, opensyncobject_untouched))).
    intros rp.
    repeat first
      [ apply lock_by_exit
      | apply lock_by_bind_quiet; [apply quiet_map_iospace | intros ?]
      | match goal with
        | |- lock_by _ _ (if ?c then _ else _) => destruct c
        end ].
  - unfold dxgvmb_send_open_sync_object_nt. cbv zeta. sends_on_steps.
  - apply kheap_by_open_sync_object_nt.
Qed.

Lemma global_encoder_create_nt_shared_object h object :
  global_encoder E global_channel
    (dxgvmb_send_create_nt_shared_object K G E g h object).
Proof.
  split; [split |].
  - unfold dxgvmb_send_create_nt_shared_object. cbv zeta.
    apply lock_by_bind_quiet; [apply quiet_init_message |].
    intros [ret msg]. destruct (negb (ret =? 0)); [by apply lock_by_mret |].
    apply (lock_by_locked_sync E msg _ _ _ (fun ret => (ret, None))).
    intros rp. apply lock_by_exit.
  - unfold dxgvmb_send_create_nt_shared_object,
      dxgglobal_get_dxgvmbuschannel. cbv zeta. sends_on_steps.
  - apply kheap_by_create_nt_shared_object.
Qed.

Lemma global_encoder_destroy_nt_shared_object shared_handle :
  global_encoder E global_channel
    (dxgvmb_send_destroy_nt_shared_object K G E g shared_handle).
Proof.
  split; [split |].
  - unfold dxgvmb_send_destroy_nt_shared_object. cbv zeta.
    apply lock_by_bind_quiet; [apply quiet_init_message |].
    intros [ret msg]. destruct (negb (ret =? 0)); [by apply lock_by_mret |].
    apply lock_by_locked_ntstatus.
  - unfold dxgvmb_send_destroy_nt_shared_object,
      dxgglobal_get_dxgvmbuschannel. cbv zeta. sends_on_steps.
  - apply kheap_by_destroy_nt_shared_object.
Qed.

Lemma global_encoder_destroy_sync_object h sync_object :
  global_encoder E global_channel
    (dxgvmb_send_destroy_sync_object K G E g h sync_object).
Proof.
  split; [split |].
  - unfold dxgvmb_send_destroy_sync_object. cbv zeta.
    apply lock_by_bind_quiet; [apply quiet_init_message |].
    intros [ret msg]. destruct (negb (ret =? 0)); [by apply lock_by_mret |].
    apply lock_by_locked_ntstatus.
  - unfold dxgvmb_send_destroy_sync_object,
      dxgglobal_get_dxgvmbuschannel. cbv zeta. sends_on_steps.
  - apply kheap_by_destroy_sync_object.
Qed.

Lemma global_encoder_share_object_with_host h device_handle object_handle :
  global_encoder E global_channel
    (dxgvmb_send_share_object_with_host K G E g h device_handle
       object_handle).
Proof.
  split; [split |].
  - unfold dxgvmb_send_share_object_with_host. cbv zeta.
    apply lock_by_bind_quiet; [apply quiet_init_message |].
    intros [ret msg]. destruct (negb (ret =? 0)); [by apply lock_by_mret |].
    apply (lock_by_locked_sync E msg _ _ _ (fun ret => (ret, None))).
    intros rp. apply lock_by_exit.
  - unfold dxgvmb_send_share_object_with_host,
      dxgglobal_get_dxgvmbuschannel. cbv zeta. sends_on_steps.
  - apply kheap_by_share_object_with_host.
Qed.

Lemma global_encoder_present_virtual h size data acquire release
    composition :
  global_encoder E global_channel
    (dxgvmb_send_present_virtual K G E g h size data acquire release
       composition).
Proof.
  split; [split |].
  - unfold dxgvmb_send_present_virtual. cbv zeta.
    apply lock_by_bind_quiet; [apply quiet_init_message |].
    intros [ret msg]. destruct (negb (ret =? 0)); [by apply lock_by_mret |].
    apply lock_by_bind_quiet; [apply emits_area_after | intros area0].
    apply lock_by_bind_quiet.
    { destruct (negb (size =? 0)); [| apply emits_mret].
      destruct (copy_from_user data size); [| apply emits_mret].
      apply emits_bind; [apply emits_area_write | intros ?].
      apply emits_mret. }
    intros [e | area1]; [apply lock_by_exit |].
    apply lock_by_locked_ntstatus.
  - unfold dxgvmb_send_present_virtual, dxgglobal_get_dxgvmbuschannel.
    cbv zeta. sends_on_steps.
  - apply kheap_by_present_virtual.
Qed.

End GlobalEncoders.

(** X29: the nine encoders of global messages keep the channel-lock
    discipline: started with the lock free, each makes its transport call
    only with the lock held, sends nothing when the lock is refused, has
    released the lock when it returns, and releases its message.  All send
    on the global channel, except [dxgvmb_send_open_sync_object_nt], which
    sends on the channel that its caller passes. *)
Theorem global_encoders_hold_channel_lock (K : header) (G : header_global)
    (E : env) (g : dxgglobal_t) :
  (forall start len gpadl,
     global_encoder E global_channel
       (dxgvmb_send_set_iospace_region K E g start len gpadl)) /\
  (forall process pid host_handle,
     global_encoder E global_channel
       (dxgvmb_send_create_process K G E g process pid host_handle)) /\
  (forall process,
     global_encoder E global_channel
       (dxgvmb_send_destroy_process K G E g process)) /\
  (forall h ch device flags affinity shared fence,
     global_encoder E ch
       (dxgvmb_send_open_sync_object_nt K G E g h ch device flags affinity
          shared fence)) /\
  (forall h object,
     global_encoder E global_channel
       (dxgvmb_send_create_nt_shared_object K G E g h object)) /\
  (forall shared_handle,
     global_encoder E global_channel
       (dxgvmb_send_destroy_nt_shared_object K G E g shared_handle)) /\
  (forall h sync_object,
     global_encoder E global_channel
       (dxgvmb_send_destroy_sync_object K G E g h sync_object)) /\
  (forall h device_handle object_handle,
     global_encoder E global_channel
       (dxgvmb_send_share_object_with_host K G E g h device_handle
          object_handle)) /\
  (forall h size data acquire release composition,
     global_encoder E global_channel
       (dxgvmb_send_present_virtual K G E g h size data acquire release
          composition)).
Proof.
  split; [intros; apply global_encoder_set_iospace_region |].
  split; [intros; apply global_encoder_create_process |].
  split; [intros; apply global_encoder_destroy_process |].
  split; [intros; apply global_encoder_open_sync_object_nt |].
  split; [intros; apply global_encoder_create_nt_shared_object |].
  split; [intros; apply global_encoder_destroy_nt_shared_object |].
  split; [intros; apply global_encoder_destroy_sync_object |].
  split; [intros; apply global_encoder_share_object_with_host |].
  intros; apply global_encoder_present_virtual.
Qed.


Lemma global_encoders_hold_channel_lock_witness :
  exists t,
    w_trace (dxgvmb_send_create_process sample_header sample_header_global
               (sample_env (fun _ => true) []) (sample_global false)
               0x1000 42 0 world0).2 = t /\
    sends_under_lock false t = true /\
    lock_after false t = false /\
    map fst (sends t) = [global_channel].
Proof.
  destruct (global_encoders_hold_channel_lock sample_header
              sample_header_global (sample_env (fun _ => true) [])
              (sample_global false)) as (_ & Hprocess & _).
  destruct (Hprocess 0x1000 42 0) as ((Hlock & _) & _).
  destruct (Hlock world0) as (t & Ht & Hs & Hl).
  exists t. split; [exact Ht |]. split; [exact Hs |].
  split; [eapply Hl; by vm_compute |].
  cbn [w_trace world0 app] in Ht. rewrite <- Ht. by vm_compute.
Defined.

(** ** Virtual GPU messages: no channel lock *)

Section NoLock.
Variable K : header.
Variable E : env.
Variable g : dxgglobal_t.
Variable P : event -> Prop.
Hypothesis P_nolock : forall e, is_lock_event e = false -> P e.

Lemma emits_nolock_map_iospace addr size cached :
  emits P (dxg_map_iospace E g addr size cached).
Proof.
  intros w.
  unfold dxg_map_iospace, dxg_unmap_iospace, add_map, del_map, mbind, mret,
    emit.
  repeat case_match; simplify_eq; cbn;
    eexists; (split; [rewrite <- ?app_assoc; cbn; try reflexivity;
                      symmetry; apply app_nil_r |]);
    repeat constructor; by apply P_nolock.
Qed.

Lemma emits_nolock_assign_handle t h :
  emits P (hmgrtable_assign_handle_safe E t h).
Proof.
  intros w. eexists [_]. split; [reflexivity |].
  constructor; [by apply P_nolock | constructor].
Qed.

Lemma emits_nolock_free_handle t h :
  emits P (hmgrtable_free_handle_safe t h).
Proof.
  intros w. eexists [_]. split; [reflexivity |].
  constructor; [by apply P_nolock | constructor].
Qed.

(** The steps of an encoder that has no operation of the channel lock. *)
Ltac nolock_steps :=
  repeat first
    [ apply emits_mret | apply emits_fault
    | apply emits_emit, P_nolock; reflexivity
    | apply emits_nolock_map_iospace
    | apply emits_nolock_assign_handle
    | apply emits_nolock_free_handle
    | apply emits_bind; [| intros ?]
    | match goal with
      | |- emits _ (if ?c then _ else _) => destruct c
      | |- emits _ (match ?x with _ => _ end) => destruct x
      end
    | progress unfold init_message, free_message, kzalloc, vzalloc,
        msg_chan, area_after, area_write, memcpy_from, signal_copy,
        dxgvmb_send_sync_msg, dxgvmb_send_async_msg,
        dxgvmb_send_sync_msg_ntstatus, copy_to_user;
      cbv zeta ].

Lemma emits_nolock_wait_sync_object_gpu h adapter ctx n objs fences legacy :
  emits P (dxgvmb_send_wait_sync_object_gpu K E g h adapter ctx n objs fences
             legacy).
Proof. unfold dxgvmb_send_wait_sync_object_gpu. cbv zeta. nolock_steps. Qed.

Lemma emits_nolock_destroy_hwqueue h adapter handle :
  emits P (dxgvmb_send_destroy_hwqueue K E g h adapter handle).
Proof. unfold dxgvmb_send_destroy_hwqueue. nolock_steps. Qed.

Lemma emits_nolock_hwqueue_cleanup h adapter msg ch ret hq :
  emits P (create_hwqueue_cleanup K E g h adapter msg ch ret hq).
Proof.
  unfold create_hwqueue_cleanup.
  repeat first
    [ apply emits_nolock_destroy_hwqueue
    | apply emits_mret
    | apply emits_nolock_free_handle
    | apply emits_bind; [| intros ?]
    | match goal with
      | |- emits _ (if ?c then _ else _) => destruct c
      | |- emits _ (match ?x with _ => _ end) => destruct x
      end
    | progress unfold free_message
    | apply emits_emit, P_nolock; reflexivity ].
Qed.

Lemma emits_nolock_hwqueue_result h adapter msg priv_size rp hq :
  emits P (create_hwqueue_result K E g h adapter msg priv_size rp hq).
Proof.
  unfold create_hwqueue_result. cbv zeta.
  repeat first
    [ apply emits_nolock_hwqueue_cleanup
    | apply emits_nolock_map_iospace
    | apply emits_nolock_assign_handle
    | apply emits_bind; [| intros ?]
    | match goal with
      | |- emits _ (if ?c then _ else _) => destruct c
      end
    | progress unfold copy_to_user
    | apply emits_emit, P_nolock; reflexivity
    | apply emits_mret ].
Qed.

Lemma emits_nolock_create_hwqueue h adapter context flags priv_size priv hq :
  emits P (dxgvmb_send_create_hwqueue K E g h adapter context flags priv_size
             priv hq).
Proof.
  unfold dxgvmb_send_create_hwqueue. cbv zeta.
  repeat first
    [ apply emits_nolock_hwqueue_cleanup
    | apply emits_nolock_hwqueue_result
    | apply emits_mret | apply emits_fault
    | apply emits_emit, P_nolock; reflexivity
    | apply emits_bind; [| intros ?]
    | match goal with
      | |- emits _ (if ?c then _ else _) => destruct c
      | |- emits _ (match ?x with _ => _ end) => destruct x
      end
    | progress unfold init_message, kzalloc, msg_chan, area_after,
        area_write, dxgvmb_send_sync_msg;
      cbv zeta ].
Qed.

Lemma emits_nolock_get_allocation_size h adapter args alloc_info size :
  emits P (dxgvmb_send_get_allocation_size K E g h adapter args alloc_info
             size).
Proof. unfold dxgvmb_send_get_allocation_size. cbv zeta. nolock_steps. Qed.

Lemma emits_nolock_rle_allocs limit l :
  forall i used, emits P (rle_allocs E i limit l used).
Proof.
  induction l as [| [a size] l IH]; intros i used; cbn [rle_allocs].
  - apply emits_mret.
  - apply emits_bind; [unfold rle_alloc; cbv zeta; nolock_steps |].
    intros [[ret recs] used'].
    destruct (ret =? 0); [| apply emits_mret].
    apply emits_bind; [apply IH |]. intros [ret' out]. apply emits_mret.
Qed.

Lemma emits_nolock_create_allocation h adapter args alloc_info :
  emits P (dxgvmb_send_create_allocation K E g h adapter args alloc_info).
Proof.
  unfold dxgvmb_send_create_allocation, create_allocation_cleanup,
    create_local_allocations, copy_sysmem_pages_rle_data.
  cbv zeta.
  repeat first
    [ apply emits_nolock_get_allocation_size
    | apply emits_nolock_rle_allocs
    | apply emits_mret | apply emits_fault
    | apply emits_emit, P_nolock; reflexivity
    | apply emits_bind; [| intros ?]
    | match goal with
      | |- emits _ (if ?c then _ else _) => destruct c
      | |- emits _ (match ?x with _ => _ end) => destruct x
      end
    | progress unfold init_message, free_message, kzalloc, vzalloc,
        msg_chan, dxgvmb_send_sync_msg, dxgvmb_send_sync_msg_ntstatus;
      cbv zeta ].
Qed.

End NoLock.

(** ** The channel lock: which encoders take it *)

Lemma emits_sends_on_signal_sync_object (K : header) (E : env)
    (g : dxgglobal_t) h adapter ece lfv ctx oc objs cc ctxs fc fences ceh
    dev ua :
  emits (sends_on (channel_rule adapter (async_msg_enabled g)))
    (dxgvmb_send_signal_sync_object K E g h adapter ece lfv ctx oc objs
       cc ctxs fc fences ceh dev ua).
Proof.
  set (c := channel_rule _ _).
  assert (Hq : forall e, is_send e = false -> sends_on c e)
    by (by intros []).
  unfold dxgvmb_send_signal_sync_object. cbv zeta.
  eapply (emits_bind_post _
            (fun rm => rm.1 = 0 -> msg_channel rm.2 = Some c));
    [intros w rm; apply init_message_channel_rule
    | by apply emits_within_init_message |].
  intros [ret msg] Hch. cbn [fst snd] in Hch.
  destruct (Z.eqb_spec ret 0) as [-> | Hne]; cbn [negb];
    [| apply emits_bind; [by apply emits_within_free_message |];
       intros; apply emits_mret].
  specialize (Hch eq_refl).
  repeat first [apply emits_mret
               | by apply emits_within_free_message
               | apply emits_area_after | apply emits_area_write
               | apply emits_signal_copy
               | match goal with
                 | |- emits _ (mbind (msg_chan msg) _) =>
                     unfold msg_chan; rewrite Hch;
                     eapply (emits_bind_post _ (fun ch => ch = c));
                     [by intros ? ? [= <-] | apply emits_mret
                     | intros ? ->]
                 | |- emits _ (dxgvmb_send_async_msg _ _ _) =>
                     by apply emits_within_send_async
                 | |- emits _ (dxgvmb_send_sync_msg_ntstatus _ _ _ _) =>
                     by apply emits_within_send_sync_ntstatus
                 end
               | apply emits_bind; [| intros ?]
               | match goal with
                 | |- emits _ (if ?c then _ else _) => destruct c
                 | |- emits _ (match ?x with _ => _ end) => destruct x
                 end].
Qed.

(** C9. Which encoders take the channel lock.  Each of the nine encoders of
    global messages keeps the discipline: started with the lock free, it
    makes its transport call only with the lock held, sends nothing when
    the lock is refused, and the lock is free again when it returns; they
    send on the global channel, [dxgvmb_send_open_sync_object_nt] on the
    channel that its caller passes.  [dxgvmb_send_signal_sync_object]
    never takes or releases the channel lock, and its transport calls go
    to the channel of the selection rule: the adapter's own channel or,
    when [async_msg_enabled] is set or no adapter is given, the global
    channel, the one that the encoders of global messages lock.  The other
    encoders of virtual GPU messages of this model never take or release
    the lock either. *)
Theorem channel_lock_discipline (K : header) (G : header_global) (E : env)
    (g : dxgglobal_t) :
  ((forall start len gpadl,
      locked_encoder global_channel
        (dxgvmb_send_set_iospace_region K E g start len gpadl)) /\
   (forall process pid host_handle,
      locked_encoder global_channel
        (dxgvmb_send_create_process K G E g process pid host_handle)) /\
   (forall process,
      locked_encoder global_channel
        (dxgvmb_send_destroy_process K G E g process)) /\
   (forall h ch device flags affinity shared fence,
      locked_encoder ch
        (dxgvmb_send_open_sync_object_nt K G E g h ch device flags affinity
           shared fence)) /\
   (forall h object,
      locked_encoder global_channel
        (dxgvmb_send_create_nt_shared_object K G E g h object)) /\
   (forall shared_handle,
      locked_encoder global_channel
        (dxgvmb_send_destroy_nt_shared_object K G E g shared_handle)) /\
   (forall h sync_object,
      locked_encoder global_channel
        (dxgvmb_send_destroy_sync_object K G E g h sync_object)) /\
   (forall h device_handle object_handle,
      locked_encoder global_channel
        (dxgvmb_send_share_object_with_host K G E g h device_handle
           object_handle)) /\
   (forall h size data acquire release composition,
      locked_encoder global_channel
        (dxgvmb_send_present_virtual K G E g h size data acquire release
           composition))) /\
  (forall h adapter ece lfv ctx oc objs cc ctxs fc fences ceh dev ua,
     emits (fun e => is_lock_event e = false)
       (dxgvmb_send_signal_sync_object K E g h adapter ece lfv ctx oc objs
          cc ctxs fc fences ceh dev ua) /\
     emits (sends_on (channel_rule adapter (async_msg_enabled g)))
       (dxgvmb_send_signal_sync_object K E g h adapter ece lfv ctx oc objs
          cc ctxs fc fences ceh dev ua)) /\
  ((forall h adapter ctx n objs fences legacy,
      emits (fun e => is_lock_event e = false)
        (dxgvmb_send_wait_sync_object_gpu K E g h adapter ctx n objs fences
           legacy)) /\
   (forall h adapter handle,
      emits (fun e => is_lock_event e = false)
        (dxgvmb_send_destroy_hwqueue K E g h adapter handle)) /\
   (forall h adapter context flags priv_size priv hq,
      emits (fun e => is_lock_event e = false)
        (dxgvmb_send_create_hwqueue K E g h adapter context flags priv_size
           priv hq)) /\
   (forall h adapter args alloc_info result_size,
      emits (fun e => is_lock_event e = false)
        (dxgvmb_send_get_allocation_size K E g h adapter args alloc_info
           result_size)) /\
   (forall h adapter args alloc_info,
      emits (fun e => is_lock_event e = false)
        (dxgvmb_send_create_allocation K E g h adapter args alloc_info))).
Proof.
  split; [| split].
  - split; [intros; apply global_encoder_set_iospace_region |].
    split; [intros; apply global_encoder_create_process |].
    split; [intros; apply global_encoder_destroy_process |].
    split; [intros; apply global_encoder_open_sync_object_nt |].
    split; [intros; apply global_encoder_create_nt_shared_object |].
    split; [intros; apply global_encoder_destroy_nt_shared_object |].
    split; [intros; apply global_encoder_destroy_sync_object |].
    split; [intros; apply global_encoder_share_object_with_host |].
    intros; apply global_encoder_present_virtual.
  - intros. split; [apply emits_signal_sync_object; intros; reflexivity |].
    apply emits_sends_on_signal_sync_object.
  - split; [intros; by apply emits_nolock_wait_sync_object_gpu |].
    split; [intros; by apply emits_nolock_destroy_hwqueue |].
    split; [intros; by apply emits_nolock_create_hwqueue |].
    split; [intros; by apply emits_nolock_get_allocation_size |].
    intros; by apply emits_nolock_create_allocation.
Qed.

Lemma channel_lock_discipline_witness :
  (exists t,
     w_trace (dxgvmb_send_set_iospace_region sample_header
                (sample_env (fun _ => true) []) (sample_global false)
                0x10000000 0x100000 0 world0).2 = t /\
     Forall (sends_on global_channel) t /\
     sends_under_lock false t = true /\
     lock_after false t = false) /\
  emits (sends_on (adapter_channel sample_adapter))
    (dxgvmb_send_signal_sync_object sample_header
       (sample_env (fun _ => true) []) (sample_global false) 1
       (Some sample_adapter) false 0 0 1 [0x40000005] 0 [] 0 None 0 7
       false).
Proof.
  destruct (channel_lock_discipline sample_header sample_header_global
              (sample_env (fun _ => true) []) (sample_global false))
    as ((Hregion & _) & Hsignal & _).
  split.
  - destruct (Hregion 0x10000000 0x100000 0) as [Hlock Hon].
    destruct (Hlock world0) as (t & Ht & Hs & Hfree).
    exists t. split; [exact Ht |].
    split.
    + destruct (Hon world0) as (t' & Ht' & HP).
      rewrite Ht in Ht'. apply app_inv_head in Ht'. by subst t'.
    + split; [exact Hs |]. eapply Hfree. by vm_compute.
  - exact (proj2 (Hsignal 1 (Some sample_adapter) false 0 0 1 [0x40000005]
                    0 [] 0 None 0 7 false)).
Defined.

(** The claim C9 fails for [dxgvmb_send_signal_sync_object].  With
    asynchronous messages off it sends one message on the adapter channel,
    with them on it sends one on the global channel, and in both runs the
    channel lock is not held at that send.  So the lock does not order the
    submissions of a channel: in the schedule in which a second thread
    signals right after the first thread, in
    [dxgvmb_send_set_iospace_region], has taken the lock, the lock is
    respected and the second thread sends on the global channel while the
    first one holds the lock for its own message. *)
Lemma signal_sync_object_sends_without_lock :
  let signal async :=
    dxgvmb_send_signal_sync_object sample_header
      (sample_env (fun _ => true) []) (sample_global async) 1
      (Some sample_adapter) false 0 0 1 [0x40000005] 0 [] 0 None 0 7
      false world0 in
  let region :=
    dxgvmb_send_set_iospace_region sample_header
      (sample_env (fun _ => true) []) (sample_global true)
      0x10000000 0x100000 0 world0 in
  ((signal false).1 = Some 0 /\
   map fst (sends (w_trace (signal false).2))
   = [adapter_channel sample_adapter] /\
   sends_under_lock false (w_trace (signal false).2) = false) /\
  ((signal true).1 = Some 0 /\
   map fst (sends (w_trace (signal true).2)) = [global_channel] /\
   sends_under_lock false (w_trace (signal true).2) = false) /\
  (region.1 = Some 0 /\
   map fst (sends (w_trace region.2)) = [global_channel] /\
   exists t,
     interleaving (w_trace region.2) (w_trace (signal true).2) t /\
     lock_exclusive None t = true /\
     sends_beside_holder global_channel None t = [true]).
Proof.
  cbv zeta. split; [by vm_compute |]. split; [by vm_compute |].
  split; [by vm_compute |]. split; [by vm_compute |].
  eexists. split; [apply (interleaving_schedule_after 2) |].
  by vm_compute.
Qed.

(** ** Allocation creation: a record budget that does not fit its [u32] *)

(** X30: the byte count of [calculate_max_rle_data_size] is a [u64] that
    [dxgvmb_send_create_allocation] keeps in a [u32].  When the host
    announces sizes whose page records need 2^32 + 64 bytes (16 pages for
    the first allocation, 2^29 - 8 pages for a second one that has no
    private driver data and is not encoded), 64 bytes are reserved, the
    check of [cmd_size] passes, and [copy_sysmem_pages_rle_data], which
    compares the number of records with that byte count, stores the 16
    records of the first allocation: the message that is sent has 192
    bytes, of which 64 are for the records, and carries 128 bytes of
    records. *)
Theorem rle_limit_truncation_overruns_region :
  let sizes := [16 * PAGE_SIZE; (2 ^ 29 - 8) * PAGE_SIZE] in
  let r := dxgvmb_send_create_allocation sample_header
             (sample_env_scattered sizes) (sample_global false) 1
             (Some sample_adapter) (sample_create_args 2)
             [sample_sysmem_alloc; sample_sysmem_alloc_bare] world0 in
  calculate_max_rle_data_size 2 sizes = 2 ^ 32 + 64 /\
  u32 (calculate_max_rle_data_size 2 sizes) = 64 /\
  r.1 = Some 0 /\
  createallocation_sent (w_trace r.2) = [(192, 16)] /\
  sizeof_dxgvmb_ext_header sample_header
  + sizeof_command_createallocation sample_header
  + 2 * sizeof_command_createallocation_allocinfo sample_header
  + 8 + 64 = 192.
Proof. vm_compute. done. Qed.
